(** * Scaffolding utilities of [operations.base.utils]

    A shallow embedding of [src/operations/base/utils/__init__.py]
    (the functions [library_create], [replace_placeholders_in_file],
    [library_exists], [operation_exists], [operation_create] and
    [to_camel_case]) together with a model of the part of the Python
    standard library and of the POSIX file system these functions call
    into.

    Conventions.
    - Python [str] values are modelled by [string].  The model of
      [str.lower] and [str.title] is that of ASCII text
      ([PyStr.is_ascii]): only the letters [a-z] and [A-Z] are cased.
      A theorem that depends on the case of a string, or on the text
      of a file, says so in a hypothesis.
    - A file holds text that decodes in the encoding of the locale;
      reading it in text mode translates the line endings as Python's
      universal newlines do, and writing it on POSIX leaves the text
      as it is.
    - The file system of the model has no limit on the length of a
      name or of a path and accepts every character in a name; the
      limits of the operating system ([os_accepts]) are hypotheses of
      the theorems on names and paths chosen by the caller.
    - The file system is a tree of directories and regular files, with
      case-sensitive names and no symbolic links; path resolution
      follows POSIX.
    - Every function that touches the file system is a computation in
      the monad [M]: it takes the state of the world, and returns an
      outcome (a value or a raised exception) and the new state.
    - The [@contract] decorators of the module check the Python types
      of the arguments and of the result ([str], [dict], [bool]); here
      they are the Rocq types of the functions, and a placeholder
      mapping has strings for keys and values. *)

From stdpp Require Import gmap strings list fin_maps.
From Stdlib Require Import Ascii ssreflect.

#[local] Set Warnings "-register-all".

(** ** Python strings *)

Module PyStr.

Definition is_upper (c : ascii) : bool :=
  let n := nat_of_ascii c in (65 <=? n)%nat && (n <=? 90)%nat.

Definition is_lower (c : ascii) : bool :=
  let n := nat_of_ascii c in (97 <=? n)%nat && (n <=? 122)%nat.

(** A character is cased when it is a letter. *)
Definition is_cased (c : ascii) : bool := is_upper c || is_lower c.

Definition to_lower (c : ascii) : ascii :=
  if is_upper c then ascii_of_nat (nat_of_ascii c + 32) else c.

Definition to_upper (c : ascii) : ascii :=
  if is_lower c then ascii_of_nat (nat_of_ascii c - 32) else c.

(** [s.lower()] *)
Fixpoint lower (s : string) : string :=
  match s with
  | EmptyString => EmptyString
  | String c s' => String (to_lower c) (lower s')
  end.

(** [s.title()]: a character that follows a cased character is
    lowercased, any other character is uppercased (titlecased); the
    flag is CPython's [previous_is_cased]. *)
Fixpoint title_from (previous_is_cased : bool) (s : string) : string :=
  match s with
  | EmptyString => EmptyString
  | String c s' =>
      String (if previous_is_cased then to_lower c else to_upper c)
             (title_from (is_cased c) s')
  end.

Definition title (s : string) : string := title_from false s.

(** [s.split(sep)] for a one-character separator: the result is never
    empty, and [n] separators give [n + 1] fields. *)
Fixpoint split (sep : ascii) (s : string) : list string :=
  match s with
  | EmptyString => [EmptyString]
  | String c s' =>
      if Ascii.eqb c sep then EmptyString :: split sep s'
      else match split sep s' with
           | fld :: flds => String c fld :: flds
           | [] => [String c EmptyString]
           end
  end.

(** [''.join(l)] *)
Definition join (l : list string) : string := String.concat "" l.

(** [s.startswith(p)] and [s.endswith("/")] *)
Definition startswith (p s : string) : bool := String.prefix p s.

Fixpoint endswith_char (c : ascii) (s : string) : bool :=
  match s with
  | EmptyString => false
  | String a EmptyString => Ascii.eqb a c
  | String _ s' => endswith_char c s'
  end.

(** [s.replace(old, new)] for a non-empty [old]: scan from the left;
    at an occurrence of [old] emit [new] and skip the rest of the
    occurrence ([skip] counts the characters still to drop), otherwise
    copy the character. *)
Fixpoint replace_from (old new : string) (skip : nat) (s : string) : string :=
  match s with
  | EmptyString => EmptyString
  | String c s' =>
      match skip with
      | S k => replace_from old new k s'
      | O =>
          if String.prefix old s
          then new +:+ replace_from old new (String.length old - 1) s'
          else String c (replace_from old new 0 s')
      end
  end.

(** With an empty [old], Python inserts [new] before every character
    and at the end. *)
Fixpoint replace_empty (new : string) (s : string) : string :=
  match s with
  | EmptyString => new
  | String c s' => new +:+ String c (replace_empty new s')
  end.

Definition replace (old new s : string) : string :=
  match old with
  | EmptyString => replace_empty new s
  | String _ _ => replace_from old new 0 s
  end.

(** The text has ASCII characters only. *)
Fixpoint is_ascii (s : string) : bool :=
  match s with
  | EmptyString => true
  | String c s' => (nat_of_ascii c <? 128)%nat && is_ascii s'
  end.

(** What a read in text mode makes of the line endings: [\r\n] and
    a lone [\r] become [\n]. *)
Fixpoint universal_newlines (s : string) : string :=
  match s with
  | EmptyString => EmptyString
  | String c s' =>
      if Ascii.eqb c "013" then
        match s' with
        | String c' s'' =>
            if Ascii.eqb c' "010" then String "010" (universal_newlines s'')
            else String "010" (universal_newlines s')
        | EmptyString => String "010" EmptyString
        end
      else String c (universal_newlines s')
  end.

(** The letters, as [string.ascii_lowercase] and
    [string.ascii_uppercase] list them. *)
Definition ascii_lowercase : string := "abcdefghijklmnopqrstuvwxyz".
Definition ascii_uppercase : string := "ABCDEFGHIJKLMNOPQRSTUVWXYZ".

Fixpoint index (c : ascii) (s : string) : option nat :=
  match s with
  | EmptyString => None
  | String a s' => if Ascii.eqb a c then Some O else option_map S (index c s')
  end.

(** *** Title case in the words of the documentation

    A letter is an element of one of the two alphabets; the capital
    of a small letter is the letter at the same position of the other
    alphabet.  A word is a run of letters: its first letter is made a
    capital, its other letters are made small, and every other
    character is kept. *)
Definition is_letter (c : ascii) : bool :=
  match index c ascii_lowercase, index c ascii_uppercase with
  | None, None => false
  | _, _ => true
  end.

Definition capital (c : ascii) : ascii :=
  match index c ascii_lowercase with
  | Some i => default c (String.get i ascii_uppercase)
  | None => c
  end.

Definition small (c : ascii) : ascii :=
  match index c ascii_uppercase with
  | Some i => default c (String.get i ascii_lowercase)
  | None => c
  end.

Fixpoint words_capitalized (in_word : bool) (s : string) : string :=
  match s with
  | EmptyString => EmptyString
  | String c s' =>
      String (if is_letter c then (if in_word then small c else capital c) else c)
             (words_capitalized (is_letter c) s')
  end.

(** [sub in s] *)
Fixpoint contains (sub s : string) : bool :=
  String.prefix sub s ||
  match s with
  | EmptyString => false
  | String _ s' => contains sub s'
  end.

End PyStr.

(** ** Exceptions and outcomes *)

(** The exceptions the module raises itself ([FileNotFoundError],
    [LibraryException], [LibraryNotFound], [OperationException]) and the
    ones that come out of the standard library.  The payload is the
    message, or for the operating system's errors the path. *)
Inductive exn :=
| FileNotFoundError (msg : string)
| FileExistsError (msg : string)
| NotADirectoryError (msg : string)
| IsADirectoryError (msg : string)
| ShutilError (msg : string)
| KeyError (msg : string)
| IndexError
| LibraryException (msg : string)
| LibraryNotFound (msg : string)
| OperationException (msg : string).

Inductive outcome (A : Type) :=
| Ok (a : A)
| Raise (e : exn).
Arguments Ok {A} a.
Arguments Raise {A} e.

(** ** [to_camel_case] *)

(** [[
    components = snake_str.split('_')
    return components[0].title() + ''.join(x.title() for x in components[1:])
    ]]
    [components[0]] raises [IndexError] on an empty list. *)
Definition to_camel_case (snake_str : string) : outcome string :=
  let components := PyStr.split "_"%char snake_str in
  match components with
  | [] => Raise IndexError
  | c0 :: rest => Ok (PyStr.title c0 +:+ PyStr.join (map PyStr.title rest))
  end.

(** The capitalization that only touches the first character of a
    segment, which [to_camel_case] is compared with. *)
Definition capitalize_first (s : string) : string :=
  match s with
  | EmptyString => EmptyString
  | String c s' => String (PyStr.to_upper c) s'
  end.

Definition naive_camel_case (snake_str : string) : string :=
  PyStr.join (map capitalize_first (PyStr.split "_"%char snake_str)).

(** The string with its underscores dropped. *)
Fixpoint drop_underscores (s : string) : string :=
  match s with
  | EmptyString => EmptyString
  | String c s' =>
      if Ascii.eqb c "_"%char then drop_underscores s' else String c (drop_underscores s')
  end.


(** ** The file system *)

(** A node is a regular file with its text or a directory with its
    entries.  Paths into the tree are lists of names, outermost first;
    the empty list is the root directory. *)
Inductive node :=
| File (content : string)
| Dir (entries : gmap string node).

(** The node below [o] at the path [p]. *)
Fixpoint lkp (p : list string) (o : option node) : option node :=
  match p with
  | [] => o
  | c :: p' =>
      match o with
      | Some (Dir es) => lkp p' (es !! c)
      | _ => None
      end
  end.

(** Apply [f] to the node at the path [p] (creating, replacing or
    removing it); nothing happens when the parent of [p] is not a
    directory. *)
Fixpoint upd (p : list string) (f : option node -> option node)
    (o : option node) : option node :=
  match p with
  | [] => f o
  | c :: p' =>
      match o with
      | Some (Dir es) => Some (Dir (partial_alter (upd p' f) c es))
      | _ => o
      end
  end.

Definition is_dir (o : option node) : bool :=
  match o with Some (Dir _) => true | _ => false end.

Definition is_file (o : option node) : bool :=
  match o with Some (File _) => true | _ => false end.

Definition fs_upd (p : list string) (f : option node -> option node)
    (r : gmap string node) : gmap string node :=
  match upd p f (Some (Dir r)) with
  | Some (Dir es) => es
  | _ => r
  end.

(** What a call does to the world, in order: the mutations of the file
    system, the reads of file contents and the console output. *)
Inductive event :=
| EvRead (p : list string)
| EvWrite (p : list string) (content : string)
| EvMkdir (p : list string)
| EvCopytree (src dst : list string)
| EvRmtree (p : list string)
| EvPrint (msg colour : string).

(** The state of the world: the entries of the root directory, the
    current working directory, the directory [tempfile] uses, the
    random names [tempfile] is going to draw, and the trace. *)
Record state := mkState {
  root : gmap string node;
  cwd : list string;
  tempdir : list string;
  temp_names : list string;
  trace : list event
}.

Definition node_at (st : state) (p : list string) : option node :=
  lkp p (Some (Dir (root st))).

Definition set_node (p : list string) (f : option node -> option node)
    (ev : event) (st : state) : state :=
  {| root := fs_upd p f (root st); cwd := cwd st; tempdir := tempdir st;
     temp_names := temp_names st; trace := trace st ++ [ev] |}.

Definition log (ev : event) (st : state) : state :=
  {| root := root st; cwd := cwd st; tempdir := tempdir st;
     temp_names := temp_names st; trace := trace st ++ [ev] |}.

Definition set_temp_names (l : list string) (st : state) : state :=
  {| root := root st; cwd := cwd st; tempdir := tempdir st;
     temp_names := l; trace := trace st |}.

(** ** The monad of effectful Python code *)

Definition M (A : Type) : Type := state -> outcome A * state.

#[global] Instance M_ret : MRet M := fun A a st => (Ok a, st).

#[global] Instance M_bind : MBind M := fun A B f m st =>
  match m st with
  | (Ok a, st') => f a st'
  | (Raise e, st') => (Raise e, st')
  end.

Definition raise {A} (e : exn) : M A := fun st => (Raise e, st).

(** [if b: m], and a call whose result is dropped. *)
Definition when_ (b : bool) (m : M unit) : M unit :=
  if b then m else mret tt.

Definition discard {A} (m : M A) : M unit := _ ← m; mret tt.

(** [for x in l: body(x)] *)
Fixpoint for_each {A} (l : list A) (body : A -> M unit) : M unit :=
  match l with
  | [] => mret tt
  | x :: l' => _ ← body x; for_each l' body
  end.

(** ** Paths: [os.path] on POSIX *)

(** The step of path resolution for one component. *)
Definition step (cur : list string) (c : string) : list string :=
  if String.eqb c "" || String.eqb c "." then cur
  else if String.eqb c ".." then removelast cur
  else cur ++ [c].

(** Resolution of the components [cs] from the directory [cur]: every
    component is looked up in a directory, so the node reached before
    it has to be one.  The last node reached need not exist. *)
Fixpoint walk (r : gmap string node) (cur : list string) (cs : list string)
    : option (list string) :=
  match cs with
  | [] => Some cur
  | c :: cs' =>
      if is_dir (lkp cur (Some (Dir r))) then walk r (step cur c) cs' else None
  end.

(** The place a path string denotes; the empty string denotes none. *)
Definition resolve (st : state) (p : string) : option (list string) :=
  if String.eqb p "" then None
  else walk (root st) (if PyStr.startswith "/" p then [] else cwd st)
            (PyStr.split "/"%char p).

Definition isdir (st : state) (p : string) : bool :=
  match resolve st p with
  | Some P => is_dir (node_at st P)
  | None => false
  end.

Definition isfile (st : state) (p : string) : bool :=
  match resolve st p with
  | Some P => is_file (node_at st P)
  | None => false
  end.

(** [os.path.join(a, b)]; with more arguments Python goes through them
    from the left, [join(a, b, c) = join(join(a, b), c)]. *)
Definition os_path_join (a b : string) : string :=
  if PyStr.startswith "/" b then b
  else if String.eqb a "" || PyStr.endswith_char "/" a then a +:+ b
  else a +:+ "/" +:+ b.

(** The absolute path string of a place. *)
Fixpoint path_str (p : list string) : string :=
  match p with
  | [] => ""
  | c :: p' => "/" +:+ c +:+ path_str p'
  end.

Definition abs_str (p : list string) : string :=
  match p with
  | [] => "/"
  | _ => path_str p
  end.

Definition os_path_isdir (p : string) : M bool := fun st => (Ok (isdir st p), st).
Definition os_path_isfile (p : string) : M bool := fun st => (Ok (isfile st p), st).
Definition os_getcwd : M string := fun st => (Ok (abs_str (cwd st)), st).

(** ** Files and directories: [os], [open], [shutil], [tempfile] *)

(** A component of the path is looked up in a regular file. *)
Fixpoint through_file (r : gmap string node) (cur : list string) (cs : list string)
    : bool :=
  match cs with
  | [] => false
  | c :: cs' =>
      match lkp cur (Some (Dir r)) with
      | Some (Dir _) => through_file r (step cur c) cs'
      | Some (File _) => true
      | None => false
      end
  end.

(** The error of the operating system for a path that is not found:
    [ENOTDIR] when the path leads through a regular file, [ENOENT]
    otherwise. *)
Definition lookup_error (st : state) (p : string) : exn :=
  if through_file (root st) (if PyStr.startswith "/" p then [] else cwd st)
       (PyStr.split "/"%char p)
  then NotADirectoryError p else FileNotFoundError p.

(** [os.mkdir(p)] *)
Definition os_mkdir (p : string) : M unit := fun st =>
  match resolve st p with
  | None => (Raise (lookup_error st p), st)
  | Some P =>
      match node_at st P with
      | Some _ => (Raise (FileExistsError p), st)
      | None => (Ok tt, set_node P (fun _ => Some (Dir ∅)) (EvMkdir P) st)
      end
  end.

(** [os.makedirs(p)] without [exist_ok]: the components of [p] are
    walked from the left and every missing directory is created;
    [fresh] tells whether the directory reached was created by this
    call, and the call fails when the leaf was already there. *)
Fixpoint makedirs_walk (p : string) (cs : list string) (cur : list string)
    (fresh : bool) : M unit := fun st =>
  match cs with
  | [] => if fresh then (Ok tt, st) else (Raise (FileExistsError p), st)
  | c :: cs' =>
      match node_at st cur with
      | Some (Dir _) =>
          if String.eqb c "" || String.eqb c "." then makedirs_walk p cs' cur fresh st
          else if String.eqb c ".." then makedirs_walk p cs' (removelast cur) false st
          else
            match node_at st (cur ++ [c]) with
            | Some (Dir _) => makedirs_walk p cs' (cur ++ [c]) false st
            | Some (File _) =>
                (Raise (match cs' with
                        | [] => FileExistsError p
                        | _ => NotADirectoryError p
                        end), st)
            | None =>
                makedirs_walk p cs' (cur ++ [c]) true
                  (set_node (cur ++ [c]) (fun _ => Some (Dir ∅)) (EvMkdir (cur ++ [c])) st)
            end
      | Some (File _) => (Raise (NotADirectoryError p), st)
      | None => (Raise (FileNotFoundError p), st)
      end
  end.

Definition os_makedirs (p : string) : M unit := fun st =>
  if String.eqb p "" then (Raise (FileNotFoundError p), st)
  else makedirs_walk p (PyStr.split "/"%char p)
         (if PyStr.startswith "/" p then [] else cwd st) false st.

(** [open(p, 'r').read()]: the text of the file, its line endings
    translated. *)
Definition open_read (p : string) : M string := fun st =>
  match resolve st p with
  | None => (Raise (lookup_error st p), st)
  | Some P =>
      match node_at st P with
      | Some (File text) => (Ok (PyStr.universal_newlines text), log (EvRead P) st)
      | Some (Dir _) => (Raise (IsADirectoryError p), st)
      | None => (Raise (FileNotFoundError p), st)
      end
  end.

(** [open(p, 'w').write(text)]: the file is created or truncated. *)
Definition open_write (p : string) (text : string) : M unit := fun st =>
  match resolve st p with
  | None => (Raise (lookup_error st p), st)
  | Some P =>
      match node_at st P with
      | Some (Dir _) => (Raise (IsADirectoryError p), st)
      | _ => (Ok tt, set_node P (fun _ => Some (File text)) (EvWrite P text) st)
      end
  end.

(** [shutil.copytree(src, dst)]: the entries of [src] are listed, [dst]
    is made with [os.makedirs], and the tree is copied below it.  A
    copy of a tree into itself does not end well in Python and is an
    error here. *)
Definition shutil_copytree (src dst : string) : M unit := fun st =>
  match resolve st src with
  | None => (Raise (lookup_error st src), st)
  | Some Src =>
      match node_at st Src with
      | None => (Raise (FileNotFoundError src), st)
      | Some (File _) => (Raise (NotADirectoryError src), st)
      | Some (Dir entries) =>
          match os_makedirs dst st with
          | (Raise e, st1) => (Raise e, st1)
          | (Ok _, st1) =>
              match resolve st1 dst with
              | None => (Raise (lookup_error st1 dst), st1)
              | Some Dst =>
                  if bool_decide (Src `prefix_of` Dst) then (Raise (ShutilError dst), st1)
                  else (Ok tt, set_node Dst (fun _ => Some (Dir entries))
                                 (EvCopytree Src Dst) st1)
              end
          end
      end
  end.

(** [shutil.rmtree(p)] *)
Definition shutil_rmtree (p : string) : M unit := fun st =>
  match resolve st p with
  | None => (Raise (lookup_error st p), st)
  | Some P =>
      match node_at st P with
      | Some (Dir _) => (Ok tt, set_node P (fun _ => None) (EvRmtree P) st)
      | Some (File _) => (Raise (NotADirectoryError p), st)
      | None => (Raise (FileNotFoundError p), st)
      end
  end.

(** [tempfile.mkdtemp()]: random names are drawn until [os.mkdir] of
    [tmp<name>] in the temporary directory succeeds; the names drawn
    are used up. *)
Fixpoint mkdtemp_loop (dir : string) (names : list string) : M string := fun st =>
  match names with
  | [] => (Raise (FileExistsError "No usable temporary directory name found"), st)
  | name :: names' =>
      let file := os_path_join dir ("tmp" +:+ name) in
      match os_mkdir file (set_temp_names names' st) with
      | (Ok _, st') => (Ok file, st')
      | (Raise (FileExistsError _), st') => mkdtemp_loop dir names' st'
      | (Raise e, st') => (Raise e, st')
      end
  end.

Definition tempfile_mkdtemp : M string := fun st =>
  mkdtemp_loop (abs_str (tempdir st)) (temp_names st) st.

(** [termcolor.cprint(msg, colour)] *)
Definition cprint (msg colour : string) : M unit := fun st =>
  (Ok tt, log (EvPrint msg colour) st).

(** ** Python dictionaries with string keys and values *)

(** The items in insertion order; the keys of a dictionary are
    distinct. *)
Definition dict := list (string * string).

Definition dict_keys (d : dict) : list string := map fst d.

Fixpoint dict_get (d : dict) (key : string) : option string :=
  match d with
  | [] => None
  | (k, v) :: d' => if String.eqb k key then Some v else dict_get d' key
  end.

Fixpoint distinct (l : list string) : bool :=
  match l with
  | [] => true
  | x :: l' => negb (existsb (String.eqb x) l') && distinct l'
  end.

Definition dict_wf (d : dict) : bool := distinct (dict_keys d).

(** [d[key]] *)
Definition dict_getitem (d : dict) (key : string) : M string :=
  match dict_get d key with
  | Some v => mret v
  | None => raise (KeyError key)
  end.

(** ** The module *)

(** [[
    if not os.path.isdir(operations_dir):
        raise FileNotFoundError(operations_dir+" does not exist.")
    library_path = os.path.join(os.getcwd(), operations_dir, name)
    return os.path.isdir(library_path)
    ]] *)
Definition library_exists (name operations_dir : string) : M bool :=
  d ← os_path_isdir operations_dir;
  if negb d then raise (FileNotFoundError (operations_dir +:+ " does not exist.")) else
  wd ← os_getcwd;
  let library_path := os_path_join (os_path_join wd operations_dir) name in
  os_path_isdir library_path.

(** [[
    if not os.path.isfile(file_path):
        raise FileNotFoundError(file_path+" does not exist")
    for key in placeholders:
        with open(file_path, 'r') as f:
            new_text = f.read().replace(key, placeholders[key])
        with open(file_path, 'w') as f:
            f.write(new_text)
    return
    ]] *)
Definition replace_placeholders_in_file (file_path : string) (placeholders : dict)
    : M unit :=
  f ← os_path_isfile file_path;
  if negb f then raise (FileNotFoundError (file_path +:+ " does not exist")) else
  for_each (dict_keys placeholders) (fun key =>
    text ← open_read file_path;
    value ← dict_getitem placeholders key;
    let new_text := PyStr.replace key value text in
    open_write file_path new_text).

(** [os.path.join('operations','base','utils','templates', t)] *)
Definition template_path (t : string) : string :=
  os_path_join (os_path_join (os_path_join (os_path_join
    "operations" "base") "utils") "templates") t.

(** [[
    if library_exists(library_name, out_dir):
        raise LibraryException("The library "+library_name+" already exists under "+out_dir)
    if not os.path.isdir(out_dir):
        raise FileNotFoundError(out_dir+" does not exist")
    library_new_path = os.path.join(out_dir, str(library_name).lower())
    library_new_init = os.path.join(library_new_path, '__init__.py')
    tmp_dir = os.path.join(tempfile.mkdtemp(),'tmp')
    tmp_init = os.path.join(tmp_dir, '__init__.py')
    shutil.copytree(os.path.join('operations','base','utils','templates','make_library'), tmp_dir)
    replace_placeholders_in_file(tmp_init, {'LIBRARYNAME':library_name.lower()})
    shutil.copytree(tmp_dir,library_new_path)
    shutil.rmtree(tmp_dir)
    cprint("Library successfully created under: %s" % library_new_init, 'green')
    return library_new_path
    ]] *)
Definition library_create (library_name out_dir : string) : M string :=
  b ← library_exists library_name out_dir;
  if (b : bool) then raise (LibraryException
    ("The library " +:+ library_name +:+ " already exists under " +:+ out_dir)) else
  d ← os_path_isdir out_dir;
  if negb d then raise (FileNotFoundError (out_dir +:+ " does not exist")) else
  let library_new_path := os_path_join out_dir (PyStr.lower library_name) in
  let library_new_init := os_path_join library_new_path "__init__.py" in
  tmp ← tempfile_mkdtemp;
  let tmp_dir := os_path_join tmp "tmp" in
  let tmp_init := os_path_join tmp_dir "__init__.py" in
  _ ← shutil_copytree (template_path "make_library") tmp_dir;
  _ ← replace_placeholders_in_file tmp_init [("LIBRARYNAME", PyStr.lower library_name)];
  _ ← shutil_copytree tmp_dir library_new_path;
  _ ← shutil_rmtree tmp_dir;
  _ ← cprint ("Library successfully created under: " +:+ library_new_init) "green";
  mret library_new_path.

(** [[
    if not os.path.isdir(operations_dir):
        raise FileNotFoundError(operations_dir)
    if not library_exists(library_name, operations_dir):
        raise LibraryNotFound(os.path.join(operations_dir,library_name))
    return os.path.isfile(os.path.join(operations_dir,library_name,operation_name,'__init__.py'))
    ]] *)
Definition operation_exists (operations_dir library_name operation_name : string)
    : M bool :=
  d ← os_path_isdir operations_dir;
  if negb d then raise (FileNotFoundError operations_dir) else
  b ← library_exists library_name operations_dir;
  if negb b then raise (LibraryNotFound (os_path_join operations_dir library_name)) else
  os_path_isfile (os_path_join (os_path_join (os_path_join
    operations_dir library_name) operation_name) "__init__.py").

(** [to_camel_case] called from effectful code. *)
Definition lift {A} (o : outcome A) : M A := fun st => (o, st).

(** [[
    if not library_exists(library_name,operations_dir):
        library_create(library_name, operations_dir)
    if operation_exists(operations_dir, library_name, operation_name):
        raise OperationException(os.path.join(operations_dir,library_name, operation_name)+" already exists.")
    operation_new_path = os.path.join(operations_dir, library_name, operation_name)
    operation_new_init = os.path.join(operation_new_path, '__init__.py')
    tmp_dir = os.path.join(tempfile.mkdtemp(),'tmp')
    tmp_init = os.path.join(tmp_dir, '__init__.py')
    shutil.copytree(os.path.join('operations','base','utils','templates','make_operation'), tmp_dir)
    replace_placeholders_in_file(tmp_init, {'NEWOPERATION':to_camel_case(operation_name)})
    shutil.copytree(tmp_dir,operation_new_path)
    shutil.rmtree(tmp_dir)
    cprint("Operation successfully created under: %s" % operation_new_init, 'green')
    return operation_new_path
    ]] *)
Definition operation_create (operations_dir library_name operation_name : string)
    : M string :=
  b ← library_exists library_name operations_dir;
  _ ← when_ (negb b) (discard (library_create library_name operations_dir));
  e ← operation_exists operations_dir library_name operation_name;
  if (e : bool) then raise (OperationException
    (os_path_join (os_path_join operations_dir library_name) operation_name
     +:+ " already exists.")) else
  let operation_new_path :=
    os_path_join (os_path_join operations_dir library_name) operation_name in
  let operation_new_init := os_path_join operation_new_path "__init__.py" in
  tmp ← tempfile_mkdtemp;
  let tmp_dir := os_path_join tmp "tmp" in
  let tmp_init := os_path_join tmp_dir "__init__.py" in
  _ ← shutil_copytree (template_path "make_operation") tmp_dir;
  camel ← lift (to_camel_case operation_name);
  _ ← replace_placeholders_in_file tmp_init [("NEWOPERATION", camel)];
  _ ← shutil_copytree tmp_dir operation_new_path;
  _ ← shutil_rmtree tmp_dir;
  _ ← cprint ("Operation successfully created under: " +:+ operation_new_init) "green";
  mret operation_new_path.

(** ** Vocabulary of the specification *)

(** Two places are apart when neither is above the other. *)
Definition apart (p q : list string) : Prop :=
  ¬ p `prefix_of` q ∧ ¬ q `prefix_of` p.

Fixpoint has_char (c : ascii) (s : string) : bool :=
  match s with
  | EmptyString => false
  | String a s' => Ascii.eqb a c || has_char c s'
  end.

(** A name of a directory entry: not empty, not [.] or [..], and
    without a slash. *)
Definition name_ok (c : string) : bool :=
  negb (String.eqb c "") && negb (String.eqb c ".") && negb (String.eqb c "..")
  && negb (has_char "/" c).

(** What the operating system accepts as a path: no NUL character,
    fewer than [PATH_MAX] characters, and at most [NAME_MAX]
    characters in every component. *)
Definition os_accepts (p : string) : bool :=
  negb (has_char "000" p) && (String.length p <? 4096)%nat
  && forallb (fun c => (String.length c <=? 255)%nat) (PyStr.split "/"%char p).

(** A name chosen by the caller for a library or an operation: a name
    of a directory entry, in ASCII, that the operating system accepts. *)
Definition entry_name (c : string) : bool :=
  name_ok c && PyStr.is_ascii c && os_accepts c.

(** Every path of the tree [es] put at the path [dest] is accepted by
    the operating system. *)
Definition tree_fits (dest : string) (es : gmap string node) : Prop :=
  forall Q, is_Some (lkp Q (Some (Dir es))) ->
    os_accepts (dest +:+ path_str Q) = true.

(** The directory a relative path starts from. *)
Definition start_dir (st : state) (p : string) : list string :=
  if PyStr.startswith "/" p then [] else cwd st.

(** The current working directory is a directory. *)
Definition cwd_ok (st : state) : bool :=
  forallb name_ok (cwd st) && is_dir (node_at st (cwd st)).

(** The temporary directory is a directory, and the random names of
    [tempfile] have no slash. *)
Definition temp_ok (st : state) : bool :=
  forallb name_ok (tempdir st) && is_dir (node_at st (tempdir st))
  && forallb (fun n => negb (has_char "/" n)) (temp_names st).

(** The directory [tempfile.mkdtemp] is going to make, with the random
    names left after it: the first name not taken. *)
Fixpoint staging_from (st : state) (names : list string)
    : option (list string * list string) :=
  match names with
  | [] => None
  | n :: names' =>
      match node_at st (tempdir st ++ ["tmp" +:+ n]) with
      | None => Some (tempdir st ++ ["tmp" +:+ n], names')
      | Some _ => staging_from st names'
      end
  end.

Definition staging (st : state) : option (list string * list string) :=
  staging_from st (temp_names st).

(** The place of a template below the current working directory, and
    the template found there: its entries and the text of its
    initializer file. *)
Definition template_place (st : state) (t : string) : list string :=
  cwd st ++ ["operations"; "base"; "utils"; "templates"; t].

Definition template_at (st : state) (t : string)
    : option (gmap string node * string) :=
  match node_at st (template_place st t) with
  | Some (Dir es) =>
      match es !! "__init__.py" with
      | Some (File text) => Some (es, text)
      | _ => None
      end
  | _ => None
  end.

(** The character before position [i] of [s] is a letter. *)
Definition after_letter (s : string) (i : nat) : bool :=
  match i with
  | O => false
  | S j => match String.get j s with
           | Some c => PyStr.is_cased c
           | None => false
           end
  end.

(** The text a pass writes: the text read, with its line endings
    translated, and every occurrence of the marker replaced. *)
Definition pass (key value text : string) : string :=
  PyStr.replace key value (PyStr.universal_newlines text).

(** The successive texts of a file under the substitutions of a
    dictionary, one per item. *)
Fixpoint passes (text : string) (d : dict) : list string :=
  match d with
  | [] => []
  | (k, v) :: d' => let text' := pass k v text in text' :: passes text' d'
  end.

(** The text of a file after all the substitutions of a dictionary. *)
Definition substituted (text : string) (d : dict) : string :=
  fold_left (fun t kv => pass kv.1 kv.2 t) d text.

(** The keys and the values are ASCII text. *)
Definition dict_ascii (d : dict) : bool :=
  forallb (fun kv => PyStr.is_ascii kv.1 && PyStr.is_ascii kv.2) d.

(** The state after the file at [P] was read and rewritten once for
    each of the texts. *)
Fixpoint run_passes (P : list string) (texts : list string) (st : state) : state :=
  match texts with
  | [] => st
  | t :: texts' =>
      run_passes P texts'
        (set_node P (fun _ => Some (File t)) (EvWrite P t) (log (EvRead P) st))
  end.

(** A state keeps the directories of another. *)
Definition extends (st st' : state) : Prop :=
  cwd st' = cwd st ∧
  forall Q, is_dir (node_at st Q) = true -> is_dir (node_at st' Q) = true.

(** The value [to_camel_case] returns. *)
Definition camel_case (snake_str : string) : string :=
  PyStr.join (map PyStr.title (PyStr.split "_"%char snake_str)).

(** The steps [library_create] and [operation_create] have in common
    once their checks have passed: the template is copied to a staging
    directory, the placeholder is replaced in its initializer file, the
    staged tree is copied to the destination and removed, and the
    success is reported. *)
Definition scaffold (template placeholder value dest message : string) : M string :=
  tmp ← tempfile_mkdtemp;
  let tmp_dir := os_path_join tmp "tmp" in
  let tmp_init := os_path_join tmp_dir "__init__.py" in
  _ ← shutil_copytree (template_path template) tmp_dir;
  _ ← replace_placeholders_in_file tmp_init [(placeholder, value)];
  _ ← shutil_copytree tmp_dir dest;
  _ ← shutil_rmtree tmp_dir;
  _ ← cprint message "green";
  mret dest.

(** The entries [es] of a template, with the placeholder replaced in
    the initializer text [text]. *)
Definition substitute_tree (placeholder value : string) (es : gmap string node)
    (text : string) : gmap string node :=
  <["__init__.py" := File (pass placeholder value text)]> es.

(** The world after these steps have made the entry [n] of the
    directory at [A], with the staging directory [M] of
    [tempfile.mkdtemp]: the new tree is there, the directory [M] is
    left behind empty, and the trace has the nine steps. *)
Definition scaffolded (st : state) (template placeholder value : string)
    (A : list string) (n : string) (es : gmap string node) (text : string)
    (M rest : list string) (message : string) : state :=
  let Tgt := A ++ [n] in
  let D := M ++ ["tmp"] in
  let I := D ++ ["__init__.py"] in
  {| root := fs_upd Tgt (fun _ => Some (Dir (substitute_tree placeholder value es text)))
               (fs_upd M (fun _ => Some (Dir ∅)) (root st));
     cwd := cwd st;
     tempdir := tempdir st;
     temp_names := rest;
     trace := trace st ++
       [EvMkdir M; EvMkdir D; EvCopytree (template_place st template) D;
        EvRead I; EvWrite I (pass placeholder value text);
        EvMkdir Tgt; EvCopytree D Tgt; EvRmtree D;
        EvPrint message "green"] |}.

(** The world when the copy to the destination has failed: the
    staging directory [M] holds the staged tree, and the trace has the
    five steps before the copy. *)
Definition staged (st : state) (template placeholder value : string)
    (es : gmap string node) (text : string) (M rest : list string) : state :=
  let D := M ++ ["tmp"] in
  let I := D ++ ["__init__.py"] in
  {| root := fs_upd D (fun _ => Some (Dir (substitute_tree placeholder value es text)))
               (fs_upd M (fun _ => Some (Dir ∅)) (root st));
     cwd := cwd st;
     tempdir := tempdir st;
     temp_names := rest;
     trace := trace st ++
       [EvMkdir M; EvMkdir D; EvCopytree (template_place st template) D;
        EvRead I; EvWrite I (pass placeholder value text)] |}.

(** The tree of a new library and the world after [library_create]
    has made it below the place [O] of [out_dir]. *)
Definition library_tree (library_name : string) (es : gmap string node)
    (text : string) : gmap string node :=
  substitute_tree "LIBRARYNAME" (PyStr.lower library_name) es text.

Definition library_created (st : state) (library_name out_dir : string)
    (O : list string) (es : gmap string node) (text : string)
    (M rest : list string) : state :=
  scaffolded st "make_library" "LIBRARYNAME" (PyStr.lower library_name)
    O (PyStr.lower library_name) es text M rest
    ("Library successfully created under: " +:+
     os_path_join (os_path_join out_dir (PyStr.lower library_name)) "__init__.py").

(** The tree of a new operation and the world after [operation_create]
    has made it below the place [L] of its library. *)
Definition operation_tree (operation_name : string) (es : gmap string node)
    (text : string) : gmap string node :=
  substitute_tree "NEWOPERATION" (camel_case operation_name) es text.

Definition operation_created (st : state)
    (operations_dir library_name operation_name : string)
    (L : list string) (es : gmap string node) (text : string)
    (M rest : list string) : state :=
  scaffolded st "make_operation" "NEWOPERATION" (camel_case operation_name)
    L operation_name es text M rest
    ("Operation successfully created under: " +:+
     os_path_join (os_path_join (os_path_join operations_dir library_name)
                     operation_name) "__init__.py").

(** ** Concrete worlds *)

(** The project directory with the two templates.  The templates are
    not part of the module's source file: these trees stand for them,
    with an initializer file that carries the placeholder. *)
Definition make_library_entries : gmap string node :=
  {[ "__init__.py" := File "# library LIBRARYNAME" ]}.

Definition make_operation_entries : gmap string node :=
  {[ "__init__.py" := File "class NEWOPERATION(Operation): pass" ]}.

Definition project_tree : node :=
  Dir {[ "operations" := Dir {[ "base" := Dir {[ "utils" := Dir {[ "templates" :=
    Dir {[ "make_library" := Dir make_library_entries;
           "make_operation" := Dir make_operation_entries ]} ]} ]} ]} ]}.

(** The program runs in [/home/project]; [/ops] is the operations
    directory, with the entries [ops], and [/tmp] the temporary
    directory. *)
Definition world (ops : gmap string node) : state :=
  {| root := {[ "home" := Dir {[ "project" := project_tree ]};
                "ops" := Dir ops;
                "tmp" := Dir ∅ ]};
     cwd := ["home"; "project"];
     tempdir := ["tmp"];
     temp_names := ["k3x9q2ab"; "w8e1r5ty"; "z0z0z0z0"];
     trace := [] |}.

(** No library yet. *)
Definition world_empty : state := world ∅.

(** The library [mylib] with the operation [do_thing]. *)
Definition world_mylib : state :=
  world {[ "mylib" := Dir {[
    "__init__.py" := File "# library mylib";
    "do_thing" := Dir {[ "__init__.py" := File "class DoThing(Operation): pass" ]} ]} ]}.

(** The library [mylib] with a directory [do_thing] that has no
    initializer file. *)
Definition world_bare : state :=
  world {[ "mylib" := Dir {[ "do_thing" := Dir ∅ ]} ]}.

(** The program runs in [/ops], away from the project directory. *)
Definition world_elsewhere : state :=
  {| root := root world_empty;
     cwd := ["ops"];
     tempdir := ["tmp"];
     temp_names := ["k3x9q2ab"; "w8e1r5ty"; "z0z0z0z0"];
     trace := [] |}.

(** A text file with a placeholder. *)
Definition world_greeting : state :=
  world {[ "greeting.txt" := File "Hello NAME" ]}.

(** The world after [library_create "MyLib" "/ops"] in [world_empty]. *)
Definition world_after_MyLib : state :=
  library_created world_empty "MyLib" "/ops" ["ops"] make_library_entries
    "# library LIBRARYNAME" ["tmp"; "tmpk3x9q2ab"] ["w8e1r5ty"; "z0z0z0z0"].

(** The world after [operation_create "/ops" "mylib" "do_thing"] in
    [world_empty]: the library is made first, then the operation. *)
Definition world_after_mylib : state :=
  library_created world_empty "mylib" "/ops" ["ops"] make_library_entries
    "# library LIBRARYNAME" ["tmp"; "tmpk3x9q2ab"] ["w8e1r5ty"; "z0z0z0z0"].

Definition world_after_do_thing : state :=
  operation_created world_after_mylib "/ops" "mylib" "do_thing" ["ops"; "mylib"]
    make_operation_entries "class NEWOPERATION(Operation): pass"
    ["tmp"; "tmpw8e1r5ty"] ["z0z0z0z0"].

(** * Verification *)

(** ** The tree *)

Section tree.
Implicit Types (p q : list string) (o : option node)
  (f g : option node -> option node).

Lemma lkp_none p : lkp p None = None.
Proof. by destruct p. Qed.

Lemma lkp_file p text : p ≠ [] -> lkp p (Some (File text)) = None.
Proof. by destruct p. Qed.

Lemma lkp_app p q o : lkp (p ++ q) o = lkp q (lkp p o).
Proof.
  revert o; induction p as [|c p IH]; intros o; simpl; [done|].
  destruct o as [[?|es]|]; rw ?lkp_none //.
Qed.

(** The ancestors of a node are directories. *)
Lemma lkp_parent_dir p q o :
  q ≠ [] -> is_Some (lkp (p ++ q) o) -> is_dir (lkp p o) = true.
Proof.
  rw lkp_app. intros Hq [n Hn].
  destruct (lkp p o) as [[text|es]|]; [|done|].
  - by rw lkp_file in Hn.
  - by rw lkp_none in Hn.
Qed.

Lemma is_dir_prefix p q o :
  is_dir (lkp (p ++ q) o) = true -> is_dir (lkp p o) = true.
Proof.
  destruct q as [|c q]; [by rw app_nil_r|].
  intros H. apply (lkp_parent_dir p (c :: q)); [done|].
  by destruct (lkp (p ++ c :: q) o).
Qed.

Lemma lkp_prefix_none p q o : lkp p o = None -> p `prefix_of` q -> lkp q o = None.
Proof. intros H [k ->]. by rw lkp_app H lkp_none. Qed.

Lemma upd_none p f : p ≠ [] -> upd p f None = None.
Proof. by destruct p. Qed.

(** Updates at and below a path compose. *)
Lemma upd_upd_below p q f g o :
  upd p f (upd (p ++ q) g o) = upd p (f ∘ upd q g) o.
Proof.
  revert o; induction p as [|c p IH]; intros o; simpl; [done|].
  destruct o as [[?|es]|]; [done| |done].
  rw partial_alter_partial_alter_eq. do 2 f_equal.
  apply partial_alter_ext. intros x _. apply IH.
Qed.

Lemma upd_below_upd p q f g o :
  upd (p ++ q) g (upd p f o) = upd p (upd q g ∘ f) o.
Proof.
  revert o; induction p as [|c p IH]; intros o; simpl; [done|].
  destruct o as [[?|es]|]; [done| |done].
  rw partial_alter_partial_alter_eq. do 2 f_equal.
  apply partial_alter_ext. intros x _. apply IH.
Qed.

Lemma upd_upd p f g o : upd p f (upd p g o) = upd p (f ∘ g) o.
Proof. by rw -{2}(app_nil_r p) upd_upd_below. Qed.

Lemma upd_ext p f g o :
  f (lkp p o) = g (lkp p o) -> upd p f o = upd p g o.
Proof.
  revert o; induction p as [|c p IH]; intros o; simpl; [done|].
  destruct o as [[?|es]|]; [done| |done].
  intros H. do 2 f_equal. apply partial_alter_ext. intros x <-. by apply IH.
Qed.

Lemma upd_id p f o : f (lkp p o) = lkp p o -> upd p f o = o.
Proof.
  revert o; induction p as [|c p IH]; intros o; simpl; [done|].
  destruct o as [[?|es]|]; [done| |done].
  intros H. do 2 f_equal. apply partial_alter_id. by apply IH.
Qed.

Lemma apart_sym p q : apart p q -> apart q p.
Proof. by intros []. Qed.

Lemma apart_cons c p q : apart (c :: p) (c :: q) -> apart p q.
Proof.
  intros [H1 H2]; split; intros H; [apply H1|apply H2]; by apply prefix_cons.
Qed.

Lemma upd_comm p q f g o :
  apart p q -> upd p f (upd q g o) = upd q g (upd p f o).
Proof.
  revert q o; induction p as [|c p IH]; intros q o Ha.
  { destruct Ha as [[] _]. apply prefix_nil. }
  destruct q as [|d q].
  { destruct Ha as [_ []]. apply prefix_nil. }
  simpl. destruct o as [[?|es]|]; [done| |done].
  destruct (decide (c = d)) as [->|Hne].
  - rw !partial_alter_partial_alter_eq. do 2 f_equal.
    apply partial_alter_ext. intros x _. simpl. apply IH.
    exact (apart_cons _ _ _ Ha).
  - by rw partial_alter_partial_alter_ne.
Qed.

(** Reading back what an update wrote. *)
Lemma lkp_upd_here p f o :
  is_Some (lkp p o) -> lkp p (upd p f o) = f (lkp p o).
Proof.
  revert o; induction p as [|c p IH]; intros o; simpl; [done|].
  destruct o as [[?|es]|]; [by intros [] | |by intros []].
  intros H. rw lookup_partial_alter_eq. by apply IH.
Qed.

Lemma lkp_upd_new p c f o :
  is_dir (lkp p o) = true ->
  lkp (p ++ [c]) (upd (p ++ [c]) f o) = f (lkp (p ++ [c]) o).
Proof.
  revert o; induction p as [|d p IH]; intros o; simpl.
  - destruct o as [[?|es]|]; [done| |done]. intros _.
    by rw lookup_partial_alter_eq.
  - destruct o as [[?|es]|]; [done| |done].
    intros H. rw lookup_partial_alter_eq. by apply IH.
Qed.

Lemma lkp_upd_below p q f o :
  lkp p (upd p f o) = f (lkp p o) ->
  lkp (p ++ q) (upd p f o) = lkp q (f (lkp p o)).
Proof. intros H. by rw lkp_app H. Qed.

(** An update is not seen from a place that is apart from it, and
    it leaves the directories on its way directories. *)
Lemma lkp_upd_apart p q f o : apart p q -> lkp q (upd p f o) = lkp q o.
Proof.
  revert q o; induction p as [|c p IH]; intros q o Ha.
  { destruct Ha as [[] _]. apply prefix_nil. }
  destruct q as [|d q].
  { destruct Ha as [_ []]. apply prefix_nil. }
  simpl. destruct o as [[?|es]|]; [done| |done].
  destruct (decide (c = d)) as [->|Hne].
  - rw lookup_partial_alter_eq. apply IH. exact (apart_cons _ _ _ Ha).
  - by rw lookup_partial_alter_ne.
Qed.

Lemma is_dir_upd p q f o :
  ¬ p `prefix_of` q -> is_dir (lkp q (upd p f o)) = is_dir (lkp q o).
Proof.
  revert q o; induction p as [|c p IH]; intros q o Hp.
  { destruct Hp. apply prefix_nil. }
  destruct q as [|d q]; simpl.
  { by destruct o as [[?|es]|]. }
  destruct o as [[?|es]|]; [done| |done].
  destruct (decide (c = d)) as [->|Hne].
  - rw lookup_partial_alter_eq. apply IH.
    intros H. apply Hp. by apply prefix_cons.
  - by rw lookup_partial_alter_ne.
Qed.

(** A new node does not remove a directory. *)
Lemma is_dir_upd_fresh p q f o :
  lkp p o = None -> is_dir (lkp q o) = true -> is_dir (lkp q (upd p f o)) = true.
Proof.
  intros Hp Hq. rw is_dir_upd //.
  intros Hpre. by rw (lkp_prefix_none p q o) in Hq.
Qed.

Lemma prefix_snoc_inv p q c :
  p `prefix_of` q ++ [c] -> p `prefix_of` q ∨ p = q ++ [c].
Proof.
  intros [k Hk]. destruct k as [|d k _] using rev_ind.
  - right. by rw app_nil_r in Hk.
  - left. rw app_assoc in Hk. apply app_inj_tail in Hk as [-> _]. by exists k.
Qed.

(** Seen from above, an update is an update of the subtree. *)
Lemma lkp_upd_above p q f o :
  is_Some (lkp p o) -> lkp p (upd (p ++ q) f o) = upd q f (lkp p o).
Proof.
  revert o; induction p as [|c p IH]; intros o; simpl; [done|].
  destruct o as [[?|es]|]; [by intros []| |by intros []].
  intros H. rw lookup_partial_alter_eq. by apply IH.
Qed.

(** A place that is missing and not below an update stays missing. *)
Lemma lkp_upd_none p q f o :
  ¬ p `prefix_of` q -> lkp q o = None -> lkp q (upd p f o) = None.
Proof.
  revert q o; induction p as [|c p IH]; intros q o Hp.
  { destruct Hp. apply prefix_nil. }
  destruct q as [|d q]; simpl.
  { by intros ->. }
  destruct o as [[?|es]|]; [done| |done].
  destruct (decide (c = d)) as [->|Hne].
  - rw lookup_partial_alter_eq. apply IH.
    intros H. apply Hp. by apply prefix_cons.
  - by rw lookup_partial_alter_ne.
Qed.

Lemma fs_upd_spec p f r :
  p ≠ [] -> upd p f (Some (Dir r)) = Some (Dir (fs_upd p f r)).
Proof. destruct p; [done|]. by intros _. Qed.

End tree.

(** ** Strings *)

Section strings.
Implicit Types (s t : string) (c sep : ascii).

Lemma app_cons c s t : String c s +:+ t = String c (s +:+ t).
Proof. reflexivity. Qed.

Lemma app_empty_l s : "" +:+ s = s.
Proof. reflexivity. Qed.

Lemma app_empty_r s : s +:+ "" = s.
Proof. induction s as [|c s IH]; [done|]. by rw app_cons IH. Qed.

Lemma app_assoc_str s t u : (s +:+ t) +:+ u = s +:+ (t +:+ u).
Proof. induction s as [|c s IH]; [done|]. by rw !app_cons IH. Qed.

Lemma app_eq_empty s t : s +:+ t = "" -> s = "" ∧ t = "".
Proof. by destruct s. Qed.

Lemma length_app_str s t :
  String.length (s +:+ t) = String.length s + String.length t.
Proof. induction s as [|c s IH]; [done|]. rw app_cons /=. by rw IH. Qed.

Lemma prefix_app_str s t : String.prefix s (s +:+ t) = true.
Proof.
  induction s as [|c s IH]; [by destruct t|].
  rw app_cons /=. by destruct (ascii_dec c c).
Qed.

(** *** [split] and [join] *)

Lemma split_not_nil sep s : PyStr.split sep s ≠ [].
Proof.
  destruct s as [|c s]; [done|]. simpl.
  destruct (Ascii.eqb c sep); [done|]. by destruct (PyStr.split sep s).
Qed.

Lemma split_cons_sep sep s :
  PyStr.split sep (String sep s) = "" :: PyStr.split sep s.
Proof. simpl. by rw Ascii.eqb_refl. Qed.

Lemma split_app_sep sep s t :
  PyStr.split sep (s +:+ String sep t) = PyStr.split sep s ++ PyStr.split sep t.
Proof.
  induction s as [|c s IH].
  - by rw app_empty_l split_cons_sep.
  - rw app_cons /=. rw IH. destruct (Ascii.eqb c sep); [done|].
    pose proof (split_not_nil sep s). by destruct (PyStr.split sep s).
Qed.

Lemma split_no_sep sep s : has_char sep s = false -> PyStr.split sep s = [s].
Proof.
  induction s as [|c s IH]; [done|]. simpl.
  destruct (Ascii.eqb c sep); [done|]. intros H. by rw IH.
Qed.

Lemma join_cons s (l : list string) : PyStr.join (s :: l) = s +:+ PyStr.join l.
Proof.
  rw /PyStr.join. destruct l as [|t l]; simpl; [by rw app_empty_r|done].
Qed.

Lemma join_app (l1 l2 : list string) :
  PyStr.join (l1 ++ l2) = PyStr.join l1 +:+ PyStr.join l2.
Proof.
  induction l1 as [|s l1 IH]; [done|].
  by rw -app_comm_cons !join_cons IH app_assoc_str.
Qed.

(** *** Case *)

Lemma to_upper_underscore c : c ≠ "_"%char -> PyStr.to_upper c ≠ "_"%char.
Proof. by destruct c as [[] [] [] [] [] [] [] []]. Qed.

Lemma to_lower_underscore c : c ≠ "_"%char -> PyStr.to_lower c ≠ "_"%char.
Proof. by destruct c as [[] [] [] [] [] [] [] []]. Qed.

Lemma to_lower_slash c :
  Ascii.eqb (PyStr.to_lower c) "/" = Ascii.eqb c "/".
Proof. by destruct c as [[] [] [] [] [] [] [] []]. Qed.

Lemma to_lower_dot c :
  Ascii.eqb (PyStr.to_lower c) "." = Ascii.eqb c ".".
Proof. by destruct c as [[] [] [] [] [] [] [] []]. Qed.

Lemma to_lower_idemp c : PyStr.to_lower (PyStr.to_lower c) = PyStr.to_lower c.
Proof. by destruct c as [[] [] [] [] [] [] [] []]. Qed.

Lemma lower_idemp s : PyStr.lower (PyStr.lower s) = PyStr.lower s.
Proof. induction s as [|c s IH]; [done|]. simpl. by rw to_lower_idemp IH. Qed.

(** *** [title] *)

Lemma title_segments b s :
  drop_underscores (PyStr.title_from b s) =
  match PyStr.split "_" s with
  | [] => ""
  | c0 :: rest => PyStr.title_from b c0 +:+ PyStr.join (map PyStr.title rest)
  end.
Proof.
  revert b; induction s as [|c s IH]; intros b; [done|].
  simpl. destruct (Ascii.eqb_spec c "_") as [->|Hc].
  - change (PyStr.is_cased "_") with false.
    replace (if b then PyStr.to_lower "_" else PyStr.to_upper "_")
      with "_"%char by by destruct b.
    simpl. rw IH. pose proof (split_not_nil "_" s).
    destruct (PyStr.split "_" s) as [|c0 rest]; [done|].
    by rw app_empty_l join_cons.
  - destruct (Ascii.eqb_spec (if b then PyStr.to_lower c else PyStr.to_upper c) "_")
      as [Heq|_].
    { destruct b; [by apply to_lower_underscore in Hc|by apply to_upper_underscore in Hc]. }
    rw IH. pose proof (split_not_nil "_" s).
    by destruct (PyStr.split "_" s) as [|c0 rest].
Qed.

Lemma title_from_get b s i :
  String.get i (PyStr.title_from b s) =
  match String.get i s with
  | Some c =>
      Some (if match i with O => b | S _ => after_letter s i end
            then PyStr.to_lower c else PyStr.to_upper c)
  | None => None
  end.
Proof.
  revert b i; induction s as [|c s IH]; intros b i; [by destruct i|].
  destruct i as [|i]; [done|]. simpl. rw IH.
  destruct (String.get i s) as [a|] eqn:Ha; [|done].
  destruct i as [|i]; [done|]. by simpl.
Qed.

(** *** [replace] *)

Lemma replace_from_skip old new t s :
  PyStr.replace_from old new (String.length t) (t +:+ s) =
  PyStr.replace_from old new 0 s.
Proof. induction t as [|c t IH]; [done|]. by rw app_cons /=. Qed.

Lemma replace_at_occurrence old new s :
  old ≠ "" ->
  PyStr.replace old new (old +:+ s) = new +:+ PyStr.replace old new s.
Proof.
  destruct old as [|c old]; [done|]. intros _.
  rw /PyStr.replace. pose proof (prefix_app_str (String c old) s) as Hp.
  change (String c old +:+ s) with (String c (old +:+ s)) in *.
  cbn [PyStr.replace_from]. rw Hp.
  replace (String.length (String c old) - 1) with (String.length old)
    by (simpl; lia).
  by rw replace_from_skip.
Qed.

Lemma replace_elsewhere old new c s :
  String.prefix old (String c s) = false ->
  PyStr.replace old new (String c s) = String c (PyStr.replace old new s).
Proof.
  destruct old as [|a old]; [done|]. intros H.
  rw /PyStr.replace. cbn [PyStr.replace_from]. by rw H.
Qed.

Lemma replace_in_empty old new : old ≠ "" -> PyStr.replace old new "" = "".
Proof. by destruct old. Qed.

Lemma to_camel_case_ok s : to_camel_case s = Ok (camel_case s).
Proof.
  rw /to_camel_case /camel_case. pose proof (split_not_nil "_" s).
  destruct (PyStr.split "_" s) as [|c0 rest]; [done|]. by rw /= join_cons.
Qed.

End strings.

(** ** Paths *)

Section paths.
Implicit Types (st : state) (r : gmap string node) (cur cs : list string)
  (a b n : string).

Lemma startswith_slash_cons c s :
  PyStr.startswith "/" (String c s) = Ascii.eqb c "/".
Proof.
  by destruct s, c as [[] [] [] [] [] [] [] []].
Qed.

Lemma startswith_slash_app a b :
  a ≠ "" -> PyStr.startswith "/" (a +:+ b) = PyStr.startswith "/" a.
Proof. destruct a as [|c a]; [done|]. intros _. by rw app_cons !startswith_slash_cons. Qed.

Lemma endswith_inv c s :
  PyStr.endswith_char c s = true -> exists q, s = q +:+ String c "".
Proof.
  induction s as [|a s IH]; [done|]. destruct s as [|a' s].
  - simpl. intros ->%Ascii.eqb_eq. by exists "".
  - intros H. destruct IH as [q Hq]; [done|]. exists (String a q). by rw app_cons -Hq.
Qed.

Lemma name_ok_no_slash n : name_ok n = true -> has_char "/" n = false.
Proof. rw /name_ok. intros H. by destruct (has_char "/" n); rw ?andb_false_r in H. Qed.

Lemma name_ok_split n : name_ok n = true -> PyStr.split "/" n = [n].
Proof. intros H. apply split_no_sep. by apply name_ok_no_slash. Qed.

Lemma name_ok_step cur n : name_ok n = true -> step cur n = cur ++ [n].
Proof.
  rw /name_ok /step. intros H.
  destruct (String.eqb n ""); [done|]. destruct (String.eqb n "."); [done|].
  by destruct (String.eqb n "..").
Qed.

Lemma name_ok_relative n : name_ok n = true -> PyStr.startswith "/" n = false.
Proof.
  intros H%name_ok_no_slash. destruct n as [|c n]; [done|].
  rw startswith_slash_cons. simpl in H. by destruct (Ascii.eqb c "/").
Qed.

Lemma has_char_lower n : has_char "/" (PyStr.lower n) = has_char "/" n.
Proof. induction n as [|c n IH]; [done|]. simpl. by rw to_lower_slash IH. Qed.

Lemma name_ok_lower n : name_ok n = true -> name_ok (PyStr.lower n) = true.
Proof.
  rw /name_ok has_char_lower. intros H.
  destruct (has_char "/" n); [by rw !andb_false_r in H|].
  destruct n as [|c [|c' [|c'' n]]]; try done.
  - simpl in *. rw /String.eqb in H |- *. by rw to_lower_dot.
  - simpl in *. rw /String.eqb in H |- *. rw !to_lower_dot.
    by destruct (Ascii.eqb c "."), (Ascii.eqb c' ".").
  - simpl. rw /String.eqb. rw !andb_true_r.
    by destruct (Ascii.eqb (PyStr.to_lower c) "."),
      (Ascii.eqb (PyStr.to_lower c') ".").
Qed.

Lemma walk_app r cur cs1 cs2 :
  walk r cur (cs1 ++ cs2) = walk r cur cs1 ≫= fun c => walk r c cs2.
Proof.
  revert cur; induction cs1 as [|c cs1 IH]; intros cur; [done|].
  simpl. by destruct (is_dir _).
Qed.

Lemma walk_mono r r' cur cs P :
  (forall Q, is_dir (lkp Q (Some (Dir r))) = true ->
             is_dir (lkp Q (Some (Dir r'))) = true) ->
  walk r cur cs = Some P -> walk r' cur cs = Some P.
Proof.
  intros Hm. revert cur; induction cs as [|c cs IH]; intros cur; [done|].
  simpl. destruct (is_dir (lkp cur (Some (Dir r)))) eqn:Hd; [|done].
  rw (Hm _ Hd). apply IH.
Qed.

Lemma walk_names r cur cs :
  forallb name_ok cs = true ->
  is_dir (lkp (cur ++ cs) (Some (Dir r))) = true ->
  walk r cur cs = Some (cur ++ cs).
Proof.
  revert cur; induction cs as [|c cs IH]; intros cur; [by rw app_nil_r|].
  simpl. intros [Hc Hcs]%andb_prop Hd.
  rw (is_dir_prefix cur (c :: cs)) // name_ok_step //.
  rw IH // -?app_assoc //.
Qed.

Lemma split_path_str c P :
  has_char "/" c = false -> forallb name_ok P = true ->
  PyStr.split "/" (c +:+ path_str P) = c :: P.
Proof.
  revert c; induction P as [|d P IH]; intros c Hc HP.
  - by rw /= app_empty_r split_no_sep.
  - simpl in HP. apply andb_prop in HP as [Hd HP].
    change (path_str (d :: P)) with (String "/" (d +:+ path_str P)).
    rw split_app_sep split_no_sep // IH //. by apply name_ok_no_slash.
Qed.

Lemma resolve_abs_str st P :
  forallb name_ok P = true -> is_dir (node_at st P) = true ->
  resolve st (abs_str P) = Some P.
Proof.
  intros HP Hd. destruct P as [|c P]; [done|].
  rw /resolve. change (abs_str (c :: P)) with (String "/" (c +:+ path_str P)).
  simpl in HP. apply andb_prop in HP as [Hc HP].
  rw startswith_slash_cons split_cons_sep split_path_str //;
    [by apply name_ok_no_slash|].
  change (walk (root st) [] (c :: P) = Some ([] ++ c :: P)).
  apply walk_names; [|done]. by rw /= Hc.
Qed.

(** [os.path.join] with a relative second argument. *)
Lemma os_path_join_relative a b :
  a ≠ "" -> PyStr.startswith "/" b = false ->
  exists q, os_path_join a b = q +:+ String "/" b ∧ (a = q ∨ a = q +:+ "/").
Proof.
  intros Ha Hb. rw /os_path_join Hb.
  destruct (String.eqb_spec a "") as [|_]; [done|]. simpl.
  destruct (PyStr.endswith_char "/" a) eqn:He.
  - apply endswith_inv in He as [q ->]. exists q. split; [|by right].
    by rw app_assoc_str.
  - exists a. by split; [|left].
Qed.

Lemma resolve_not_empty st a P : resolve st a = Some P -> a ≠ "".
Proof. by intros H ->. Qed.

(** A path joined to a directory is resolved from that directory. *)
Lemma resolve_join st a b A :
  resolve st a = Some A -> PyStr.startswith "/" b = false ->
  resolve st (os_path_join a b) = walk (root st) A (PyStr.split "/" b).
Proof.
  intros Hres Hb. pose proof (resolve_not_empty _ _ _ Hres) as Ha.
  destruct (os_path_join_relative a b Ha Hb) as (q & -> & Hq).
  revert Hres. rw /resolve. destruct (String.eqb_spec a "") as [|_]; [done|].
  destruct (String.eqb_spec (q +:+ String "/" b) "") as [He|_].
  { by apply app_eq_empty in He as [_ ?]. }
  rw split_app_sep walk_app.
  destruct Hq as [->| ->].
  - rw startswith_slash_app //. by intros ->.
  - have -> : PyStr.startswith "/" (q +:+ "/") = PyStr.startswith "/" (q +:+ String "/" b).
    { destruct q as [|c q]; [by rw !app_empty_l !startswith_slash_cons|].
      by rw !app_cons !startswith_slash_cons. }
    change "/" with (String "/"%char "") at 2.
    rw split_app_sep walk_app /=.
    destruct (walk (root st) _ (PyStr.split "/" q)) as [A'|]; [|done]. simpl.
    destruct (is_dir (lkp A' _)); [|done]. by intros [= <-].
Qed.

Lemma resolve_join_name st a n A :
  resolve st a = Some A -> is_dir (node_at st A) = true -> name_ok n = true ->
  resolve st (os_path_join a n) = Some (A ++ [n]).
Proof.
  intros Hres Hd Hn. rw (resolve_join st a n A) //; [by apply name_ok_relative|].
  rw name_ok_split //= -/(node_at st A) Hd. by rw name_ok_step.
Qed.

Lemma resolve_cwd st : cwd_ok st = true -> resolve st (abs_str (cwd st)) = Some (cwd st).
Proof. intros [? ?]%andb_prop. by apply resolve_abs_str. Qed.

(** Prefixing the current working directory to a path does not
    change the place it denotes. *)
Lemma resolve_join_cwd st a :
  cwd_ok st = true -> a ≠ "" ->
  resolve st (os_path_join (abs_str (cwd st)) a) = resolve st a.
Proof.
  intros Hcwd Ha. destruct (PyStr.startswith "/" a) eqn:Hs.
  - by rw /os_path_join Hs.
  - rw (resolve_join st _ a (cwd st)) //; [by apply resolve_cwd|].
    rw /resolve Hs. by destruct (String.eqb_spec a "").
Qed.

End paths.

(** ** States *)

Section states.
Implicit Types (st : state) (P Q : list string) (f : option node -> option node)
  (ev : event).

Lemma bind_eq {A B} (m : M A) (k : A -> M B) st :
  (m ≫= k) st =
  match m st with
  | (Ok a, st') => k a st'
  | (Raise e, st') => (Raise e, st')
  end.
Proof. reflexivity. Qed.

Lemma bind_ok {A B} (m : M A) (k : A -> M B) st a st' :
  m st = (Ok a, st') -> (m ≫= k) st = k a st'.
Proof. intros H. by rw bind_eq H. Qed.

Lemma bind_raise {A B} (m : M A) (k : A -> M B) st e st' :
  m st = (Raise e, st') -> (m ≫= k) st = (Raise e, st').
Proof. intros H. by rw bind_eq H. Qed.

(** *** The fields of an updated state *)

Lemma state_eq st st' :
  root st = root st' -> cwd st = cwd st' -> tempdir st = tempdir st' ->
  temp_names st = temp_names st' -> trace st = trace st' -> st = st'.
Proof. destruct st, st'. simpl. by intros -> -> -> -> ->. Qed.

Lemma node_at_set_node P Q f ev st :
  P ≠ [] -> node_at (set_node P f ev st) Q = lkp Q (upd P f (Some (Dir (root st)))).
Proof. intros HP. by rw /node_at /= fs_upd_spec. Qed.

Lemma node_at_set_node_here P f ev st :
  P ≠ [] -> is_Some (node_at st P) ->
  node_at (set_node P f ev st) P = f (node_at st P).
Proof. intros HP Hs. rw node_at_set_node //. by apply lkp_upd_here. Qed.

Lemma node_at_set_node_new P c f ev st :
  is_dir (node_at st P) = true ->
  node_at (set_node (P ++ [c]) f ev st) (P ++ [c]) = f (node_at st (P ++ [c])).
Proof.
  intros Hd. rw node_at_set_node; [by destruct P|]. by apply lkp_upd_new.
Qed.

Lemma node_at_set_node_apart P Q f ev st :
  apart P Q -> node_at (set_node P f ev st) Q = node_at st Q.
Proof.
  intros Ha. rw node_at_set_node.
  - intros ->. destruct Ha as [[] _]. apply prefix_nil.
  - by apply lkp_upd_apart.
Qed.

Lemma is_dir_set_node P Q f ev st :
  ¬ P `prefix_of` Q ->
  is_dir (node_at (set_node P f ev st) Q) = is_dir (node_at st Q).
Proof.
  intros Hp. rw node_at_set_node.
  - intros ->. destruct Hp. apply prefix_nil.
  - by apply is_dir_upd.
Qed.

Lemma is_dir_set_node_fresh P Q f ev st :
  node_at st P = None -> is_dir (node_at st Q) = true ->
  is_dir (node_at (set_node P f ev st) Q) = true.
Proof.
  intros HP HQ. rw is_dir_set_node //.
  intros Hpre. by rw /node_at (lkp_prefix_none P Q) in HQ.
Qed.

Lemma node_at_below st P Q : node_at st (P ++ Q) = lkp Q (node_at st P).
Proof. apply lkp_app. Qed.

Lemma node_at_set_node_below P Q f ev st :
  P ≠ [] -> node_at (set_node P f ev st) P = f (node_at st P) ->
  node_at (set_node P f ev st) (P ++ Q) = lkp Q (f (node_at st P)).
Proof. intros HP H. by rw node_at_below H. Qed.

(** Resolution only looks at which places are directories. *)
Lemma resolve_mono st st' p P :
  cwd st' = cwd st ->
  (forall Q, is_dir (node_at st Q) = true -> is_dir (node_at st' Q) = true) ->
  resolve st p = Some P -> resolve st' p = Some P.
Proof.
  rw /resolve. intros -> Hm. destruct (String.eqb p ""); [done|].
  by apply walk_mono.
Qed.

Lemma resolve_set_node_fresh P f ev st p Q :
  node_at st P = None ->
  resolve st p = Some Q -> resolve (set_node P f ev st) p = Some Q.
Proof.
  intros HP. apply resolve_mono; [done|].
  intros Q'. by apply is_dir_set_node_fresh.
Qed.

Lemma resolve_log ev st p : resolve (log ev st) p = resolve st p.
Proof. reflexivity. Qed.

Lemma resolve_set_temp_names l st p : resolve (set_temp_names l st) p = resolve st p.
Proof. reflexivity. Qed.

Lemma resolve_ext st st' p :
  cwd st' = cwd st ->
  (forall Q, is_dir (node_at st' Q) = is_dir (node_at st Q)) ->
  resolve st' p = resolve st p.
Proof.
  rw /resolve. intros -> He. destruct (String.eqb p ""); [done|].
  generalize (if PyStr.startswith "/" p then [] else cwd st).
  induction (PyStr.split "/" p) as [|c cs IH]; intros cur; [done|].
  simpl. rw -/(node_at st' cur) -/(node_at st cur) He.
  by destruct (is_dir (node_at st cur)).
Qed.

(** Rewriting a regular file changes no directory. *)
Lemma is_dir_set_node_file P text text' ev st Q :
  node_at st P = Some (File text) ->
  is_dir (node_at (set_node P (fun _ => Some (File text')) ev st) Q)
  = is_dir (node_at st Q).
Proof.
  intros HP. assert (P ≠ []) as HPne by (intros ->; done).
  destruct (decide (P `prefix_of` Q)) as [[k ->]|Hn].
  - assert (is_Some (node_at st P)) by (rw HP; by eexists).
    rw !node_at_below node_at_set_node_here // HP. by destruct k.
  - by apply is_dir_set_node.
Qed.

Lemma resolve_set_node_file P text text' ev st p :
  node_at st P = Some (File text) ->
  resolve (set_node P (fun _ => Some (File text')) ev st) p = resolve st p.
Proof.
  intros HP. apply resolve_ext; [done|]. intros Q.
  by apply (is_dir_set_node_file P text).
Qed.

Lemma node_at_set_node_none P Q f ev st :
  ¬ P `prefix_of` Q -> node_at st Q = None ->
  node_at (set_node P f ev st) Q = None.
Proof.
  intros Hp HQ. rw node_at_set_node.
  - intros ->. destruct Hp. apply prefix_nil.
  - by apply lkp_upd_none.
Qed.

Lemma node_at_set_node_above P c f ev st es :
  node_at st P = Some (Dir es) ->
  node_at (set_node (P ++ [c]) f ev st) P = Some (Dir (partial_alter f c es)).
Proof.
  intros HP. rw node_at_set_node; [by destruct P|].
  rw lkp_upd_above; [by rw -/(node_at st P) HP|]. by rw -/(node_at st P) HP.
Qed.

(** *** States that keep the directories of another *)

Lemma extends_refl st : extends st st.
Proof. by split. Qed.

Lemma extends_trans st1 st2 st3 : extends st1 st2 -> extends st2 st3 -> extends st1 st3.
Proof. intros [H1 H1'] [H2 H2']. split; [congruence|]. intros Q HQ. by apply H2', H1'. Qed.

Lemma extends_resolve st st' p P :
  extends st st' -> resolve st p = Some P -> resolve st' p = Some P.
Proof. intros [? ?]. by apply resolve_mono. Qed.

Lemma extends_is_dir st st' Q :
  extends st st' -> is_dir (node_at st Q) = true -> is_dir (node_at st' Q) = true.
Proof. intros [_ H]. apply H. Qed.

Lemma extends_log ev st : extends st (log ev st).
Proof. by split. Qed.

Lemma extends_set_temp_names l st : extends st (set_temp_names l st).
Proof. by split. Qed.

(** A directory put at a place without anything below it. *)
Lemma extends_set_node_dir P es ev st :
  P ≠ [] -> (forall c, node_at st (P ++ [c]) = None) ->
  extends st (set_node P (fun _ => Some (Dir es)) ev st).
Proof.
  intros HP Hleaf. split; [done|]. intros Q HQ.
  destruct (decide (P `prefix_of` Q)) as [[k ->]|Hn].
  - destruct k as [|c k].
    + rw app_nil_r in HQ |- *. rw node_at_set_node_here //.
      by destruct (node_at st P).
    + change (c :: k) with ([c] ++ k) in HQ.
      rw app_assoc node_at_below Hleaf in HQ. by destruct k.
  - by rw is_dir_set_node.
Qed.

Lemma extends_set_node_fresh P es ev st :
  node_at st P = None -> extends st (set_node P (fun _ => Some (Dir es)) ev st).
Proof.
  intros HP. split; [done|]. intros Q HQ. by apply is_dir_set_node_fresh.
Qed.

Lemma extends_set_node_file P text text' ev st :
  node_at st P = Some (File text) ->
  extends st (set_node P (fun _ => Some (File text')) ev st).
Proof.
  intros HP. split; [done|]. intros Q HQ. by rw (is_dir_set_node_file P text).
Qed.

End states.


(** ** Existence checks *)

Section checks.
Implicit Types (st : state).

Lemma library_exists_eq name operations_dir st :
  library_exists name operations_dir st =
  if isdir st operations_dir
  then (Ok (isdir st (os_path_join
              (os_path_join (abs_str (cwd st)) operations_dir) name)), st)
  else (Raise (FileNotFoundError (operations_dir +:+ " does not exist.")), st).
Proof.
  rw /library_exists bind_eq /os_path_isdir. by destruct (isdir st operations_dir).
Qed.

Lemma library_exists_state name operations_dir st :
  (library_exists name operations_dir st).2 = st.
Proof. rw library_exists_eq. by destruct (isdir st operations_dir). Qed.

Lemma isdir_resolve st p :
  isdir st p = true -> exists P, resolve st p = Some P ∧ is_dir (node_at st P) = true.
Proof. rw /isdir. destruct (resolve st p) as [P|]; [|done]. by exists P. Qed.

(** The library path, made absolute with [os.getcwd()], denotes the
    same place as the path relative to the operations directory. *)
Lemma resolve_library_path st operations_dir name :
  cwd_ok st = true -> isdir st operations_dir = true ->
  resolve st (os_path_join (os_path_join (abs_str (cwd st)) operations_dir) name)
  = resolve st (os_path_join operations_dir name).
Proof.
  intros Hcwd (O & HO & Hd)%isdir_resolve.
  pose proof (resolve_not_empty _ _ _ HO) as Hne.
  destruct (PyStr.startswith "/" name) eqn:Hs.
  - by rw /os_path_join Hs.
  - rw (resolve_join st _ name O) //; [by rw resolve_join_cwd|].
    by rw (resolve_join st operations_dir name O).
Qed.

Lemma isdir_library_path st operations_dir name :
  cwd_ok st = true -> isdir st operations_dir = true ->
  isdir st (os_path_join (os_path_join (abs_str (cwd st)) operations_dir) name)
  = isdir st (os_path_join operations_dir name).
Proof. intros ??. by rw /isdir resolve_library_path. Qed.

Lemma operation_exists_eq operations_dir library_name operation_name st :
  operation_exists operations_dir library_name operation_name st =
  if isdir st operations_dir
  then if isdir st (os_path_join (os_path_join (abs_str (cwd st)) operations_dir)
                      library_name)
       then (Ok (isfile st (os_path_join (os_path_join (os_path_join
                   operations_dir library_name) operation_name) "__init__.py")), st)
       else (Raise (LibraryNotFound (os_path_join operations_dir library_name)), st)
  else (Raise (FileNotFoundError operations_dir), st).
Proof.
  rw /operation_exists bind_eq /os_path_isdir.
  destruct (isdir st operations_dir) eqn:Hd; [|done]. simpl.
  rw bind_eq library_exists_eq Hd.
  by destruct (isdir st (os_path_join (os_path_join _ _) _)).
Qed.

(** Existence is kept by a state that keeps the directories. *)
Lemma isdir_extends st st' p :
  extends st st' -> isdir st p = true -> isdir st' p = true.
Proof.
  intros E (P & HP & Hd)%isdir_resolve.
  rw /isdir (extends_resolve st st' p P) //. by apply (extends_is_dir st).
Qed.

Lemma library_exists_extends st st' name operations_dir :
  extends st st' ->
  library_exists name operations_dir st = (Ok true, st) ->
  library_exists name operations_dir st' = (Ok true, st').
Proof.
  intros E. rw !library_exists_eq.
  destruct (isdir st operations_dir) eqn:Hd; [|done].
  rw (isdir_extends st st') // (proj1 E). intros [= H]. by rw (isdir_extends st st').
Qed.

Lemma operation_exists_of_library operations_dir library_name operation_name st :
  library_exists library_name operations_dir st = (Ok true, st) ->
  operation_exists operations_dir library_name operation_name st =
  (Ok (isfile st (os_path_join (os_path_join (os_path_join
         operations_dir library_name) operation_name) "__init__.py")), st).
Proof.
  rw operation_exists_eq library_exists_eq.
  destruct (isdir st operations_dir); [|done]. intros [= H]. by rw H.
Qed.

End checks.

(** ** Placeholders *)

Section placeholders.
Implicit Types (st : state) (P Q : list string) (d items : dict).

Lemma open_read_file st p P text :
  resolve st p = Some P -> node_at st P = Some (File text) ->
  open_read p st = (Ok (PyStr.universal_newlines text), log (EvRead P) st).
Proof. intros Hr Hn. by rw /open_read Hr Hn. Qed.

Lemma open_write_file st p P text text' :
  resolve st p = Some P -> node_at st P = Some (File text) ->
  open_write p text' st =
  (Ok tt, set_node P (fun _ => Some (File text')) (EvWrite P text') st).
Proof. intros Hr Hn. by rw /open_write Hr Hn. Qed.

Lemma node_at_file_not_root st P text : node_at st P = Some (File text) -> P ≠ [].
Proof. by intros H ->. Qed.

Lemma dict_wf_get d k v :
  dict_wf d = true -> (k, v) ∈ d -> dict_get d k = Some v.
Proof.
  rw /dict_wf. induction d as [|[k0 v0] d IH]; [by intros _ ?%elem_of_nil|].
  simpl. intros [Hk Hd]%andb_prop [[= -> ->]|Hin]%elem_of_cons.
  - by rw String.eqb_refl.
  - destruct (String.eqb_spec k0 k) as [->|_]; [|by apply IH].
    apply negb_true_iff, not_true_iff_false in Hk. destruct Hk.
    apply existsb_exists. exists k. split; [|apply String.eqb_refl].
    apply list_elem_of_In in Hin. by apply (in_map fst) in Hin.
Qed.

(** One pass of the loop per item, each on the text the pass before
    it has written. *)
Lemma for_each_passes p P d items st text :
  (forall k v, (k, v) ∈ items -> dict_get d k = Some v) ->
  resolve st p = Some P -> node_at st P = Some (File text) ->
  for_each (dict_keys items) (fun key =>
    text ← open_read p;
    value ← dict_getitem d key;
    let new_text := PyStr.replace key value text in
    open_write p new_text) st
  = (Ok tt, run_passes P (passes text items) st).
Proof.
  revert st text. induction items as [|[k v] items IH]; intros st text Hd Hr Hn.
  { done. }
  pose proof (node_at_file_not_root _ _ _ Hn) as HP.
  cbn [dict_keys map fst for_each passes run_passes].
  rw bind_eq bind_eq (open_read_file st p P text) //.
  assert (dict_get d k = Some v) as Hk by (apply Hd; left).
  rw bind_eq /dict_getitem Hk. cbn [mret M_ret].
  rw (open_write_file _ p P text) //.
  apply IH.
  - intros k' v' Hin. apply Hd. by right.
  - by rw (resolve_set_node_file P text).
  - rw node_at_set_node_here //.
Qed.

Lemma run_passes_trace P texts st :
  trace (run_passes P texts st) =
  trace st ++ flat_map (fun t => [EvRead P; EvWrite P t]) texts.
Proof.
  revert st; induction texts as [|t texts IH]; intros st.
  - by rw /= app_nil_r.
  - by rw /= IH /= -!app_assoc.
Qed.

Lemma default_last_cons (a b : string) (l : list string) :
  default a (last (b :: l)) = default b (last l).
Proof.
  revert a b; induction l as [|c l IH]; intros a b; [done|].
  change (last (b :: c :: l)) with (last (c :: l)). by rw !(IH _ c).
Qed.

Lemma run_passes_text P texts st text :
  node_at st P = Some (File text) ->
  node_at (run_passes P texts st) P = Some (File (default text (last texts))).
Proof.
  revert st text; induction texts as [|t texts IH]; intros st text Hn; [done|].
  pose proof (node_at_file_not_root _ _ _ Hn) as HP.
  simpl. rw (IH _ t).
  - by rw node_at_set_node_here.
  - by rw default_last_cons.
Qed.


Lemma last_passes text d : default text (last (passes text d)) = substituted text d.
Proof.
  revert text; induction d as [|[k v] d IH]; intros text; [done|].
  by rw /= default_last_cons IH.
Qed.

Lemma replace_placeholders_run st p d P text :
  resolve st p = Some P -> node_at st P = Some (File text) -> dict_wf d = true ->
  replace_placeholders_in_file p d st = (Ok tt, run_passes P (passes text d) st).
Proof.
  intros Hr Hn Hwf.
  rw /replace_placeholders_in_file bind_eq /os_path_isfile /isfile Hr Hn.
  cbn [is_file negb]. apply for_each_passes; [|done..].
  intros k v. by apply dict_wf_get.
Qed.

End placeholders.

(** ** Directories: [os.mkdir], [os.makedirs], [shutil], [tempfile] *)

Section directories.
Implicit Types (st : state) (P Q A : list string) (a n : string).

Lemma os_mkdir_new st p P :
  resolve st p = Some P -> node_at st P = None ->
  os_mkdir p st = (Ok tt, set_node P (fun _ => Some (Dir ∅)) (EvMkdir P) st).
Proof. intros Hr Hn. by rw /os_mkdir Hr Hn. Qed.

Lemma os_mkdir_exists st p P :
  resolve st p = Some P -> is_Some (node_at st P) ->
  os_mkdir p st = (Raise (FileExistsError p), st).
Proof. intros Hr [x Hn]. by rw /os_mkdir Hr Hn. Qed.

(** The components of a joined path: first those that lead to the
    directory, then those of the relative path. *)
Lemma os_path_join_split st a b A :
  resolve st a = Some A -> is_dir (node_at st A) = true ->
  PyStr.startswith "/" b = false ->
  exists cs,
    PyStr.split "/" (os_path_join a b) = cs ++ PyStr.split "/" b
    ∧ walk (root st) (start_dir st (os_path_join a b)) cs = Some A
    ∧ os_path_join a b ≠ "".
Proof.
  intros Hres Hd Hb. pose proof (resolve_not_empty _ _ _ Hres) as Ha.
  destruct (os_path_join_relative a b Ha Hb) as (q & -> & Hq).
  exists (PyStr.split "/" q). split; [by rw split_app_sep|]. split.
  - revert Hres. rw /resolve /start_dir.
    destruct (String.eqb_spec a "") as [|_]; [done|].
    destruct Hq as [->| ->].
    + by rw startswith_slash_app.
    + have -> : PyStr.startswith "/" (q +:+ "/")
                = PyStr.startswith "/" (q +:+ String "/" b).
      { destruct q as [|c q]; [by rw !app_empty_l !startswith_slash_cons|].
        by rw !app_cons !startswith_slash_cons. }
      change "/" with (String "/"%char "") at 2.
      rw split_app_sep walk_app /=.
      destruct (walk (root st) _ (PyStr.split "/" q)) as [A'|]; [|done]. simpl.
      by destruct (is_dir (lkp A' _)).
  - intros He. by apply app_eq_empty in He as [_ ?].
Qed.

Lemma walk_start_dir r cur cs A :
  walk r cur cs = Some A -> is_dir (lkp A (Some (Dir r))) = true ->
  is_dir (lkp cur (Some (Dir r))) = true.
Proof.
  destruct cs as [|c cs]; simpl; [by intros [= ->]|].
  by destruct (is_dir (lkp cur _)).
Qed.

(** Along directories that exist [os.makedirs] makes nothing. *)
Lemma makedirs_walk_existing st p cs rest cur A :
  walk (root st) cur cs = Some A -> is_dir (node_at st A) = true ->
  makedirs_walk p (cs ++ rest) cur false st = makedirs_walk p rest A false st.
Proof.
  revert cur; induction cs as [|c cs IH]; intros cur Hw Hd.
  { simpl in Hw. by injection Hw as ->. }
  pose proof (walk_start_dir _ _ _ _ Hw Hd) as Hcur.
  simpl in Hw. rw Hcur in Hw.
  pose proof (walk_start_dir _ _ _ _ Hw Hd) as Hnext.
  rw -app_comm_cons. cbn [makedirs_walk].
  destruct (node_at st cur) as [[?|es]|] eqn:Hn;
    [by rw /node_at in Hn; rw Hn in Hcur| |by rw /node_at in Hn; rw Hn in Hcur].
  revert Hw Hnext. rw /step.
  destruct (String.eqb c "" || String.eqb c "."); [by intros; apply IH|].
  destruct (String.eqb c ".."); [by intros; apply IH|].
  intros Hw Hnext. rw -/(node_at st (cur ++ [c])) in Hnext.
  destruct (node_at st (cur ++ [c])) as [[?|es']|]; [done| |done].
  by apply IH.
Qed.

Lemma os_makedirs_leaf st a n A :
  resolve st a = Some A -> is_dir (node_at st A) = true -> name_ok n = true ->
  node_at st (A ++ [n]) = None ->
  os_makedirs (os_path_join a n) st =
  (Ok tt, set_node (A ++ [n]) (fun _ => Some (Dir ∅)) (EvMkdir (A ++ [n])) st).
Proof.
  intros Hr Hd Hn Hnew.
  destruct (os_path_join_split st a n A Hr Hd (name_ok_relative _ Hn))
    as (cs & Hsplit & Hwalk & Hne).
  rw /os_makedirs. destruct (String.eqb_spec (os_path_join a n) "") as [|_]; [done|].
  rw Hsplit name_ok_split // -/(start_dir st (os_path_join a n)).
  rw (makedirs_walk_existing st _ cs [n] _ A) //.
  cbn [makedirs_walk].
  destruct (node_at st A) as [[?|es]|]; [done| |done].
  revert Hn. rw /name_ok.
  destruct (String.eqb n ""); [done|]. destruct (String.eqb n "."); [done|].
  destruct (String.eqb n ".."); [done|]. intros _. by rw /= Hnew.
Qed.

(** [shutil.copytree] to a new entry of a directory. *)
Lemma shutil_copytree_new st src Src es a n A :
  resolve st src = Some Src -> node_at st Src = Some (Dir es) ->
  resolve st a = Some A -> is_dir (node_at st A) = true -> name_ok n = true ->
  node_at st (A ++ [n]) = None ->
  ¬ Src `prefix_of` A ++ [n] ->
  shutil_copytree src (os_path_join a n) st =
  (Ok tt, set_node (A ++ [n]) (fun _ => Some (Dir es)) (EvCopytree Src (A ++ [n]))
            (set_node (A ++ [n]) (fun _ => Some (Dir ∅)) (EvMkdir (A ++ [n])) st)).
Proof.
  intros Hsrc Hes Hr Hd Hn Hnew Hpre.
  rw /shutil_copytree Hsrc Hes (os_makedirs_leaf st a n A) //.
  rw (resolve_join_name _ a n A) //.
  - by apply resolve_set_node_fresh.
  - by apply is_dir_set_node_fresh.
  - by rw bool_decide_eq_false_2.
Qed.

Lemma shutil_rmtree_dir st p P :
  resolve st p = Some P -> is_dir (node_at st P) = true ->
  shutil_rmtree p st = (Ok tt, set_node P (fun _ => None) (EvRmtree P) st).
Proof.
  intros Hr Hd. rw /shutil_rmtree Hr. by destruct (node_at st P) as [[?|?]|].
Qed.

(** *** The staging directory *)

Lemma name_ok_tmp n : has_char "/" n = false -> name_ok ("tmp" +:+ n) = true.
Proof. intros H. by rw /name_ok /= H. Qed.

Lemma staging_from_spec st names M rest :
  staging_from st names = Some (M, rest) ->
  exists n, n ∈ names ∧ M = tempdir st ++ ["tmp" +:+ n] ∧ node_at st M = None.
Proof.
  induction names as [|n names IH]; [done|]. simpl.
  destruct (node_at st (tempdir st ++ ["tmp" +:+ n])) eqn:Hn.
  - intros (n' & ? & ?)%IH. exists n'. split; [by right|done].
  - intros [= <- <-]. exists n. split; [by left|done].
Qed.

Lemma staging_from_set_temp_names st l names :
  staging_from (set_temp_names l st) names = staging_from st names.
Proof.
  induction names as [|n names IH]; [done|]. simpl. rw IH.
  by change (node_at (set_temp_names l st)) with (node_at st).
Qed.

Lemma mkdtemp_loop_staging st names M rest :
  forallb name_ok (tempdir st) = true -> is_dir (node_at st (tempdir st)) = true ->
  forallb (fun n => negb (has_char "/" n)) names = true ->
  staging_from st names = Some (M, rest) ->
  exists tmp,
    mkdtemp_loop (abs_str (tempdir st)) names st =
    (Ok tmp, set_node M (fun _ => Some (Dir ∅)) (EvMkdir M) (set_temp_names rest st))
    ∧ forall st', extends st st' -> resolve st' tmp = Some M.
Proof.
  intros HT HTd. revert st HT HTd.
  induction names as [|n names IH]; intros st HT HTd Hnames; [done|].
  simpl in Hnames. apply andb_prop in Hnames as [Hn%negb_true_iff Hnames].
  pose proof (name_ok_tmp n Hn) as Hok.
  assert (Hres : forall st', extends st st' ->
    resolve st' (os_path_join (abs_str (tempdir st)) ("tmp" +:+ n))
    = Some (tempdir st ++ ["tmp" +:+ n])).
  { intros st' Hext. apply resolve_join_name; [|by apply (extends_is_dir st)|done].
    apply (extends_resolve st); [done|]. by apply resolve_abs_str. }
  cbn [staging_from mkdtemp_loop].
  destruct (node_at st (tempdir st ++ ["tmp" +:+ n])) as [x|] eqn:Hnode.
  - intros Hst. rw (os_mkdir_exists _ _ (tempdir st ++ ["tmp" +:+ n])).
    { apply Hres. apply extends_set_temp_names. }
    { by rw /node_at /= -/(node_at st _) Hnode. }
    destruct (IH (set_temp_names names st)) as (tmp & Hloop & Htmp);
      [exact HT|exact HTd|done|by rw staging_from_set_temp_names|].
    exists tmp. split; [exact Hloop|]. intros st' Hext. by apply Htmp.
  - intros [= <- <-]. rw (os_mkdir_new _ _ (tempdir st ++ ["tmp" +:+ n])) //.
    { apply Hres. apply extends_set_temp_names. }
    eexists. split; [done|]. exact Hres.
Qed.

Lemma tempfile_mkdtemp_staging st M rest :
  temp_ok st = true -> staging st = Some (M, rest) ->
  exists tmp,
    tempfile_mkdtemp st =
    (Ok tmp, set_node M (fun _ => Some (Dir ∅)) (EvMkdir M) (set_temp_names rest st))
    ∧ forall st', extends st st' -> resolve st' tmp = Some M.
Proof.
  rw /temp_ok. intros [[HT HTd]%andb_prop Hn]%andb_prop Hst.
  by apply mkdtemp_loop_staging.
Qed.

End directories.

(** ** [library_create] *)

Section library_create.
Implicit Types (st : state).

Lemma resolve_template st t es text :
  name_ok t = true -> template_at st t = Some (es, text) ->
  resolve st (template_path t) = Some (template_place st t)
  ∧ node_at st (template_place st t) = Some (Dir es)
  ∧ es !! "__init__.py" = Some (File text).
Proof.
  intros Ht. rw /template_at.
  destruct (node_at st (template_place st t)) as [[?|es']|] eqn:Hn; [done| |done].
  destruct (es' !! "__init__.py") as [[text'|?]|] eqn:Hi; [|done..].
  intros [= -> ->]. split; [|done].
  change (template_path t) with (os_path_join "operations/base/utils/templates" t).
  rw /os_path_join (name_ok_relative t) //.
  change (String.eqb "operations/base/utils/templates" "" ||
          PyStr.endswith_char "/" "operations/base/utils/templates") with false.
  cbn match. rw /resolve.
  destruct (String.eqb_spec ("operations/base/utils/templates" +:+ "/" +:+ t) "")
    as [He|_]; [done|].
  rw startswith_slash_app // split_app_sep (name_ok_split t) //.
  change (PyStr.startswith "/" "operations/base/utils/templates") with false.
  change (PyStr.split "/" "operations/base/utils/templates")
    with ["operations"; "base"; "utils"; "templates"].
  cbn match. apply walk_names; [by rw /= Ht|]. by rw -/(node_at st _) -/(template_place st t) Hn.
Qed.

Lemma staging_spec st M rest :
  staging st = Some (M, rest) ->
  node_at st M = None ∧ exists n, M = tempdir st ++ [n].
Proof. intros (n & _ & -> & ?)%staging_from_spec. split; [done|]. by eexists. Qed.

(** The run of the common steps when nothing is in their way. *)
Lemma scaffold_ok st template placeholder value a n A es text M rest message :
  temp_ok st = true -> name_ok template = true -> name_ok n = true ->
  resolve st a = Some A -> is_dir (node_at st A) = true ->
  node_at st (A ++ [n]) = None ->
  template_at st template = Some (es, text) ->
  staging st = Some (M, rest) ->
  ¬ template_place st template `prefix_of` M ->
  M ≠ A ++ [n] ->
  scaffold template placeholder value (os_path_join a n) message st =
  (Ok (os_path_join a n),
   scaffolded st template placeholder value A n es text M rest message).
Proof.
  intros Htmp Htemplate Hn HO HOd Hfree Htpl Hst Hsrc HM.
  rw /scaffolded.
  set (text' := pass placeholder value text).
  set (Src := template_place st template) in *.
  set (D := M ++ ["tmp"]). set (I := D ++ ["__init__.py"]). set (Tgt := A ++ [n]) in *.
  destruct (resolve_template st template es text) as (Hrt & Hnt & Hinit); [done..|].
  fold Src in Hrt, Hnt.
  destruct (staging_spec st M rest Hst) as (HMnone & nm & HMeq).
  destruct (tempfile_mkdtemp_staging st M rest Htmp Hst) as (tmp & Hmk & Htmpres).
  assert (HTd : is_dir (node_at st (tempdir st)) = true).
  { revert Htmp. rw /temp_ok. by intros [[_ ?]%andb_prop _]%andb_prop. }
  assert (HMne : M ≠ []) by (rw HMeq; by destruct (tempdir st)).
  assert (HDne : D ≠ []) by (rw /D; by destruct M).
  assert (HIne : I ≠ []) by (rw /I; by destruct D).
  assert (HTne : Tgt ≠ []) by (rw /Tgt; by destruct A).
  (* the places are apart *)
  assert (HMT : ¬ M `prefix_of` Tgt).
  { intros [H|H]%prefix_snoc_inv; [|done].
    by rw /node_at (lkp_prefix_none M A) in HOd. }
  assert (HDT : ¬ D `prefix_of` Tgt).
  { intros H. apply HMT. by apply prefix_app_l in H. }
  assert (HIT : ¬ I `prefix_of` Tgt).
  { intros H. apply HDT. by apply prefix_app_l in H. }
  assert (HMS : ¬ M `prefix_of` Src).
  { intros H. by rw /node_at (lkp_prefix_none M Src) in Hnt. }
  assert (HSD : ¬ Src `prefix_of` D).
  { intros [H|H]%prefix_snoc_inv; [done|].
    rw /node_at (lkp_prefix_none M Src) // in Hnt. rw H. by apply prefix_app_r. }
  assert (HTD : ¬ Tgt `prefix_of` D).
  { intros [H|H]%prefix_snoc_inv.
    - rw HMeq in H. apply prefix_snoc_inv in H as [H|H]; [|congruence].
      by rw /node_at (lkp_prefix_none Tgt (tempdir st)) in HTd.
    - apply app_inj_tail in H as [H _]. rw H in HOd. by rw HMnone in HOd. }
  (* tempfile.mkdtemp() *)
  set (st1 := set_node M (fun _ => Some (Dir ∅)) (EvMkdir M) (set_temp_names rest st)) in *.
  assert (E1 : extends st st1).
  { eapply extends_trans; [apply (extends_set_temp_names rest)|].
    by apply extends_set_node_fresh. }
  assert (HM1 : node_at st1 M = Some (Dir ∅)).
  { rw /st1 HMeq. by rw (node_at_set_node_new (tempdir st)). }
  assert (HD1 : node_at st1 D = None).
  { by rw /D node_at_below HM1. }
  (* shutil.copytree(template, tmp_dir) *)
  set (st1' := set_node D (fun _ => Some (Dir ∅)) (EvMkdir D) st1).
  set (st2 := set_node D (fun _ => Some (Dir es)) (EvCopytree Src D) st1').
  assert (Hcp1 : shutil_copytree (template_path template)
                   (os_path_join tmp "tmp") st1 = (Ok tt, st2)).
  { apply shutil_copytree_new; try done.
    - by apply (extends_resolve st).
    - by rw node_at_set_node_apart.
    - by apply Htmpres.
    - by rw HM1. }
  assert (HD1' : node_at st1' D = Some (Dir ∅)).
  { by rw /st1' /D node_at_set_node_new // HM1. }
  assert (E12 : extends st1 st2).
  { eapply extends_trans; [by apply (extends_set_node_fresh D ∅)|].
    apply extends_set_node_dir; [done|]. intros c.
    by rw node_at_below -/st1' HD1'. }
  assert (HD2 : node_at st2 D = Some (Dir es)).
  { by rw /st2 node_at_set_node_here // HD1'. }
  assert (HI2 : node_at st2 I = Some (File text)).
  { by rw /I node_at_below HD2. }
  assert (Hres_tmp : forall st', extends st2 st' ->
            resolve st' (os_path_join tmp "tmp") = Some D).
  { intros st' E. apply resolve_join_name; [| |done].
    - apply Htmpres. exact (extends_trans _ _ _ E1 (extends_trans _ _ _ E12 E)).
    - apply (extends_is_dir st1); [exact (extends_trans _ _ _ E12 E)|by rw HM1]. }
  (* replace_placeholders_in_file(tmp_init, ...) *)
  set (st3 := set_node I (fun _ => Some (File text')) (EvWrite I text')
                (log (EvRead I) st2)).
  assert (Hrp : replace_placeholders_in_file
                  (os_path_join (os_path_join tmp "tmp") "__init__.py")
                  [(placeholder, value)] st2 = (Ok tt, st3)).
  { rw (replace_placeholders_run st2 _ _ I text) //.
    apply resolve_join_name; [|by rw HD2|done].
    apply Hres_tmp, extends_refl. }
  assert (E23 : extends st2 st3).
  { eapply extends_trans; [apply (extends_log (EvRead I))|].
    by apply (extends_set_node_file I text). }
  assert (HD3 : node_at st3 D = Some (Dir (substitute_tree placeholder value es text))).
  { by rw /st3 /I (node_at_set_node_above D _ _ _ _ es). }
  assert (HT3 : node_at st3 Tgt = None).
  { apply node_at_set_node_none; [done|]. change (node_at st2 Tgt = None).
    do 3 (apply node_at_set_node_none; [done|]). exact Hfree. }
  assert (E03 : extends st st3).
  { exact (extends_trans _ _ _ E1 (extends_trans _ _ _ E12 E23)). }
  (* shutil.copytree(tmp_dir, library_new_path) *)
  set (st3' := set_node Tgt (fun _ => Some (Dir ∅)) (EvMkdir Tgt) st3).
  set (st4 := set_node Tgt (fun _ => Some (Dir (substitute_tree placeholder value es text)))
                (EvCopytree D Tgt) st3').
  assert (Hcp2 : shutil_copytree (os_path_join tmp "tmp")
                   (os_path_join a n) st3 = (Ok tt, st4)).
  { apply shutil_copytree_new; try done.
    - by apply Hres_tmp.
    - by apply (extends_resolve st).
    - by apply (extends_is_dir st). }
  assert (HT3' : node_at st3' Tgt = Some (Dir ∅)).
  { rw /st3' /Tgt node_at_set_node_new //. by apply (extends_is_dir st). }
  assert (E34 : extends st3 st4).
  { eapply extends_trans; [by apply (extends_set_node_fresh Tgt ∅)|].
    apply extends_set_node_dir; [done|]. intros c.
    by rw node_at_below -/st3' HT3'. }
  (* shutil.rmtree(tmp_dir) *)
  set (st5 := set_node D (fun _ => None) (EvRmtree D) st4).
  assert (Hrm : shutil_rmtree (os_path_join tmp "tmp") st4 = (Ok tt, st5)).
  { apply shutil_rmtree_dir.
    - apply Hres_tmp. exact (extends_trans _ _ _ E23 E34).
    - apply (extends_is_dir st3); [done|]. by rw HD3. }
  (* the run *)
  rw /scaffold.
  rw (bind_ok _ _ _ _ _ Hmk) (bind_ok _ _ _ _ _ Hcp1) (bind_ok _ _ _ _ _ Hrp).
  rw (bind_ok _ _ _ _ _ Hcp2) (bind_ok _ _ _ _ _ Hrm).
  rw bind_eq /cprint. cbn [mret M_ret]. f_equal.
  (* the state reached is the state announced *)
  apply state_eq; [|reflexivity..|].
  2: { match goal with |- _ = ?t => change (((((((((trace st ++ [EvMkdir M]) ++ [EvMkdir D]) ++
         [EvCopytree Src D]) ++ [EvRead I]) ++ [EvWrite I text']) ++
         [EvMkdir Tgt]) ++ [EvCopytree D Tgt]) ++ [EvRmtree D]) ++
         [EvPrint message "green"] = t)
       end. by rw -!app_assoc. }
  change (fs_upd D (fun _ => None)
           (fs_upd Tgt (fun _ => Some (Dir (substitute_tree placeholder value es text)))
             (fs_upd Tgt (fun _ => Some (Dir ∅))
               (fs_upd I (fun _ => Some (File text'))
                 (fs_upd D (fun _ => Some (Dir es))
                   (fs_upd D (fun _ => Some (Dir ∅))
                     (fs_upd M (fun _ => Some (Dir ∅)) (root st)))))))
          = fs_upd Tgt (fun _ => Some (Dir (substitute_tree placeholder value es text)))
              (fs_upd M (fun _ => Some (Dir ∅)) (root st))).
  match goal with
  | |- ?a = ?b => enough (Some (Dir a) = Some (Dir b)) as Heq by (by injection Heq)
  end.
  rw -!fs_upd_spec //.
  rw (upd_upd D) /I (upd_below_upd D) (upd_upd Tgt) (upd_comm D Tgt) // (upd_upd D).
  rw (upd_id D); [|done].
  assert (lkp D (upd M (fun _ => Some (Dir ∅)) (Some (Dir (root st)))) = None) as ->;
    [|done].
  rw fs_upd_spec //.
Qed.


(** [library_create] is its two checks followed by the common steps. *)
Lemma library_create_ok st library_name out_dir O es text M rest :
  temp_ok st = true -> name_ok library_name = true ->
  resolve st out_dir = Some O ->
  library_exists library_name out_dir st = (Ok false, st) ->
  node_at st (O ++ [PyStr.lower library_name]) = None ->
  template_at st "make_library" = Some (es, text) ->
  staging st = Some (M, rest) ->
  ¬ template_place st "make_library" `prefix_of` M ->
  M ≠ O ++ [PyStr.lower library_name] ->
  library_create library_name out_dir st =
  (Ok (os_path_join out_dir (PyStr.lower library_name)),
   library_created st library_name out_dir O es text M rest).
Proof.
  intros Htmp Hname HO Hnolib Hfree Htpl Hst Hsrc HM.
  assert (Hisdir : isdir st out_dir = true).
  { rw library_exists_eq in Hnolib. by destruct (isdir st out_dir). }
  assert (HOd : is_dir (node_at st O) = true).
  { revert Hisdir. by rw /isdir HO. }
  rw /library_create (bind_ok _ _ _ _ _ Hnolib). cbn match.
  rw bind_eq /os_path_isdir Hisdir. cbn [negb]. cbn match.
  apply (scaffold_ok st "make_library"); try done. by apply name_ok_lower.
Qed.

End library_create.

(** ** The world after the common steps *)

Section scaffolded.
Context (st : state) (template placeholder value : string)
  (A : list string) (n : string) (es : gmap string node) (text : string)
  (M rest : list string) (message : string).
Hypothesis HAd : is_dir (node_at st A) = true.
Hypothesis Hfree : node_at st (A ++ [n]) = None.
Hypothesis Hst : staging st = Some (M, rest).
Hypothesis HM : M ≠ A ++ [n].

#[local] Abbreviation st' :=
  (scaffolded st template placeholder value A n es text M rest message).

(** The file system of [st'], as two updates of [st]. *)
#[local] Abbreviation view :=
  (set_node (A ++ [n])
     (fun _ => Some (Dir (substitute_tree placeholder value es text))) (EvMkdir [])
     (set_node M (fun _ => Some (Dir ∅)) (EvMkdir M) st)).

Lemma scaffolded_node_at Q : node_at st' Q = node_at view Q.
Proof. reflexivity. Qed.

Lemma scaffolded_not_below_staging Q :
  is_dir (node_at st Q) = true -> ¬ M `prefix_of` Q.
Proof.
  destruct (staging_spec st M rest Hst) as [HMnone _].
  intros HQ H. by rw /node_at (lkp_prefix_none M Q) in HQ.
Qed.

Lemma scaffolded_staging_apart : ¬ M `prefix_of` A ++ [n].
Proof.
  intros [H|H]%prefix_snoc_inv; [|done].
  by apply (scaffolded_not_below_staging A HAd).
Qed.

Lemma scaffolded_extends : extends st st'.
Proof.
  destruct (staging_spec st M rest Hst) as [HMnone _].
  apply (extends_trans _ (set_node M (fun _ => Some (Dir ∅)) (EvMkdir M) st)).
  { by apply extends_set_node_fresh. }
  split; [done|]. intros Q HQ. rw scaffolded_node_at.
  apply is_dir_set_node_fresh; [|done].
  apply node_at_set_node_none; [|done]. apply scaffolded_staging_apart.
Qed.

Lemma scaffolded_target :
  node_at st' (A ++ [n]) = Some (Dir (substitute_tree placeholder value es text)).
Proof.
  destruct (staging_spec st M rest Hst) as [HMnone _].
  rw scaffolded_node_at node_at_set_node_new //.
  by apply is_dir_set_node_fresh.
Qed.

(** Places that are not below the new tree or the staging directory
    are directories as before. *)
Lemma scaffolded_is_dir Q :
  ¬ A ++ [n] `prefix_of` Q -> ¬ M `prefix_of` Q ->
  is_dir (node_at st' Q) = is_dir (node_at st Q).
Proof. intros H1 H2. by rw scaffolded_node_at !is_dir_set_node. Qed.

Lemma scaffolded_cwd_ok : cwd_ok st = true -> cwd_ok st' = true.
Proof.
  rw /cwd_ok. intros [H1 H2]%andb_prop.
  apply andb_true_intro. split; [done|].
  by apply (extends_is_dir st st' (cwd st) scaffolded_extends).
Qed.

Lemma scaffolded_temp_ok : temp_ok st = true -> temp_ok st' = true.
Proof.
  rw /temp_ok. intros [[H1 H2]%andb_prop H3]%andb_prop.
  apply andb_true_intro. split; [apply andb_true_intro; split; [done|]|].
  - by apply (extends_is_dir st st' (tempdir st) scaffolded_extends).
  - change (temp_names st') with rest.
    pose proof Hst as H. revert H3 H. rw /staging.
    induction (temp_names st) as [|x names IH]; [done|]. simpl.
    intros [Hx Hn]%andb_prop.
    destruct (node_at st (tempdir st ++ ["tmp" +:+ x])); [by apply IH|].
    by intros [= _ <-].
Qed.

(** An entry of the directory at [A], named through a path [a] of
    that directory. *)
Lemma scaffolded_resolve_entry a c :
  resolve st a = Some A -> name_ok c = true ->
  resolve st' (os_path_join a c) = Some (A ++ [c]).
Proof.
  intros Ha Hc. apply resolve_join_name; [| |done].
  - by apply (extends_resolve st st' _ _ scaffolded_extends).
  - by apply (extends_is_dir st st' _ scaffolded_extends).
Qed.

End scaffolded.

(** ** The world after [library_create] *)

Section created.
Context (st : state) (library_name out_dir : string) (O : list string)
  (es : gmap string node) (text : string) (M rest : list string).
Hypothesis Hcwd : cwd_ok st = true.
Hypothesis Hname : name_ok library_name = true.
Hypothesis HO : resolve st out_dir = Some O.
Hypothesis Hnolib : library_exists library_name out_dir st = (Ok false, st).
Hypothesis Hfree : node_at st (O ++ [PyStr.lower library_name]) = None.
Hypothesis Hst : staging st = Some (M, rest).
Hypothesis HM : M ≠ O ++ [PyStr.lower library_name].

#[local] Abbreviation st' :=
  (library_created st library_name out_dir O es text M rest).
#[local] Abbreviation lname := (PyStr.lower library_name).

Lemma created_isdir_out : isdir st out_dir = true.
Proof.
  pose proof Hnolib as H. rw library_exists_eq in H.
  by destruct (isdir st out_dir).
Qed.

Lemma created_out_dir : is_dir (node_at st O) = true.
Proof. pose proof created_isdir_out as H. revert H. by rw /isdir HO. Qed.

Lemma created_extends : extends st st'.
Proof. apply scaffolded_extends; try done. apply created_out_dir. Qed.

Lemma created_library :
  node_at st' (O ++ [lname]) = Some (Dir (library_tree library_name es text)).
Proof. apply scaffolded_target; try done. apply created_out_dir. Qed.

Lemma created_cwd_ok : cwd_ok st' = true.
Proof. apply scaffolded_cwd_ok; try done. apply created_out_dir. Qed.

Lemma created_resolve_entry n :
  name_ok n = true -> resolve st' (os_path_join out_dir n) = Some (O ++ [n]).
Proof. intros Hn. apply scaffolded_resolve_entry; try done. apply created_out_dir. Qed.

Lemma created_isdir_out_after : isdir st' out_dir = true.
Proof.
  rw /isdir (extends_resolve st st' _ _ created_extends HO).
  by apply (extends_is_dir st st' _ created_extends), created_out_dir.
Qed.

Lemma created_library_exists n :
  name_ok n = true ->
  library_exists n out_dir st' = (Ok (is_dir (node_at st' (O ++ [n]))), st').
Proof.
  intros Hn.
  rw library_exists_eq created_isdir_out_after isdir_library_path //;
    [apply created_cwd_ok|apply created_isdir_out_after|].
  by rw /isdir created_resolve_entry.
Qed.

(** The library is found under its lowercased name ... *)
Lemma created_exists_lower : library_exists lname out_dir st' = (Ok true, st').
Proof.
  rw created_library_exists; [by apply name_ok_lower|].
  by rw created_library.
Qed.

(** ... and, when the name has an uppercase letter, not under the
    name it was created with. *)
Lemma created_exists_verbatim :
  lname ≠ library_name -> M ≠ O ++ [library_name] ->
  library_exists library_name out_dir st' = (Ok false, st').
Proof.
  intros Hcase HM'. rw created_library_exists //. do 2 f_equal.
  assert (is_dir (node_at st (O ++ [library_name])) = false) as Hbefore.
  { pose proof Hnolib as H. rw library_exists_eq created_isdir_out in H.
    rw isdir_library_path // in H; [apply created_isdir_out|].
    revert H. rw /isdir (resolve_join_name st out_dir library_name O) //;
      [apply created_out_dir|]. by intros [= ->]. }
  rw -Hbefore. apply scaffolded_is_dir.
  - intros H%prefix_app_inv. by apply prefix_cons_inv_1 in H.
  - intros [H|H]%prefix_snoc_inv; [|done].
    by apply (scaffolded_not_below_staging st M rest Hst O created_out_dir).
Qed.

End created.

(** ** [operation_create] with a library name in lowercase *)

Section operation_create.
Context (st : state) (operations_dir library_name operation_name : string)
  (O : list string) (es : gmap string node) (text : string) (M rest : list string)
  (es2 : gmap string node) (text2 : string) (M2 rest2 : list string).
Hypothesis Hcwd : cwd_ok st = true.
Hypothesis Htmp : temp_ok st = true.
Hypothesis Hname : name_ok library_name = true.
Hypothesis Hlower : PyStr.lower library_name = library_name.
Hypothesis Hop : name_ok operation_name = true.
Hypothesis HO : resolve st operations_dir = Some O.
Hypothesis Hnolib : library_exists library_name operations_dir st = (Ok false, st).
Hypothesis Hfree : node_at st (O ++ [library_name]) = None.
Hypothesis Htpl : template_at st "make_library" = Some (es, text).
Hypothesis Hst : staging st = Some (M, rest).
Hypothesis Hsrc : ¬ template_place st "make_library" `prefix_of` M.
Hypothesis HM : M ≠ O ++ [library_name].
Hypothesis Hentry : es !! operation_name = None.

#[local] Abbreviation st1 :=
  (library_created st library_name operations_dir O es text M rest).
#[local] Abbreviation L := (O ++ [library_name]).

Hypothesis Htpl2 : template_at st1 "make_operation" = Some (es2, text2).
Hypothesis Hst2 : staging st1 = Some (M2, rest2).
Hypothesis Hsrc2 : ¬ template_place st1 "make_operation" `prefix_of` M2.

#[local] Abbreviation st2 :=
  (operation_created st1 operations_dir library_name operation_name L
     es2 text2 M2 rest2).
#[local] Abbreviation library_path := (os_path_join operations_dir library_name).
#[local] Abbreviation operation_path := (os_path_join library_path operation_name).

Lemma lowercase_library_created :
  library_create library_name operations_dir st = (Ok library_path, st1).
Proof.
  pose proof (library_create_ok st library_name operations_dir O es text M rest) as H.
  rw Hlower in H. apply H; first [done|by rw Hlower].
Qed.

Lemma lowercase_library_exists :
  library_exists library_name operations_dir st1 = (Ok true, st1).
Proof.
  pose proof (created_exists_lower st library_name operations_dir O es text M rest) as H.
  rw Hlower in H. apply H; first [done|by rw Hlower].
Qed.

Lemma lowercase_library_place : resolve st1 library_path = Some L.
Proof. apply created_resolve_entry; first [done|by rw Hlower]. Qed.

Lemma lowercase_library_node :
  node_at st1 L = Some (Dir (library_tree library_name es text)).
Proof.
  pose proof (created_library st library_name operations_dir O es text M rest) as H.
  rw Hlower in H. apply H; first [done|by rw Hlower].
Qed.

Lemma operation_not_initializer : operation_name ≠ "__init__.py".
Proof.
  intros Heq.
  destruct (resolve_template st "make_library" es text eq_refl Htpl) as (_ & _ & Hi).
  pose proof Hentry as H. rw Heq in H. by rw H in Hi.
Qed.

Lemma operation_free : node_at st1 (L ++ [operation_name]) = None.
Proof.
  rw node_at_below lowercase_library_node /= /library_tree /substitute_tree.
  rw lookup_insert_ne //. intros Heq. by apply operation_not_initializer.
Qed.

Lemma operation_missing :
  operation_exists operations_dir library_name operation_name st1 = (Ok false, st1).
Proof.
  rw (operation_exists_of_library _ _ _ _ lowercase_library_exists). do 2 f_equal.
  rw /isfile (resolve_join st1 operation_path "__init__.py" (L ++ [operation_name])) //.
  { apply resolve_join_name; [apply lowercase_library_place| |done].
    by rw lowercase_library_node. }
  change (PyStr.split "/" "__init__.py") with ["__init__.py"]. simpl.
  by rw -/(node_at st1 (L ++ [operation_name])) operation_free.
Qed.

Lemma operation_staging_apart : M2 ≠ L ++ [operation_name].
Proof.
  destruct (staging_spec st1 M2 rest2 Hst2) as (_ & x & ->).
  intros [Heq _]%app_inj_tail.
  assert (is_dir (node_at st (tempdir st)) = true) as HTd.
  { pose proof Htmp as H. revert H. rw /temp_ok.
    by intros [[_ ?]%andb_prop _]%andb_prop. }
  change (tempdir st1) with (tempdir st) in Heq.
  rw Heq in HTd. by rw Hfree in HTd.
Qed.

(** The run: the library is made, then the operation. *)
Lemma operation_create_ok :
  operation_create operations_dir library_name operation_name st =
  (Ok operation_path, st2).
Proof.
  rw /operation_create (bind_ok _ _ _ _ _ Hnolib).
  rw bind_eq /when_ /discard. cbn [negb].
  rw (bind_ok _ _ _ _ _ lowercase_library_created). cbn [mret M_ret].
  rw (bind_ok _ _ _ _ _ operation_missing). cbn match.
  rw to_camel_case_ok.
  transitivity (scaffold "make_operation" "NEWOPERATION" (camel_case operation_name)
                  operation_path
                  ("Operation successfully created under: " +:+
                   os_path_join operation_path "__init__.py") st1);
    [reflexivity|].
  apply (scaffold_ok st1 "make_operation"); try done.
  - apply scaffolded_temp_ok; first [done|by rw Hlower|idtac].
    by apply (created_out_dir st library_name operations_dir O).
  - apply lowercase_library_place.
  - by rw lowercase_library_node.
  - apply operation_free.
  - apply operation_staging_apart.
Qed.

Lemma operation_created_extends : extends st1 st2.
Proof.
  apply scaffolded_extends; try done.
  - by rw lowercase_library_node.
  - apply operation_free.
  - apply operation_staging_apart.
Qed.

(** Afterwards both the library and the operation are found. *)
Lemma operation_created_library_exists :
  library_exists library_name operations_dir st2 = (Ok true, st2).
Proof.
  apply (library_exists_extends st1); [apply operation_created_extends|].
  apply lowercase_library_exists.
Qed.

Lemma operation_created_exists :
  operation_exists operations_dir library_name operation_name st2 = (Ok true, st2).
Proof.
  rw (operation_exists_of_library _ _ _ _ operation_created_library_exists).
  do 2 f_equal.
  assert (node_at st2 (L ++ [operation_name])
          = Some (Dir (operation_tree operation_name es2 text2))) as Hnode.
  { apply scaffolded_target; try done. by rw lowercase_library_node. }
  rw /isfile (resolve_join_name st2 operation_path "__init__.py"
                (L ++ [operation_name])) //.
  - apply scaffolded_resolve_entry; try done.
    + by rw lowercase_library_node.
    + apply operation_free.
    + apply operation_staging_apart.
    + apply lowercase_library_place.
  - by rw Hnode.
  - rw node_at_below Hnode /= /operation_tree /substitute_tree.
    by rw lookup_insert_eq.
Qed.

End operation_create.

(** The scenario of an empty operations directory: the library
    [mylib] and its operation [do_thing] are made, the path of the
    operation is returned, its initializer file has the class name, and
    both are found afterwards. *)
Example operation_create_mylib_do_thing :
  operation_create "/ops" "mylib" "do_thing" world_empty =
    (Ok "/ops/mylib/do_thing", world_after_do_thing)
  /\ node_at world_after_do_thing ["ops"; "mylib"; "do_thing"; "__init__.py"]
     = Some (File "class DoThing(Operation): pass")
  /\ library_exists "mylib" "/ops" world_after_do_thing = (Ok true, world_after_do_thing)
  /\ operation_exists "/ops" "mylib" "do_thing" world_after_do_thing
     = (Ok true, world_after_do_thing).
Proof.
  assert (¬ template_place world_empty "make_library" `prefix_of` ["tmp"; "tmpk3x9q2ab"])
    as H1 by (intros [k Hk]; discriminate Hk).
  assert (["tmp"; "tmpk3x9q2ab"] ≠ ["ops"; "mylib"]) as H2 by discriminate.
  assert (¬ template_place world_after_mylib "make_operation"
            `prefix_of` ["tmp"; "tmpw8e1r5ty"])
    as H3 by (intros [k Hk]; discriminate Hk).
  assert (library_exists "mylib" "/ops" world_empty = (Ok false, world_empty))
    as H4 by (by vm_compute).
  assert (template_at world_after_mylib "make_operation"
          = Some (make_operation_entries, "class NEWOPERATION(Operation): pass"))
    as H5 by (by vm_compute).
  assert (staging world_after_mylib = Some (["tmp"; "tmpw8e1r5ty"], ["z0z0z0z0"]))
    as H6 by (by vm_compute).
  split_and!.
  - exact (operation_create_ok world_empty "/ops" "mylib" "do_thing" ["ops"]
      make_library_entries "# library LIBRARYNAME" ["tmp"; "tmpk3x9q2ab"]
      ["w8e1r5ty"; "z0z0z0z0"] make_operation_entries
      "class NEWOPERATION(Operation): pass" ["tmp"; "tmpw8e1r5ty"] ["z0z0z0z0"]
      eq_refl eq_refl eq_refl eq_refl eq_refl eq_refl H4 eq_refl eq_refl eq_refl
      H1 H2 eq_refl H5 H6 H3).
  - by vm_compute.
  - exact (operation_created_library_exists world_empty "/ops" "mylib" "do_thing" ["ops"]
      make_library_entries "# library LIBRARYNAME" ["tmp"; "tmpk3x9q2ab"]
      ["w8e1r5ty"; "z0z0z0z0"] make_operation_entries
      "class NEWOPERATION(Operation): pass" ["tmp"; "tmpw8e1r5ty"] ["z0z0z0z0"]
      eq_refl eq_refl eq_refl eq_refl eq_refl H4 eq_refl eq_refl eq_refl
      H2 eq_refl H6 H3).
  - exact (operation_created_exists world_empty "/ops" "mylib" "do_thing" ["ops"]
      make_library_entries "# library LIBRARYNAME" ["tmp"; "tmpk3x9q2ab"]
      ["w8e1r5ty"; "z0z0z0z0"] make_operation_entries
      "class NEWOPERATION(Operation): pass" ["tmp"; "tmpw8e1r5ty"] ["z0z0z0z0"]
      eq_refl eq_refl eq_refl eq_refl eq_refl eq_refl H4 eq_refl eq_refl eq_refl
      H2 eq_refl H6 H3).
Qed.

(** ** More on strings: case, [title] and [replace] *)

Section more_strings.
Implicit Types (s t : string) (c : ascii) (b : bool).

Lemma is_cased_to_lower c : PyStr.is_cased (PyStr.to_lower c) = PyStr.is_cased c.
Proof. by destruct c as [[] [] [] [] [] [] [] []]. Qed.

Lemma to_upper_to_lower c : PyStr.to_upper (PyStr.to_lower c) = PyStr.to_upper c.
Proof. by destruct c as [[] [] [] [] [] [] [] []]. Qed.

Lemma to_lower_to_upper c : PyStr.to_lower (PyStr.to_upper c) = PyStr.to_lower c.
Proof. by destruct c as [[] [] [] [] [] [] [] []]. Qed.

Lemma to_lower_is_underscore c :
  Ascii.eqb (PyStr.to_lower c) "_" = Ascii.eqb c "_".
Proof. by destruct c as [[] [] [] [] [] [] [] []]. Qed.

(** [title] only looks at the letters, not at their case. *)
Lemma title_from_lower b s : PyStr.title_from b (PyStr.lower s) = PyStr.title_from b s.
Proof.
  revert b; induction s as [|c s IH]; intros b; [done|].
  simpl. rw IH is_cased_to_lower to_lower_idemp to_upper_to_lower. done.
Qed.

Lemma lower_title_from b s : PyStr.lower (PyStr.title_from b s) = PyStr.lower s.
Proof.
  revert b; induction s as [|c s IH]; intros b; [done|].
  simpl. rw IH. by destruct b; rw ?to_lower_idemp ?to_lower_to_upper.
Qed.

Lemma title_from_same_letters b s t :
  PyStr.lower s = PyStr.lower t -> PyStr.title_from b s = PyStr.title_from b t.
Proof. intros H. by rw -(title_from_lower b s) H title_from_lower. Qed.

Lemma lower_drop_underscores s :
  PyStr.lower (drop_underscores s) = drop_underscores (PyStr.lower s).
Proof.
  induction s as [|c s IH]; [done|]. simpl.
  rw to_lower_is_underscore. destruct (Ascii.eqb c "_"); [done|]. by rw /= IH.
Qed.

Lemma has_char_drop_underscores s : has_char "_" (drop_underscores s) = false.
Proof.
  induction s as [|c s IH]; [done|]. simpl.
  destruct (Ascii.eqb c "_") eqn:Hc; [done|]. by rw /= Hc.
Qed.

Lemma drop_underscores_none s : has_char "_" s = false -> drop_underscores s = s.
Proof.
  induction s as [|c s IH]; [done|]. simpl.
  destruct (Ascii.eqb c "_"); [done|]. intros H. by rw IH.
Qed.

Lemma has_char_title_from b s :
  has_char "_" (PyStr.title_from b s) = has_char "_" s.
Proof.
  revert b; induction s as [|c s IH]; intros b; [done|].
  simpl. rw IH. f_equal. by destruct b, c as [[] [] [] [] [] [] [] []].
Qed.

Lemma to_camel_case_drop s :
  to_camel_case s = Ok (drop_underscores (PyStr.title s)).
Proof.
  rw /PyStr.title title_segments /to_camel_case.
  pose proof (split_not_nil "_" s). by destruct (PyStr.split "_" s).
Qed.

(** *** The spec of title case *)

Lemma is_letter_cased c : PyStr.is_letter c = PyStr.is_cased c.
Proof. by destruct c as [[] [] [] [] [] [] [] []]. Qed.

Lemma capital_to_upper c : PyStr.capital c = PyStr.to_upper c.
Proof. by destruct c as [[] [] [] [] [] [] [] []]. Qed.

Lemma small_to_lower c : PyStr.small c = PyStr.to_lower c.
Proof. by destruct c as [[] [] [] [] [] [] [] []]. Qed.

Lemma to_upper_uncased c : PyStr.is_cased c = false -> PyStr.to_upper c = c.
Proof. by destruct c as [[] [] [] [] [] [] [] []]. Qed.

Lemma to_lower_uncased c : PyStr.is_cased c = false -> PyStr.to_lower c = c.
Proof. by destruct c as [[] [] [] [] [] [] [] []]. Qed.

(** [title] is the capitalization of the words. *)
Lemma title_from_words b s : PyStr.title_from b s = PyStr.words_capitalized b s.
Proof.
  revert b; induction s as [|c s IH]; intros b; [done|].
  simpl. rw IH is_letter_cased capital_to_upper small_to_lower. f_equal.
  destruct (PyStr.is_cased c) eqn:Hc; [done|].
  by destruct b; rw ?to_lower_uncased ?to_upper_uncased.
Qed.

(** *** Line endings *)

Lemma universal_newlines_no_cr s :
  has_char "013" s = false -> PyStr.universal_newlines s = s.
Proof.
  induction s as [|c s IH]; [done|]. simpl.
  destruct (Ascii.eqb c "013"); [done|]. intros H. by rw IH.
Qed.

Lemma universal_newlines_cr s :
  has_char "013" (PyStr.universal_newlines s) = false
  ∧ forall c, has_char "013" (PyStr.universal_newlines (String c s)) = false.
Proof.
  induction s as [|a s [IH1 IH2]].
  - split; [done|]. intros c. simpl.
    destruct (Ascii.eqb c "013") eqn:Hc; [done|]. by rw /= Hc.
  - split; [apply IH2|]. intros c.
    change (PyStr.universal_newlines (String c (String a s))) with
      (if Ascii.eqb c "013" then
         if Ascii.eqb a "010" then String "010" (PyStr.universal_newlines s)
         else String "010" (PyStr.universal_newlines (String a s))
       else String c (PyStr.universal_newlines (String a s))).
    destruct (Ascii.eqb c "013") eqn:Hc.
    + destruct (Ascii.eqb a "010"); cbn [has_char]; by rw ?IH1 ?IH2.
    + cbn [has_char]. by rw Hc IH2.
Qed.

Lemma universal_newlines_idemp s :
  PyStr.universal_newlines (PyStr.universal_newlines s) = PyStr.universal_newlines s.
Proof. apply universal_newlines_no_cr, universal_newlines_cr. Qed.

Lemma app_inv_head_str s t u : s +:+ t = s +:+ u -> t = u.
Proof. induction s as [|c s IH]; [done|]. rw !app_cons. by intros [= ?%IH]. Qed.

(** *** [replace] *)

Lemma prefix_inv p s : String.prefix p s = true -> exists t, s = p +:+ t.
Proof.
  revert s; induction p as [|a p IH]; intros s.
  - intros _. by exists s.
  - destruct s as [|c s]; [done|]. simpl.
    destruct (ascii_dec a c) as [->|]; [|done].
    intros [t ->]%IH. by exists t.
Qed.

Lemma prefix_empty s : String.prefix "" s = true.
Proof. by destruct s. Qed.

Lemma replace_empty_empty s : PyStr.replace_empty "" s = s.
Proof. induction s as [|c s IH]; [done|]. by rw /= IH. Qed.

(** A text without the marker is left as it is. *)
Lemma replace_absent old new s :
  PyStr.contains old s = false -> PyStr.replace old new s = s.
Proof.
  induction s as [|c s IH].
  - destruct old; [done|by intros _].
  - cbn [PyStr.contains]. intros [Hp Hs]%orb_false_elim.
    by rw replace_elsewhere // IH.
Qed.

(** A marker replaced by itself leaves every text as it is. *)
Lemma replace_same old s : PyStr.replace old old s = s.
Proof.
  destruct (String.eqb_spec old "") as [->|Hold].
  { apply replace_empty_empty. }
  remember (String.length s) as n eqn:Hn.
  revert s Hn; induction (lt_wf n) as [n _ IH]; intros s ->.
  destruct (String.prefix old s) eqn:Hp.
  - apply prefix_inv in Hp as [t ->].
    rw replace_at_occurrence //. f_equal.
    apply (IH (String.length t)); [|done].
    rw length_app_str. destruct old; [done|simpl; lia].
  - destruct s as [|c s]; [by rw replace_in_empty|].
    rw replace_elsewhere //. f_equal. apply (IH (String.length s)); [simpl; lia|done].
Qed.

End more_strings.

(** ** More on placeholders *)

Section more_placeholders.
Implicit Types (st : state) (P Q : list string) (d : dict) (text : string).

Lemma passes_app text d1 d2 :
  passes text (d1 ++ d2) = passes text d1 ++ passes (substituted text d1) d2.
Proof.
  revert text; induction d1 as [|[k v] d1 IH]; intros text; [done|].
  by rw /= IH.
Qed.

Lemma run_passes_app P texts1 texts2 st :
  run_passes P (texts1 ++ texts2) st = run_passes P texts2 (run_passes P texts1 st).
Proof.
  revert st; induction texts1 as [|t texts1 IH]; intros st; [done|].
  by rw /= IH.
Qed.

Lemma resolve_run_passes P texts st text p :
  node_at st P = Some (File text) ->
  resolve (run_passes P texts st) p = resolve st p.
Proof.
  revert st text; induction texts as [|t texts IH]; intros st text Hn; [done|].
  pose proof (node_at_file_not_root _ _ _ Hn) as HP.
  simpl. rw (IH _ t).
  - by rw node_at_set_node_here.
  - by rw (resolve_set_node_file P text) // resolve_log.
Qed.

Lemma distinct_app l1 l2 :
  distinct (l1 ++ l2) = true -> distinct l1 = true ∧ distinct l2 = true.
Proof.
  induction l1 as [|x l1 IH]; [done|]. simpl.
  intros [Hx [H1 H2]%IH]%andb_prop. split; [|done].
  apply andb_true_intro. split; [|done].
  apply negb_true_iff. apply negb_true_iff in Hx.
  apply not_true_iff_false. intros (y & Hy & Hxy)%existsb_exists.
  apply not_true_iff_false in Hx. apply Hx, existsb_exists.
  exists y. split; [|done]. apply in_or_app. by left.
Qed.

Lemma dict_wf_app d1 d2 :
  dict_wf (d1 ++ d2) = true -> dict_wf d1 = true ∧ dict_wf d2 = true.
Proof. rw /dict_wf /dict_keys map_app. apply distinct_app. Qed.

(** The texts of the passes when no marker occurs, and when every
    marker is replaced by itself: the text read, every time. *)
Lemma passes_absent text d :
  forallb (fun k => negb (PyStr.contains k (PyStr.universal_newlines text)))
    (dict_keys d) = true ->
  passes text d = map (fun _ => PyStr.universal_newlines text) d.
Proof.
  revert text; induction d as [|[k v] d IH]; intros text; [done|].
  cbn [dict_keys map fst forallb passes].
  intros [Hk%negb_true_iff Hd]%andb_prop.
  rw /pass replace_absent // IH universal_newlines_idemp //.
Qed.

Lemma passes_same text d :
  forallb (fun kv => String.eqb kv.1 kv.2) d = true ->
  passes text d = map (fun _ => PyStr.universal_newlines text) d.
Proof.
  revert text; induction d as [|[k v] d IH]; intros text; [done|].
  cbn [forallb passes map].
  intros [Hk%String.eqb_eq Hd]%andb_prop. simpl in Hk. subst v.
  rw /pass replace_same IH // universal_newlines_idemp //.
Qed.

Lemma last_const {A} (l : list A) text :
  default text (last (map (fun _ => text) l)) = text.
Proof.
  induction l as [|x l IH]; [done|].
  change (map (fun _ => text) (x :: l)) with (text :: map (fun _ => text) l).
  by rw default_last_cons.
Qed.

Lemma last_const_cons {A} (x : A) (l : list A) (a b : string) :
  default a (last (map (fun _ => b) (x :: l))) = b.
Proof.
  change (map (fun _ => b) (x :: l)) with (b :: map (fun _ => b) l).
  rw default_last_cons. apply last_const.
Qed.

Lemma flat_map_const {A} (f : string -> list event) (l : list A) text :
  flat_map f (map (fun _ => text) l) = flat_map (fun _ => f text) l.
Proof. induction l as [|x l IH]; [done|]. by rw /= IH. Qed.

End more_placeholders.

(** ** More on the checks and on [operation_create] *)

Section more_checks.
Implicit Types (st : state).


Lemma library_create_exists_raises st library_name out_dir :
  library_exists library_name out_dir st = (Ok true, st) ->
  library_create library_name out_dir st =
  (Raise (LibraryException
     ("The library " +:+ library_name +:+ " already exists under " +:+ out_dir)), st).
Proof. intros H. by rw /library_create (bind_ok _ _ _ _ _ H). Qed.

Lemma library_create_missing_dir st library_name out_dir :
  isdir st out_dir = false ->
  library_create library_name out_dir st =
  (Raise (FileNotFoundError (out_dir +:+ " does not exist.")), st).
Proof.
  intros H. rw /library_create.
  apply bind_raise. by rw library_exists_eq H.
Qed.

Lemma operation_create_missing_dir st operations_dir library_name operation_name :
  isdir st operations_dir = false ->
  operation_create operations_dir library_name operation_name st =
  (Raise (FileNotFoundError (operations_dir +:+ " does not exist.")), st).
Proof.
  intros H. rw /operation_create.
  apply bind_raise. by rw library_exists_eq H.
Qed.

Lemma operation_create_exists_raises st operations_dir library_name operation_name :
  library_exists library_name operations_dir st = (Ok true, st) ->
  operation_exists operations_dir library_name operation_name st = (Ok true, st) ->
  operation_create operations_dir library_name operation_name st =
  (Raise (OperationException
     (os_path_join (os_path_join operations_dir library_name) operation_name
      +:+ " already exists.")), st).
Proof.
  intros Hl Ho. rw /operation_create (bind_ok _ _ _ _ _ Hl).
  rw bind_eq /when_. cbn [negb mret M_ret]. by rw (bind_ok _ _ _ _ _ Ho).
Qed.

Lemma operation_exists_state operations_dir library_name operation_name st :
  (operation_exists operations_dir library_name operation_name st).2 = st.
Proof.
  rw operation_exists_eq. destruct (isdir st operations_dir); [|done].
  by destruct (isdir st _).
Qed.

End more_checks.

(** ** [operation_create] in a library that exists *)

Section operation_in_library.
Context (st : state) (operations_dir library_name operation_name : string)
  (L : list string) (es : gmap string node) (text : string) (M rest : list string).
Hypothesis Hcwd : cwd_ok st = true.
Hypothesis Htmp : temp_ok st = true.
Hypothesis Hop : name_ok operation_name = true.
Hypothesis Hlib : library_exists library_name operations_dir st = (Ok true, st).
Hypothesis HL : resolve st (os_path_join operations_dir library_name) = Some L.
Hypothesis Hfree : node_at st (L ++ [operation_name]) = None.
Hypothesis Htpl : template_at st "make_operation" = Some (es, text).
Hypothesis Hst : staging st = Some (M, rest).
Hypothesis Hsrc : ¬ template_place st "make_operation" `prefix_of` M.
Hypothesis HM : M ≠ L ++ [operation_name].

#[local] Abbreviation st' :=
  (operation_created st operations_dir library_name operation_name L es text M rest).
#[local] Abbreviation library_path := (os_path_join operations_dir library_name).
#[local] Abbreviation operation_path := (os_path_join library_path operation_name).

Lemma in_library_isdir : isdir st operations_dir = true.
Proof.
  pose proof Hlib as H. rw library_exists_eq in H.
  by destruct (isdir st operations_dir).
Qed.

Lemma in_library_dir : is_dir (node_at st L) = true.
Proof.
  pose proof Hlib as H. rw library_exists_eq in_library_isdir in H.
  rw isdir_library_path // in H; [apply in_library_isdir|].
  revert H. rw /isdir HL. by intros [= ->].
Qed.

Lemma in_library_missing :
  operation_exists operations_dir library_name operation_name st = (Ok false, st).
Proof.
  rw (operation_exists_of_library _ _ _ _ Hlib). do 2 f_equal.
  rw /isfile (resolve_join st operation_path "__init__.py" (L ++ [operation_name])) //.
  { apply resolve_join_name; [done|apply in_library_dir|done]. }
  change (PyStr.split "/" "__init__.py") with ["__init__.py"]. simpl.
  by rw -/(node_at st (L ++ [operation_name])) Hfree.
Qed.

(** The run: no library is made, the operation is. *)
Lemma in_library_create_ok :
  operation_create operations_dir library_name operation_name st =
  (Ok operation_path, st').
Proof.
  rw /operation_create (bind_ok _ _ _ _ _ Hlib).
  rw bind_eq /when_. cbn [negb mret M_ret].
  rw (bind_ok _ _ _ _ _ in_library_missing). cbn match.
  rw to_camel_case_ok.
  transitivity (scaffold "make_operation" "NEWOPERATION" (camel_case operation_name)
                  operation_path
                  ("Operation successfully created under: " +:+
                   os_path_join operation_path "__init__.py") st);
    [reflexivity|].
  apply (scaffold_ok st "make_operation"); try done. apply in_library_dir.
Qed.

Lemma in_library_extends : extends st st'.
Proof. apply scaffolded_extends; try done. apply in_library_dir. Qed.

Lemma in_library_node :
  node_at st' (L ++ [operation_name])
  = Some (Dir (operation_tree operation_name es text)).
Proof. apply scaffolded_target; try done. apply in_library_dir. Qed.

Lemma in_library_initializer :
  node_at st' (L ++ [operation_name] ++ ["__init__.py"])
  = Some (File (pass "NEWOPERATION" (camel_case operation_name) text)).
Proof.
  rw app_assoc node_at_below in_library_node /= /operation_tree /substitute_tree.
  by rw lookup_insert_eq.
Qed.

Lemma in_library_library_exists :
  library_exists library_name operations_dir st' = (Ok true, st').
Proof. apply (library_exists_extends st); [apply in_library_extends|done]. Qed.

Lemma in_library_exists :
  operation_exists operations_dir library_name operation_name st' = (Ok true, st').
Proof.
  rw (operation_exists_of_library _ _ _ _ in_library_library_exists).
  do 2 f_equal.
  rw /isfile (resolve_join_name st' operation_path "__init__.py"
                (L ++ [operation_name])) //.
  - apply scaffolded_resolve_entry; try done. apply in_library_dir.
  - by rw in_library_node.
  - pose proof in_library_initializer as H. rw app_assoc in H. by rw H.
Qed.

(** A second call finds the operation and changes nothing. *)
Lemma in_library_again :
  operation_create operations_dir library_name operation_name st' =
  (Raise (OperationException (operation_path +:+ " already exists.")), st').
Proof.
  apply operation_create_exists_raises;
    [apply in_library_library_exists|apply in_library_exists].
Qed.

End operation_in_library.

(** ** What the common steps leave behind *)

Section frame.
Context (st : state) (template placeholder value : string)
  (A : list string) (n : string) (es : gmap string node) (text : string)
  (M rest : list string) (message : string).
Hypothesis Htmp : temp_ok st = true.
Hypothesis HAd : is_dir (node_at st A) = true.
Hypothesis Hfree : node_at st (A ++ [n]) = None.
Hypothesis Hst : staging st = Some (M, rest).
Hypothesis HM : M ≠ A ++ [n].

#[local] Abbreviation st' :=
  (scaffolded st template placeholder value A n es text M rest message).

(** Nothing changes away from the new tree and the staging directory. *)
Lemma scaffolded_apart Q :
  apart (A ++ [n]) Q -> apart M Q -> node_at st' Q = node_at st Q.
Proof.
  intros H1 H2. by rw scaffolded_node_at !node_at_set_node_apart.
Qed.

Lemma scaffolded_target_apart_staging : apart (A ++ [n]) M.
Proof.
  destruct (staging_spec st M rest Hst) as (HMnone & x & HMeq).
  split; [|by apply (scaffolded_staging_apart st A n M rest)].
  rw HMeq. intros [H|H]%prefix_snoc_inv; [|by apply HM; rw HMeq].
  assert (is_dir (node_at st (tempdir st)) = true) as HTd.
  { pose proof Htmp as Ht. revert Ht. rw /temp_ok.
    by intros [[_ ?]%andb_prop _]%andb_prop. }
  by rw /node_at (lkp_prefix_none (A ++ [n]) (tempdir st)) in HTd.
Qed.

(** The directory made by [tempfile.mkdtemp] stays, empty. *)
Lemma scaffolded_staging_left :
  node_at st' M = Some (Dir ∅) ∧ node_at st' (M ++ ["tmp"]) = None.
Proof.
  destruct (staging_spec st M rest Hst) as (HMnone & x & HMeq).
  assert (node_at st' M = Some (Dir ∅)) as H.
  { rw scaffolded_node_at node_at_set_node_apart;
      [apply scaffolded_target_apart_staging|].
    rw HMeq node_at_set_node_new //.
    pose proof Htmp as Ht. revert Ht. rw /temp_ok.
    by intros [[_ ?]%andb_prop _]%andb_prop. }
  split; [done|]. by rw node_at_below H.
Qed.

End frame.

(** ** The destination is taken *)

Section taken.
Implicit Types (st : state) (P Q A : list string) (a n : string).

Lemma lkp_upd_is_Some p q f o :
  ¬ p `prefix_of` q -> is_Some (lkp q o) -> is_Some (lkp q (upd p f o)).
Proof.
  revert p o; induction q as [|c q IH]; intros p o Hp.
  - destruct p as [|c' p']; [by destruct Hp|]. simpl.
    intros [x ->]. by destruct x.
  - destruct p as [|c' p']; [destruct Hp; apply prefix_nil|].
    destruct o as [[?|es0]|]; simpl; [by intros [? ?]| |by intros [? ?]].
    destruct (decide (c' = c)) as [->|Hc].
    + rw lookup_partial_alter_eq. apply IH. intros H. apply Hp. by apply prefix_cons.
    + by rw lookup_partial_alter_ne.
Qed.

Lemma node_at_set_node_is_Some P Q f ev st :
  P ≠ [] -> ¬ P `prefix_of` Q -> is_Some (node_at st Q) ->
  is_Some (node_at (set_node P f ev st) Q).
Proof. intros HP Hp H. rw node_at_set_node //. by apply lkp_upd_is_Some. Qed.

(** [os.makedirs] of an entry that is there. *)
Lemma os_makedirs_exists st a n A :
  resolve st a = Some A -> is_dir (node_at st A) = true -> name_ok n = true ->
  is_Some (node_at st (A ++ [n])) ->
  os_makedirs (os_path_join a n) st = (Raise (FileExistsError (os_path_join a n)), st).
Proof.
  intros Hr Hd Hn [x Hx].
  destruct (os_path_join_split st a n A Hr Hd (name_ok_relative _ Hn))
    as (cs & Hsplit & Hwalk & Hne).
  rw /os_makedirs. destruct (String.eqb_spec (os_path_join a n) "") as [|_]; [done|].
  rw Hsplit name_ok_split // -/(start_dir st (os_path_join a n)).
  rw (makedirs_walk_existing st _ cs [n] _ A) //.
  cbn [makedirs_walk].
  destruct (node_at st A) as [[?|es]|]; [done| |done].
  revert Hn. rw /name_ok.
  destruct (String.eqb n ""); [done|]. destruct (String.eqb n "."); [done|].
  destruct (String.eqb n ".."); [done|]. intros _. rw /= Hx. by destruct x.
Qed.

Lemma shutil_copytree_exists st src Src es a n A :
  resolve st src = Some Src -> node_at st Src = Some (Dir es) ->
  resolve st a = Some A -> is_dir (node_at st A) = true -> name_ok n = true ->
  is_Some (node_at st (A ++ [n])) ->
  shutil_copytree src (os_path_join a n) st =
  (Raise (FileExistsError (os_path_join a n)), st).
Proof.
  intros Hsrc Hes Hr Hd Hn Hx.
  by rw /shutil_copytree Hsrc Hes (os_makedirs_exists st a n A).
Qed.

(** The run of the common steps up to the copy that fails. *)
Lemma scaffold_taken st template placeholder value a n A es text M rest message :
  temp_ok st = true -> name_ok template = true -> name_ok n = true ->
  resolve st a = Some A -> is_dir (node_at st A) = true ->
  is_Some (node_at st (A ++ [n])) ->
  template_at st template = Some (es, text) ->
  staging st = Some (M, rest) ->
  ¬ template_place st template `prefix_of` M ->
  scaffold template placeholder value (os_path_join a n) message st =
  (Raise (FileExistsError (os_path_join a n)),
   staged st template placeholder value es text M rest).
Proof.
  intros Htmp Htemplate Hn HO HOd Htaken Htpl Hst Hsrc.
  rw /staged.
  set (text' := pass placeholder value text).
  set (Src := template_place st template) in *.
  set (D := M ++ ["tmp"]). set (I := D ++ ["__init__.py"]). set (Tgt := A ++ [n]) in *.
  destruct (resolve_template st template es text) as (Hrt & Hnt & Hinit); [done..|].
  fold Src in Hrt, Hnt.
  destruct (staging_spec st M rest Hst) as (HMnone & nm & HMeq).
  destruct (tempfile_mkdtemp_staging st M rest Htmp Hst) as (tmp & Hmk & Htmpres).
  assert (HTd : is_dir (node_at st (tempdir st)) = true).
  { revert Htmp. rw /temp_ok. by intros [[_ ?]%andb_prop _]%andb_prop. }
  assert (HMne : M ≠ []) by (rw HMeq; by destruct (tempdir st)).
  assert (HDne : D ≠ []) by (rw /D; by destruct M).
  assert (HIne : I ≠ []) by (rw /I; by destruct D).
  assert (HMT : ¬ M `prefix_of` Tgt).
  { intros H. destruct Htaken as [x Hx].
    by rw /node_at (lkp_prefix_none M Tgt) in Hx. }
  assert (HDT : ¬ D `prefix_of` Tgt).
  { intros H. apply HMT. by apply prefix_app_l in H. }
  assert (HIT : ¬ I `prefix_of` Tgt).
  { intros H. apply HDT. by apply prefix_app_l in H. }
  assert (HMS : ¬ M `prefix_of` Src).
  { intros H. by rw /node_at (lkp_prefix_none M Src) in Hnt. }
  assert (HSD : ¬ Src `prefix_of` D).
  { intros [H|H]%prefix_snoc_inv; [done|].
    rw /node_at (lkp_prefix_none M Src) // in Hnt. rw H. by apply prefix_app_r. }
  (* tempfile.mkdtemp() *)
  set (st1 := set_node M (fun _ => Some (Dir ∅)) (EvMkdir M) (set_temp_names rest st)) in *.
  assert (E1 : extends st st1).
  { eapply extends_trans; [apply (extends_set_temp_names rest)|].
    by apply extends_set_node_fresh. }
  assert (HM1 : node_at st1 M = Some (Dir ∅)).
  { rw /st1 HMeq. by rw (node_at_set_node_new (tempdir st)). }
  assert (HD1 : node_at st1 D = None).
  { by rw /D node_at_below HM1. }
  (* shutil.copytree(template, tmp_dir) *)
  set (st1' := set_node D (fun _ => Some (Dir ∅)) (EvMkdir D) st1).
  set (st2 := set_node D (fun _ => Some (Dir es)) (EvCopytree Src D) st1').
  assert (Hcp1 : shutil_copytree (template_path template)
                   (os_path_join tmp "tmp") st1 = (Ok tt, st2)).
  { apply shutil_copytree_new; try done.
    - by apply (extends_resolve st).
    - by rw node_at_set_node_apart.
    - by apply Htmpres.
    - by rw HM1. }
  assert (HD1' : node_at st1' D = Some (Dir ∅)).
  { by rw /st1' /D node_at_set_node_new // HM1. }
  assert (E12 : extends st1 st2).
  { eapply extends_trans; [by apply (extends_set_node_fresh D ∅)|].
    apply extends_set_node_dir; [done|]. intros c.
    by rw node_at_below -/st1' HD1'. }
  assert (HD2 : node_at st2 D = Some (Dir es)).
  { by rw /st2 node_at_set_node_here // HD1'. }
  assert (HI2 : node_at st2 I = Some (File text)).
  { by rw /I node_at_below HD2. }
  assert (Hres_tmp : forall st', extends st2 st' ->
            resolve st' (os_path_join tmp "tmp") = Some D).
  { intros st' E. apply resolve_join_name; [| |done].
    - apply Htmpres. exact (extends_trans _ _ _ E1 (extends_trans _ _ _ E12 E)).
    - apply (extends_is_dir st1); [exact (extends_trans _ _ _ E12 E)|by rw HM1]. }
  (* replace_placeholders_in_file(tmp_init, ...) *)
  set (st3 := set_node I (fun _ => Some (File text')) (EvWrite I text')
                (log (EvRead I) st2)).
  assert (Hrp : replace_placeholders_in_file
                  (os_path_join (os_path_join tmp "tmp") "__init__.py")
                  [(placeholder, value)] st2 = (Ok tt, st3)).
  { rw (replace_placeholders_run st2 _ _ I text) //.
    apply resolve_join_name; [|by rw HD2|done].
    apply Hres_tmp, extends_refl. }
  assert (E23 : extends st2 st3).
  { eapply extends_trans; [apply (extends_log (EvRead I))|].
    by apply (extends_set_node_file I text). }
  assert (HD3 : node_at st3 D = Some (Dir (substitute_tree placeholder value es text))).
  { by rw /st3 /I (node_at_set_node_above D _ _ _ _ es). }
  assert (E03 : extends st st3).
  { exact (extends_trans _ _ _ E1 (extends_trans _ _ _ E12 E23)). }
  assert (HT3 : is_Some (node_at st3 Tgt)).
  { apply node_at_set_node_is_Some; [done..|]. change (is_Some (node_at st2 Tgt)).
    do 3 (apply node_at_set_node_is_Some; [done..|]). exact Htaken. }
  (* shutil.copytree(tmp_dir, dest) fails *)
  assert (Hcp2 : shutil_copytree (os_path_join tmp "tmp")
                   (os_path_join a n) st3 =
                 (Raise (FileExistsError (os_path_join a n)), st3)).
  { apply (shutil_copytree_exists st3 _ D (substitute_tree placeholder value es text)
             a n A); try done.
    - by apply Hres_tmp.
    - by apply (extends_resolve st).
    - by apply (extends_is_dir st). }
  (* the run *)
  rw /scaffold.
  rw (bind_ok _ _ _ _ _ Hmk) (bind_ok _ _ _ _ _ Hcp1) (bind_ok _ _ _ _ _ Hrp).
  rw (bind_raise _ _ _ _ _ Hcp2). f_equal.
  apply state_eq; [|reflexivity..|].
  2: { match goal with |- _ = ?t => change (((((trace st ++ [EvMkdir M]) ++ [EvMkdir D]) ++
         [EvCopytree Src D]) ++ [EvRead I]) ++ [EvWrite I text'] = t)
       end. by rw -!app_assoc. }
  change (fs_upd I (fun _ => Some (File text'))
           (fs_upd D (fun _ => Some (Dir es))
             (fs_upd D (fun _ => Some (Dir ∅))
               (fs_upd M (fun _ => Some (Dir ∅)) (root st))))
          = fs_upd D (fun _ => Some (Dir (substitute_tree placeholder value es text)))
              (fs_upd M (fun _ => Some (Dir ∅)) (root st))).
  match goal with
  | |- ?a = ?b => enough (Some (Dir a) = Some (Dir b)) as Heq by (by injection Heq)
  end.
  rw -!fs_upd_spec //.
  rw (upd_upd D) /I (upd_below_upd D).
  by apply upd_ext.
Qed.

End taken.

(** ** The world when the copy to the destination has failed *)

Section staged.
Context (st : state) (template placeholder value : string)
  (es : gmap string node) (text : string) (M rest : list string).
Hypothesis Htmp : temp_ok st = true.
Hypothesis Hst : staging st = Some (M, rest).

#[local] Abbreviation st' := (staged st template placeholder value es text M rest).

(** The file system of [st'], as two updates of [st]. *)
#[local] Abbreviation view :=
  (set_node (M ++ ["tmp"])
     (fun _ => Some (Dir (substitute_tree placeholder value es text))) (EvMkdir [])
     (set_node M (fun _ => Some (Dir ∅)) (EvMkdir M) st)).

Lemma staged_node_at Q : node_at st' Q = node_at view Q.
Proof. reflexivity. Qed.

(** The staged copy is left in the temporary directory. *)
Lemma staged_copy_left :
  node_at st' (M ++ ["tmp"])
  = Some (Dir (substitute_tree placeholder value es text)).
Proof.
  destruct (staging_spec st M rest Hst) as (HMnone & x & HMeq).
  rw staged_node_at node_at_set_node_new //.
  rw HMeq node_at_set_node_new //.
  pose proof Htmp as Ht. revert Ht. rw /temp_ok.
  by intros [[_ ?]%andb_prop _]%andb_prop.
Qed.

Lemma staged_apart Q : apart M Q -> node_at st' Q = node_at st Q.
Proof.
  intros [H1 H2]. rw staged_node_at !node_at_set_node_apart //.
  split.
  - intros H. apply H1. by apply prefix_app_l in H.
  - intros [H|H]%prefix_snoc_inv; [done|]. apply H1. rw H. by apply prefix_app_r.
Qed.

End staged.

(** ** [library_create] when the lowercased name is taken *)

Section library_taken.
Context (st : state) (library_name out_dir : string) (O : list string)
  (es : gmap string node) (text : string) (M rest : list string).
Hypothesis Htmp : temp_ok st = true.
Hypothesis Hname : name_ok library_name = true.
Hypothesis HO : resolve st out_dir = Some O.
Hypothesis Hnolib : library_exists library_name out_dir st = (Ok false, st).
Hypothesis Htaken : is_Some (node_at st (O ++ [PyStr.lower library_name])).
Hypothesis Htpl : template_at st "make_library" = Some (es, text).
Hypothesis Hst : staging st = Some (M, rest).
Hypothesis Hsrc : ¬ template_place st "make_library" `prefix_of` M.

Lemma library_create_taken :
  library_create library_name out_dir st =
  (Raise (FileExistsError (os_path_join out_dir (PyStr.lower library_name))),
   staged st "make_library" "LIBRARYNAME" (PyStr.lower library_name) es text M rest).
Proof.
  assert (Hisdir : isdir st out_dir = true).
  { pose proof Hnolib as H. rw library_exists_eq in H. by destruct (isdir st out_dir). }
  assert (HOd : is_dir (node_at st O) = true).
  { revert Hisdir. by rw /isdir HO. }
  rw /library_create (bind_ok _ _ _ _ _ Hnolib). cbn match.
  rw bind_eq /os_path_isdir Hisdir. cbn [negb]. cbn match.
  apply (scaffold_taken st "make_library" _ _ _ _ O); try done.
  by apply name_ok_lower.
Qed.

End library_taken.

(** ** [operation_create] when the directory of the operation is taken *)

Section operation_taken.
Context (st : state) (operations_dir library_name operation_name : string)
  (L : list string) (es : gmap string node) (text : string) (M rest : list string).
Hypothesis Hcwd : cwd_ok st = true.
Hypothesis Htmp : temp_ok st = true.
Hypothesis Hop : name_ok operation_name = true.
Hypothesis Hlib : library_exists library_name operations_dir st = (Ok true, st).
Hypothesis Hnoop :
  operation_exists operations_dir library_name operation_name st = (Ok false, st).
Hypothesis HL : resolve st (os_path_join operations_dir library_name) = Some L.
Hypothesis Htaken : is_Some (node_at st (L ++ [operation_name])).
Hypothesis Htpl : template_at st "make_operation" = Some (es, text).
Hypothesis Hst : staging st = Some (M, rest).
Hypothesis Hsrc : ¬ template_place st "make_operation" `prefix_of` M.

Lemma operation_create_taken :
  operation_create operations_dir library_name operation_name st =
  (Raise (FileExistsError
     (os_path_join (os_path_join operations_dir library_name) operation_name)),
   staged st "make_operation" "NEWOPERATION" (camel_case operation_name)
     es text M rest).
Proof.
  rw /operation_create (bind_ok _ _ _ _ _ Hlib).
  rw bind_eq /when_. cbn [negb mret M_ret].
  rw (bind_ok _ _ _ _ _ Hnoop). cbn match.
  rw to_camel_case_ok.
  transitivity (scaffold "make_operation" "NEWOPERATION" (camel_case operation_name)
                  (os_path_join (os_path_join operations_dir library_name)
                     operation_name)
                  ("Operation successfully created under: " +:+
                   os_path_join (os_path_join (os_path_join operations_dir
                     library_name) operation_name) "__init__.py") st);
    [reflexivity|].
  apply (scaffold_taken st "make_operation" _ _ _ _ L); try done.
  by apply (in_library_dir st operations_dir library_name).
Qed.

End operation_taken.

(** ** The template is not found *)

Section no_template.
Context (st : state) (M rest : list string).
Hypothesis Hcwd : cwd_ok st = true.
Hypothesis Htmp : temp_ok st = true.
Hypothesis Hst : staging st = Some (M, rest).
Hypothesis Hnone : node_at st (cwd st ++ ["operations"]) = None.

#[local] Abbreviation st' :=
  (set_node M (fun _ => Some (Dir ∅)) (EvMkdir M) (set_temp_names rest st)).

Lemma no_template_staging : exists x, M = tempdir st ++ ["tmp" +:+ x] ∧ node_at st M = None.
Proof.
  pose proof Hst as H. apply staging_from_spec in H as (x & _ & H1 & H2).
  by exists x.
Qed.

Lemma no_template_not_above : ¬ M `prefix_of` cwd st ++ ["operations"].
Proof.
  destruct no_template_staging as (x & HMeq & HMnone).
  intros [H|H]%prefix_snoc_inv.
  - pose proof Hcwd as Hc. revert Hc. rw /cwd_ok. intros [_ Hd]%andb_prop.
    by rw /node_at (lkp_prefix_none M (cwd st)) in Hd.
  - rw HMeq in H. by apply app_inj_tail in H as [_ ?].
Qed.

Lemma template_path_split t :
  name_ok t = true ->
  String.eqb (template_path t) "" = false
  ∧ PyStr.startswith "/" (template_path t) = false
  ∧ PyStr.split "/" (template_path t)
    = ["operations"; "base"; "utils"; "templates"; t].
Proof.
  intros Ht.
  change (template_path t) with (os_path_join "operations/base/utils/templates" t).
  rw /os_path_join (name_ok_relative t) //.
  change (String.eqb "operations/base/utils/templates" "" ||
          PyStr.endswith_char "/" "operations/base/utils/templates") with false.
  cbn match. split_and!.
  - by destruct (String.eqb_spec ("operations/base/utils/templates" +:+ "/" +:+ t) "").
  - by rw startswith_slash_app.
  - by rw split_app_sep (name_ok_split t).
Qed.

Lemma no_template_operations : node_at st' (cwd st ++ ["operations"]) = None.
Proof. apply node_at_set_node_none; [apply no_template_not_above|done]. Qed.

Lemma no_template_cwd : is_dir (node_at st' (cwd st)) = true.
Proof.
  destruct no_template_staging as (x & HMeq & HMnone).
  apply is_dir_set_node_fresh; [done|].
  pose proof Hcwd as Hc. revert Hc. rw /cwd_ok. by intros [_ Hd]%andb_prop.
Qed.

Lemma no_template_resolve t :
  name_ok t = true -> resolve st' (template_path t) = None.
Proof.
  intros Ht. destruct (template_path_split t Ht) as (He & Hs & Hsplit).
  rw /resolve He Hs Hsplit. cbn match.
  change (cwd st') with (cwd st). cbn [walk].
  rw -/(node_at st' (cwd st)) no_template_cwd.
  change (step (cwd st) "operations") with (cwd st ++ ["operations"]).
  by rw -/(node_at st' (cwd st ++ ["operations"])) no_template_operations.
Qed.

Lemma no_template_error t :
  name_ok t = true ->
  lookup_error st' (template_path t) = FileNotFoundError (template_path t).
Proof.
  intros Ht. destruct (template_path_split t Ht) as (He & Hs & Hsplit).
  rw /lookup_error Hs Hsplit. cbn match.
  change (cwd st') with (cwd st). cbn [through_file].
  pose proof no_template_cwd as Hd. rw /node_at in Hd.
  destruct (lkp (cwd st) (Some (Dir (root st')))) as [[?|?]|]; [done| |done].
  change (step (cwd st) "operations") with (cwd st ++ ["operations"]).
  by rw -/(node_at st' (cwd st ++ ["operations"])) no_template_operations.
Qed.

(** The common steps stop at the first copy; the directory made by
    [tempfile.mkdtemp] is there already. *)
Lemma scaffold_no_template t placeholder value dest message :
  name_ok t = true ->
  scaffold t placeholder value dest message st =
  (Raise (FileNotFoundError (template_path t)), st').
Proof.
  intros Ht.
  destruct (tempfile_mkdtemp_staging st M rest Htmp Hst) as (tmp & Hmk & _).
  rw /scaffold (bind_ok _ _ _ _ _ Hmk).
  apply bind_raise. by rw /shutil_copytree no_template_resolve // no_template_error.
Qed.

Lemma no_template_left : node_at st' M = Some (Dir ∅).
Proof.
  destruct no_template_staging as (x & HMeq & HMnone).
  rw HMeq node_at_set_node_new //.
  pose proof Htmp as Ht. revert Ht. rw /temp_ok.
  by intros [[_ ?]%andb_prop _]%andb_prop.
Qed.

Lemma no_template_apart Q : apart M Q -> node_at st' Q = node_at st Q.
Proof. intros H. by rw node_at_set_node_apart. Qed.

End no_template.

(** ** Two operations in one library *)

Lemma apart_below (p q k : list string) : apart p q -> apart p (q ++ k).
Proof.
  intros [H1 H2]. split.
  - intros H. destruct (prefix_weak_total p q (q ++ k)) as [?|?]; try done.
    by apply prefix_app_r.
  - intros H. apply H2. by apply prefix_app_l in H.
Qed.

Section two_operations.
Context (st : state) (operations_dir library_name first second : string)
  (L : list string) (es : gmap string node) (text : string) (M rest : list string)
  (es2 : gmap string node) (text2 : string) (M2 rest2 : list string).
Hypothesis Hcwd : cwd_ok st = true.
Hypothesis Htmp : temp_ok st = true.
Hypothesis Hfirst : name_ok first = true.
Hypothesis Hsecond : name_ok second = true.
Hypothesis Hne : first ≠ second.
Hypothesis Hlib : library_exists library_name operations_dir st = (Ok true, st).
Hypothesis HL : resolve st (os_path_join operations_dir library_name) = Some L.
Hypothesis Hfree : node_at st (L ++ [first]) = None.
Hypothesis Hfree' : node_at st (L ++ [second]) = None.
Hypothesis Htpl : template_at st "make_operation" = Some (es, text).
Hypothesis Hst : staging st = Some (M, rest).
Hypothesis Hsrc : ¬ template_place st "make_operation" `prefix_of` M.
Hypothesis HM : M ≠ L ++ [first].
Hypothesis HM' : M ≠ L ++ [second].

#[local] Abbreviation st1 :=
  (operation_created st operations_dir library_name first L es text M rest).

Hypothesis Htpl2 : template_at st1 "make_operation" = Some (es2, text2).
Hypothesis Hst2 : staging st1 = Some (M2, rest2).
Hypothesis Hsrc2 : ¬ template_place st1 "make_operation" `prefix_of` M2.
Hypothesis HM2 : M2 ≠ L ++ [second].

#[local] Abbreviation st2 :=
  (operation_created st1 operations_dir library_name second L es2 text2 M2 rest2).
#[local] Abbreviation library_path := (os_path_join operations_dir library_name).

Lemma two_dir : is_dir (node_at st L) = true.
Proof. by apply (in_library_dir st operations_dir library_name). Qed.

Lemma two_cwd_ok : cwd_ok st1 = true.
Proof. apply scaffolded_cwd_ok; try done. apply two_dir. Qed.

Lemma two_temp_ok : temp_ok st1 = true.
Proof. apply scaffolded_temp_ok; try done. apply two_dir. Qed.

Lemma two_extends : extends st st1.
Proof. apply scaffolded_extends; try done. apply two_dir. Qed.

Lemma two_library_exists :
  library_exists library_name operations_dir st1 = (Ok true, st1).
Proof. by apply (library_exists_extends st); [apply two_extends|]. Qed.

Lemma two_library_place : resolve st1 library_path = Some L.
Proof. by apply (extends_resolve st); [apply two_extends|]. Qed.

Lemma two_second_free : node_at st1 (L ++ [second]) = None.
Proof.
  rw scaffolded_node_at. apply node_at_set_node_none.
  { intros H%prefix_app_inv. apply prefix_cons_inv_1 in H. by apply Hne. }
  apply node_at_set_node_none; [|done].
  intros [H|H]%prefix_snoc_inv; [|done].
  by apply (scaffolded_not_below_staging st M rest Hst L two_dir).
Qed.

(** The second operation is made ... *)
Lemma two_second_ok :
  operation_create operations_dir library_name second st1 =
  (Ok (os_path_join library_path second), st2).
Proof.
  apply in_library_create_ok; try done;
    [apply two_cwd_ok|apply two_temp_ok|apply two_library_exists
    |apply two_library_place|apply two_second_free].
Qed.

Lemma two_second_exists :
  operation_exists operations_dir library_name second st2 = (Ok true, st2).
Proof.
  apply in_library_exists; try done;
    [apply two_cwd_ok|apply two_library_exists
    |apply two_library_place|apply two_second_free].
Qed.

Lemma two_extends' : extends st1 st2.
Proof.
  apply scaffolded_extends; try done; [|apply two_second_free].
  by apply (extends_is_dir st); [apply two_extends|apply two_dir].
Qed.

Lemma two_first_node :
  node_at st1 (L ++ [first]) = Some (Dir (operation_tree first es text)).
Proof. apply scaffolded_target; try done. apply two_dir. Qed.

(** ... and the first one is still there, as it was. *)
Lemma two_first_kept Q :
  node_at st2 ((L ++ [first]) ++ Q) = node_at st1 ((L ++ [first]) ++ Q).
Proof.
  destruct (staging_spec st1 M2 rest2 Hst2) as (HM2none & x & HM2eq).
  assert (HTd : is_dir (node_at st (tempdir st)) = true).
  { pose proof Htmp as Ht. revert Ht. rw /temp_ok.
    by intros [[_ ?]%andb_prop _]%andb_prop. }
  apply scaffolded_apart; apply apart_below.
  - split; intros H%prefix_app_inv; apply prefix_cons_inv_1 in H; by apply Hne.
  - split.
    + intros H. pose proof two_first_node as Hn.
      by rw /node_at (lkp_prefix_none M2 (L ++ [first])) in Hn.
    + rw HM2eq. intros [H|H]%prefix_snoc_inv.
      * by rw /node_at (lkp_prefix_none (L ++ [first]) (tempdir st)) in HTd.
      * rw -HM2eq in H. rw -H in HM2none. by rw two_first_node in HM2none.
Qed.

Lemma two_first_exists :
  operation_exists operations_dir library_name first st2 = (Ok true, st2).
Proof.
  assert (library_exists library_name operations_dir st2 = (Ok true, st2)) as Hl.
  { by apply (library_exists_extends st1); [apply two_extends'|apply two_library_exists]. }
  rw (operation_exists_of_library _ _ _ _ Hl). do 2 f_equal.
  assert (node_at st2 (L ++ [first]) = Some (Dir (operation_tree first es text)))
    as Hnode.
  { pose proof (two_first_kept []) as H. rw !app_nil_r in H. by rw H two_first_node. }
  rw /isfile (resolve_join_name st2 (os_path_join library_path first) "__init__.py"
                (L ++ [first])) //.
  - apply resolve_join_name; [|by apply (extends_is_dir st1);
      [apply two_extends'|apply (extends_is_dir st); [apply two_extends|apply two_dir]]
      |done].
    by apply (extends_resolve st1); [apply two_extends'|apply two_library_place].
  - by rw Hnode.
  - rw node_at_below Hnode /= /operation_tree /substitute_tree.
    by rw lookup_insert_eq.
Qed.

End two_operations.

(** ** [os.makedirs] in general *)

Section makedirs.
Implicit Types (st sg : state) (cur P Q A : list string).

Lemma fs_upd_comm P Q f g r :
  P ≠ [] -> Q ≠ [] -> apart P Q ->
  fs_upd P f (fs_upd Q g r) = fs_upd Q g (fs_upd P f r).
Proof.
  intros HP HQ Ha.
  enough (Some (Dir (fs_upd P f (fs_upd Q g r)))
          = Some (Dir (fs_upd Q g (fs_upd P f r)))) as Heq by (by injection Heq).
  by rw -!fs_upd_spec // upd_comm.
Qed.

Lemma snoc_not_nil cur (c : string) : cur ++ [c] ≠ [].
Proof. by destruct cur. Qed.

Lemma removelast_prefix cur : removelast cur `prefix_of` cur.
Proof.
  induction cur as [|a cur IH]; [done|]. simpl.
  destruct cur as [|b cur]; [apply prefix_nil|]. by apply prefix_cons.
Qed.

(** [os.makedirs] only adds directories. *)
Lemma makedirs_walk_keeps p cs cur fresh st r st' Q :
  makedirs_walk p cs cur fresh st = (r, st') ->
  is_Some (node_at st Q) -> is_Some (node_at st' Q).
Proof.
  revert cur fresh st; induction cs as [|c cs IH]; intros cur fresh st.
  { simpl. by destruct fresh; intros [= _ <-]. }
  cbn [makedirs_walk].
  destruct (node_at st cur) as [[?|es]|]; [by intros [= _ <-]| |by intros [= _ <-]].
  destruct (String.eqb c "" || String.eqb c "."); [apply IH|].
  destruct (String.eqb c ".."); [apply IH|].
  destruct (node_at st (cur ++ [c])) as [[?|es']|] eqn:Hn;
    [by intros [= _ <-]|apply IH|].
  intros Hrun HQ. apply (IH _ _ _ Hrun).
  apply node_at_set_node_is_Some; [apply snoc_not_nil| |done].
  intros Hp. destruct HQ as [y Hy].
  by rw /node_at (lkp_prefix_none (cur ++ [c]) Q) in Hy.
Qed.

Lemma makedirs_walk_extends p cs cur fresh st r st' :
  makedirs_walk p cs cur fresh st = (r, st') -> extends st st'.
Proof.
  revert cur fresh st; induction cs as [|c cs IH]; intros cur fresh st.
  { simpl. destruct fresh; intros [= _ <-]; apply extends_refl. }
  cbn [makedirs_walk].
  destruct (node_at st cur) as [[?|es]|];
    [intros [= _ <-]; apply extends_refl| |intros [= _ <-]; apply extends_refl].
  destruct (String.eqb c "" || String.eqb c "."); [apply IH|].
  destruct (String.eqb c ".."); [apply IH|].
  destruct (node_at st (cur ++ [c])) as [[?|es']|] eqn:Hn;
    [intros [= _ <-]; apply extends_refl|apply IH|].
  intros Hrun. eapply extends_trans; [|exact (IH _ _ _ Hrun)].
  by apply extends_set_node_fresh.
Qed.

(** When [os.makedirs] succeeds, the place it reaches is a new and
    empty directory. *)
Lemma makedirs_walk_fresh p cs cur fresh st st' Dst :
  makedirs_walk p cs cur fresh st = (Ok tt, st') ->
  (fresh = true -> node_at st cur = Some (Dir ∅)) ->
  walk (root st') cur cs = Some Dst ->
  node_at st' Dst = Some (Dir ∅).
Proof.
  revert cur fresh st; induction cs as [|c cs IH]; intros cur fresh st.
  { simpl. destruct fresh; [|done]. intros [= <-] H [= <-]. by apply H. }
  cbn [makedirs_walk walk].
  destruct (node_at st cur) as [[?|es]|] eqn:Hcur; [done| |done].
  destruct (is_dir (lkp cur (Some (Dir (root st'))))); [|done].
  rw /step.
  destruct (String.eqb c "" || String.eqb c ".").
  { intros Hrun Hf. apply (IH _ _ _ Hrun). intros Hfr. rw Hcur. by apply Hf. }
  destruct (String.eqb c "..").
  { intros Hrun Hf. by apply (IH _ _ _ Hrun). }
  destruct (node_at st (cur ++ [c])) as [[?|es']|] eqn:Hn; [done| |].
  { intros Hrun Hf. by apply (IH _ _ _ Hrun). }
  intros Hrun Hf. apply (IH _ _ _ Hrun). intros _.
  rw node_at_set_node_new; [by rw Hcur|done].
Qed.

(** A run of [os.makedirs] that leaves the place [A ++ [x]] free
    goes the same way when something is put there beforehand. *)
Lemma makedirs_walk_frame p cs cur fresh st sg st_d A x T :
  makedirs_walk p cs cur fresh st = (Ok tt, st_d) ->
  root sg = fs_upd (A ++ [x]) (fun _ => Some T) (root st) ->
  is_dir (node_at st A) = true ->
  ¬ A ++ [x] `prefix_of` cur ->
  node_at st_d (A ++ [x]) = None ->
  exists sg_d,
    makedirs_walk p cs cur fresh sg = (Ok tt, sg_d)
    ∧ root sg_d = fs_upd (A ++ [x]) (fun _ => Some T) (root st_d).
Proof.
  revert cur fresh st sg; induction cs as [|c cs IH]; intros cur fresh st sg.
  { simpl. destruct fresh; [|done]. intros [= <-] Hroot _ _ _. by exists sg. }
  intros Hrun Hroot HA Hcur Hfree.
  assert (HM : node_at st (A ++ [x]) = None).
  { destruct (node_at st (A ++ [x])) as [y|] eqn:Hy; [|done].
    destruct (makedirs_walk_keeps _ _ _ _ _ _ _ (A ++ [x]) Hrun) as [z Hz];
      [by rw Hy|]. by rw Hz in Hfree. }
  assert (Hsg : forall Q, ¬ A ++ [x] `prefix_of` Q ->
            is_dir (node_at sg Q) = is_dir (node_at st Q)
            ∧ (node_at st Q = None -> node_at sg Q = None)).
  { intros Q HQ. rw /node_at Hroot -fs_upd_spec; [apply snoc_not_nil|].
    split; [by apply is_dir_upd|by apply lkp_upd_none]. }
  revert Hrun. cbn [makedirs_walk].
  destruct (node_at st cur) as [[?|es]|] eqn:Hc0; [done| |done].
  destruct (Hsg cur Hcur) as [Hd _]. rw Hc0 /= in Hd.
  destruct (node_at sg cur) as [[?|es1]|] eqn:Hc1; [done| |done].
  destruct (String.eqb c "" || String.eqb c ".").
  { intros Hrun. by apply (IH _ _ st). }
  destruct (String.eqb c "..").
  { intros Hrun. apply (IH _ _ st); try done.
    intros Hp. apply Hcur. etrans; [exact Hp|apply removelast_prefix]. }
  assert (Hnext : node_at st (cur ++ [c]) ≠ None ->
            ¬ A ++ [x] `prefix_of` cur ++ [c]).
  { intros Hn [H|H]%prefix_snoc_inv; [done|]. by rw -H HM in Hn. }
  destruct (node_at st (cur ++ [c])) as [[?|es']|] eqn:Hn; [done| |].
  - intros Hrun.
    destruct (Hsg (cur ++ [c]) (Hnext ltac:(done))) as [Hd' _]. rw Hn /= in Hd'.
    destruct (node_at sg (cur ++ [c])) as [[?|es2]|]; [done| |done].
    apply (IH _ _ st); try done. by apply Hnext.
  - intros Hrun.
    assert (Hne : A ++ [x] ≠ cur ++ [c]).
    { intros Heq.
      destruct (makedirs_walk_keeps _ _ _ _ _ _ _ (A ++ [x]) Hrun) as [z Hz].
      - rw Heq node_at_set_node_new; [by rw Hc0|done].
      - by rw Hz in Hfree. }
    assert (Hnp : ¬ A ++ [x] `prefix_of` cur ++ [c]).
    { by intros [H|H]%prefix_snoc_inv. }
    destruct (Hsg (cur ++ [c]) Hnp) as [_ Hnone]. rw (Hnone Hn).
    apply (IH _ _ (set_node (cur ++ [c]) (fun _ => Some (Dir ∅))
                     (EvMkdir (cur ++ [c])) st)); try done.
    + change (fs_upd (cur ++ [c]) (fun _ => Some (Dir ∅)) (root sg)
              = fs_upd (A ++ [x]) (fun _ => Some T)
                  (fs_upd (cur ++ [c]) (fun _ => Some (Dir ∅)) (root st))).
      rw Hroot. apply fs_upd_comm; [apply snoc_not_nil..|].
      split; [|done].
      intros [H|H]%prefix_snoc_inv; [|by apply Hne].
      by rw /node_at (lkp_prefix_none (cur ++ [c]) A) in HA.
    + by apply is_dir_set_node_fresh.
Qed.

End makedirs.

(** ** Names and paths the operating system accepts *)

Lemma entry_name_ok n : entry_name n = true -> name_ok n = true.
Proof. rw /entry_name. by intros [[? _]%andb_prop _]%andb_prop. Qed.

(** The paths of a tree that has an initializer file only. *)
Lemma tree_fits_substituted dest placeholder value text0 text :
  os_accepts dest = true ->
  os_accepts (dest +:+ path_str ["__init__.py"]) = true ->
  tree_fits dest
    (substitute_tree placeholder value {[ "__init__.py" := File text0 ]} text).
Proof.
  intros Hdest Hinit [|c Q]; [by rw /= app_empty_r|].
  destruct (decide (c = "__init__.py")) as [->|Hc].
  - destruct Q as [|c' Q]; [done|].
    intros [y Hy]. revert Hy. cbn [lkp]. rw /substitute_tree lookup_insert_eq. done.
  - intros [y Hy]. revert Hy. cbn [lkp].
    rw /substitute_tree lookup_insert_ne; [by intros <-|].
    assert (({[ "__init__.py" := File text0 ]} : gmap string node) !! c = None) as ->.
    { apply lookup_singleton_ne. by intros <-. }
    by rw lkp_none.
Qed.

(** ** The common steps, for any destination that can be made *)

Section general.
Implicit Types (st sg : state) (P Q A : list string).

Lemma extends_root st st' v :
  root st' = root v -> cwd st' = cwd v -> extends st v -> extends st st'.
Proof.
  intros Hr Hc [E1 E2]. split; [by rw Hc|].
  intros Q HQ. rw /node_at Hr. by apply E2.
Qed.

(** The staging directory with the staged tree, as one node. *)
Lemma staging_root M (tree : gmap string node) r :
  M ≠ [] ->
  fs_upd (M ++ ["tmp"]) (fun _ => Some (Dir tree))
    (fs_upd M (fun _ => Some (Dir ∅)) r)
  = fs_upd M (fun _ => Some (Dir {[ "tmp" := Dir tree ]})) r.
Proof.
  intros HM.
  enough (Some (Dir (fs_upd (M ++ ["tmp"]) (fun _ => Some (Dir tree))
                       (fs_upd M (fun _ => Some (Dir ∅)) r)))
          = Some (Dir (fs_upd M (fun _ => Some (Dir {[ "tmp" := Dir tree ]})) r)))
    as Heq by (by injection Heq).
  rw -!fs_upd_spec //; [by destruct M|].
  rw upd_below_upd. by apply upd_ext.
Qed.

(** The first three steps: the template is staged, with the
    placeholder replaced. *)
Lemma scaffold_stage st template placeholder value es text M rest :
  temp_ok st = true -> name_ok template = true ->
  template_at st template = Some (es, text) ->
  staging st = Some (M, rest) ->
  ¬ template_place st template `prefix_of` M ->
  exists tmp st1 st2,
    tempfile_mkdtemp st = (Ok tmp, st1)
    ∧ shutil_copytree (template_path template) (os_path_join tmp "tmp") st1
      = (Ok tt, st2)
    ∧ replace_placeholders_in_file
        (os_path_join (os_path_join tmp "tmp") "__init__.py")
        [(placeholder, value)] st2
      = (Ok tt, staged st template placeholder value es text M rest)
    ∧ (forall st', extends (staged st template placeholder value es text M rest) st' ->
         resolve st' (os_path_join tmp "tmp") = Some (M ++ ["tmp"])).
Proof.
  intros Htmp Htemplate Htpl Hst Hsrc.
  rw /staged.
  set (text' := pass placeholder value text).
  set (Src := template_place st template) in *.
  set (D := M ++ ["tmp"]). set (I := D ++ ["__init__.py"]).
  destruct (resolve_template st template es text) as (Hrt & Hnt & Hinit); [done..|].
  fold Src in Hrt, Hnt.
  destruct (staging_spec st M rest Hst) as (HMnone & nm & HMeq).
  destruct (tempfile_mkdtemp_staging st M rest Htmp Hst) as (tmp & Hmk & Htmpres).
  assert (HTd : is_dir (node_at st (tempdir st)) = true).
  { revert Htmp. rw /temp_ok. by intros [[_ ?]%andb_prop _]%andb_prop. }
  assert (HMne : M ≠ []) by (rw HMeq; by destruct (tempdir st)).
  assert (HDne : D ≠ []) by (rw /D; by destruct M).
  assert (HIne : I ≠ []) by (rw /I; by destruct D).
  assert (HMS : ¬ M `prefix_of` Src).
  { intros H. by rw /node_at (lkp_prefix_none M Src) in Hnt. }
  assert (HSD : ¬ Src `prefix_of` D).
  { intros [H|H]%prefix_snoc_inv; [done|].
    rw /node_at (lkp_prefix_none M Src) // in Hnt. rw H. by apply prefix_app_r. }
  set (st1 := set_node M (fun _ => Some (Dir ∅)) (EvMkdir M) (set_temp_names rest st)) in *.
  assert (E1 : extends st st1).
  { eapply extends_trans; [apply (extends_set_temp_names rest)|].
    by apply extends_set_node_fresh. }
  assert (HM1 : node_at st1 M = Some (Dir ∅)).
  { rw /st1 HMeq. by rw (node_at_set_node_new (tempdir st)). }
  assert (HD1 : node_at st1 D = None).
  { by rw /D node_at_below HM1. }
  set (st1' := set_node D (fun _ => Some (Dir ∅)) (EvMkdir D) st1).
  set (st2 := set_node D (fun _ => Some (Dir es)) (EvCopytree Src D) st1').
  assert (Hcp1 : shutil_copytree (template_path template)
                   (os_path_join tmp "tmp") st1 = (Ok tt, st2)).
  { apply shutil_copytree_new; try done.
    - by apply (extends_resolve st).
    - by rw node_at_set_node_apart.
    - by apply Htmpres.
    - by rw HM1. }
  assert (HD1' : node_at st1' D = Some (Dir ∅)).
  { by rw /st1' /D node_at_set_node_new // HM1. }
  assert (E12 : extends st1 st2).
  { eapply extends_trans; [by apply (extends_set_node_fresh D ∅)|].
    apply extends_set_node_dir; [done|]. intros c.
    by rw node_at_below -/st1' HD1'. }
  assert (HD2 : node_at st2 D = Some (Dir es)).
  { by rw /st2 node_at_set_node_here // HD1'. }
  assert (HI2 : node_at st2 I = Some (File text)).
  { by rw /I node_at_below HD2. }
  assert (Hres_tmp : forall st', extends st2 st' ->
            resolve st' (os_path_join tmp "tmp") = Some D).
  { intros st' E. apply resolve_join_name; [| |done].
    - apply Htmpres. exact (extends_trans _ _ _ E1 (extends_trans _ _ _ E12 E)).
    - apply (extends_is_dir st1); [exact (extends_trans _ _ _ E12 E)|by rw HM1]. }
  set (st3 := set_node I (fun _ => Some (File text')) (EvWrite I text')
                (log (EvRead I) st2)).
  assert (Hrp : replace_placeholders_in_file
                  (os_path_join (os_path_join tmp "tmp") "__init__.py")
                  [(placeholder, value)] st2 = (Ok tt, st3)).
  { rw (replace_placeholders_run st2 _ _ I text) //.
    apply resolve_join_name; [|by rw HD2|done].
    apply Hres_tmp, extends_refl. }
  assert (E23 : extends st2 st3).
  { eapply extends_trans; [apply (extends_log (EvRead I))|].
    by apply (extends_set_node_file I text). }
  assert (Heq : st3 = {|
    root := fs_upd D (fun _ => Some (Dir (substitute_tree placeholder value es text)))
              (fs_upd M (fun _ => Some (Dir ∅)) (root st));
    cwd := cwd st; tempdir := tempdir st; temp_names := rest;
    trace := trace st ++
      [EvMkdir M; EvMkdir D; EvCopytree Src D; EvRead I; EvWrite I text'] |}).
  { apply state_eq; [|reflexivity..|].
    2: { match goal with |- _ = ?t => change (((((trace st ++ [EvMkdir M]) ++ [EvMkdir D]) ++
           [EvCopytree Src D]) ++ [EvRead I]) ++ [EvWrite I text'] = t)
         end. by rw -!app_assoc. }
    change (fs_upd I (fun _ => Some (File text'))
             (fs_upd D (fun _ => Some (Dir es))
               (fs_upd D (fun _ => Some (Dir ∅))
                 (fs_upd M (fun _ => Some (Dir ∅)) (root st))))
            = fs_upd D (fun _ => Some (Dir (substitute_tree placeholder value es text)))
                (fs_upd M (fun _ => Some (Dir ∅)) (root st))).
    match goal with
    | |- ?a = ?b => enough (Some (Dir a) = Some (Dir b)) as Heq by (by injection Heq)
    end.
    rw -!fs_upd_spec //.
    rw (upd_upd D) /I (upd_below_upd D).
    by apply upd_ext. }
  exists tmp, st1, st2. rw -Heq. split_and!; try done.
  intros st' E. apply Hres_tmp. exact (extends_trans _ _ _ E23 E).
Qed.

(** The run of the common steps for a destination that
    [os.makedirs] can make: the state reached has the directories
    that [os.makedirs] makes in the state before, the new tree, and
    the directory of [tempfile.mkdtemp], empty. *)
Lemma scaffold_general st template placeholder value dest message
    es text M rest st_d Dst :
  cwd_ok st = true -> temp_ok st = true -> name_ok template = true ->
  template_at st template = Some (es, text) ->
  staging st = Some (M, rest) ->
  ¬ template_place st template `prefix_of` M ->
  os_makedirs dest st = (Ok tt, st_d) ->
  resolve st_d dest = Some Dst ->
  node_at st Dst = None ->
  node_at st_d M = None ->
  exists st',
    scaffold template placeholder value dest message st = (Ok dest, st')
    ∧ root st' =
        fs_upd Dst (fun _ => Some (Dir (substitute_tree placeholder value es text)))
          (fs_upd M (fun _ => Some (Dir ∅)) (root st_d))
    ∧ extends st st'
    ∧ resolve st' dest = Some Dst
    ∧ node_at st' Dst = Some (Dir (substitute_tree placeholder value es text)).
Proof.
  intros Hcwd Htmp Htemplate Htpl Hst Hsrc Hmake HDst Hnew HMfree.
  set (tree := substitute_tree placeholder value es text).
  set (D := M ++ ["tmp"]).
  set (sg := staged st template placeholder value es text M rest).
  destruct (scaffold_stage st template placeholder value es text M rest)
    as (tmp & st1 & st2 & Hmk & Hcp1 & Hrp & Hres_tmp); [done..|].
  fold sg in Hrp, Hres_tmp. fold D in Hres_tmp.
  destruct (staging_spec st M rest Hst) as (HMnone & x & HMeq).
  assert (HTd : is_dir (node_at st (tempdir st)) = true).
  { revert Htmp. rw /temp_ok. by intros [[_ ?]%andb_prop _]%andb_prop. }
  assert (HCd : is_dir (node_at st (cwd st)) = true).
  { revert Hcwd. rw /cwd_ok. by intros [_ ?]%andb_prop. }
  assert (HMne : M ≠ []) by (rw HMeq; by destruct (tempdir st)).
  assert (HDne : D ≠ []) by (rw /D; by destruct M).
  assert (HDstne : Dst ≠ []) by (by intros ->).
  (* os.makedirs in the state before *)
  assert (Hdest : String.eqb dest "" = false).
  { revert Hmake. rw /os_makedirs. by destruct (String.eqb dest ""). }
  pose proof Hmake as Hwalk. rw /os_makedirs Hdest in Hwalk.
  set (start := if PyStr.startswith "/" dest then [] else cwd st) in *.
  assert (E0 : extends st st_d) by exact (makedirs_walk_extends _ _ _ _ _ _ _ Hwalk).
  assert (Hstart : ¬ M `prefix_of` start).
  { rw /start. destruct (PyStr.startswith "/" dest).
    - intros H. apply prefix_nil_inv in H. done.
    - intros H. by rw /node_at (lkp_prefix_none M (cwd st)) in HCd. }
  (* ... and in the state with the staged tree *)
  assert (Hsg : root sg = fs_upd M (fun _ => Some (Dir {[ "tmp" := Dir tree ]})) (root st)).
  { change (root sg) with
      (fs_upd D (fun _ => Some (Dir tree)) (fs_upd M (fun _ => Some (Dir ∅)) (root st))).
    by apply staging_root. }
  destruct (makedirs_walk_frame dest (PyStr.split "/" dest) start false st sg st_d
              (tempdir st) x (Dir {[ "tmp" := Dir tree ]}))
    as (sg_d & Hwalk' & Hsg_d); rewrite <- ?HMeq; try done.
  rewrite <- HMeq in Hsg_d.
  assert (Hmake' : os_makedirs dest sg = (Ok tt, sg_d)).
  { rw /os_makedirs Hdest. exact Hwalk'. }
  assert (E1 : extends sg sg_d) by exact (makedirs_walk_extends _ _ _ _ _ _ _ Hwalk').
  assert (Hcwd_d : cwd sg_d = cwd st) by (by rw (proj1 E1)).
  assert (E2 : extends st_d sg_d).
  { apply (extends_root st_d sg_d
             (set_node M (fun _ => Some (Dir {[ "tmp" := Dir tree ]})) (EvMkdir M) st_d)).
    - done.
    - by rw Hcwd_d -(proj1 E0).
    - by apply extends_set_node_fresh. }
  assert (HDst' : resolve sg_d dest = Some Dst) by (by apply (extends_resolve st_d)).
  assert (Hempty : node_at sg_d Dst = Some (Dir ∅)).
  { apply (makedirs_walk_fresh _ _ _ _ _ _ _ Hwalk'); [done|].
    revert HDst'. by rw /resolve Hdest Hcwd_d. }
  assert (HDstd : is_dir (node_at st_d Dst) = true).
  { apply (makedirs_walk_fresh _ _ _ _ _ _ Dst) in Hwalk; [by rw Hwalk|done|].
    revert HDst. by rw /resolve Hdest (proj1 E0). }
  assert (HMD : ¬ M `prefix_of` Dst).
  { intros H. by rw /node_at (lkp_prefix_none M Dst) in HDstd. }
  assert (HDD : ¬ D `prefix_of` Dst).
  { intros H. apply HMD. by apply prefix_app_l in H. }
  assert (HDM : ¬ Dst `prefix_of` M).
  { rw HMeq. intros [H|H]%prefix_snoc_inv.
    - by rw /node_at (lkp_prefix_none Dst (tempdir st)) in HTd.
    - rw -HMeq in H. rw H in HDstd. by rw HMfree in HDstd. }
  assert (HDD' : ¬ Dst `prefix_of` D).
  { intros [H|H]%prefix_snoc_inv; [done|]. apply HDD. by rw H. }
  assert (HsgD : node_at sg D = Some (Dir tree)).
  { by apply staged_copy_left. }
  (* shutil.copytree(tmp_dir, dest) *)
  set (s4 := set_node Dst (fun _ => Some (Dir tree)) (EvCopytree D Dst) sg_d).
  assert (Hcp2 : shutil_copytree (os_path_join tmp "tmp") dest sg = (Ok tt, s4)).
  { rw /shutil_copytree (Hres_tmp sg (extends_refl _)) HsgD Hmake' HDst'.
    by rw bool_decide_eq_false_2. }
  assert (E3 : extends sg_d s4).
  { apply extends_set_node_dir; [done|]. intros c. by rw node_at_below Hempty. }
  (* shutil.rmtree(tmp_dir) *)
  set (s5 := set_node D (fun _ => None) (EvRmtree D) s4).
  assert (Hrm : shutil_rmtree (os_path_join tmp "tmp") s4 = (Ok tt, s5)).
  { apply shutil_rmtree_dir.
    - apply Hres_tmp. exact (extends_trans _ _ _ E1 E3).
    - apply (extends_is_dir sg); [exact (extends_trans _ _ _ E1 E3)|by rw HsgD]. }
  assert (Hroot : root s5 =
            fs_upd Dst (fun _ => Some (Dir tree))
              (fs_upd M (fun _ => Some (Dir ∅)) (root st_d))).
  { change (fs_upd D (fun _ => None) (fs_upd Dst (fun _ => Some (Dir tree)) (root sg_d))
            = fs_upd Dst (fun _ => Some (Dir tree))
                (fs_upd M (fun _ => Some (Dir ∅)) (root st_d))).
    rw Hsg_d -(staging_root M tree) //.
    rw (fs_upd_comm D Dst) //.
    f_equal.
    match goal with
    | |- ?a = ?b => enough (Some (Dir a) = Some (Dir b)) as Heq by (by injection Heq)
    end.
    rw -!fs_upd_spec //. rw (upd_upd D).
    apply upd_id.
    rw fs_upd_spec // -/(node_at (set_node M (fun _ => Some (Dir ∅)) (EvMkdir M) st_d) D).
    rw /D node_at_below HMeq node_at_set_node_new //.
    by apply (extends_is_dir st). }
  assert (Hstd : node_at st_d Dst = Some (Dir ∅)).
  { apply (makedirs_walk_fresh _ _ _ _ _ _ _ Hwalk); [done|].
    revert HDst. by rw /resolve Hdest (proj1 E0). }
  assert (E4 : extends st_d s5).
  { apply (extends_root st_d s5
             (set_node Dst (fun _ => Some (Dir tree)) (EvMkdir Dst)
                (set_node M (fun _ => Some (Dir ∅)) (EvMkdir M) st_d))).
    - exact Hroot.
    - change (cwd sg_d = cwd st_d). by rw Hcwd_d (proj1 E0).
    - eapply extends_trans; [by apply (extends_set_node_fresh M ∅)|].
      apply extends_set_node_dir; [done|]. intros c.
      apply node_at_set_node_none; [|by rw node_at_below Hstd].
      intros [H|H]%prefix_snoc_inv; [done|]. apply HDM. rw H. by apply prefix_app_r. }
  exists (log (EvPrint message "green") s5). split_and!.
  - rw /scaffold.
    rw (bind_ok _ _ _ _ _ Hmk) (bind_ok _ _ _ _ _ Hcp1) (bind_ok _ _ _ _ _ Hrp).
    rw (bind_ok _ _ _ _ _ Hcp2) (bind_ok _ _ _ _ _ Hrm).
    by rw bind_eq /cprint.
  - exact Hroot.
  - eapply extends_trans; [exact E0|].
    eapply extends_trans; [exact E4|apply extends_log].
  - rw resolve_log. by apply (extends_resolve st_d).
  - change (node_at s5 Dst = Some (Dir tree)).
    rw /s5 node_at_set_node_apart // /s4 node_at_set_node_here //.
Qed.

End general.

(** * The claims *)

(** C1 (code defect).  After [library_create] the library is not found
    under the name it was created with when that name has an uppercase
    letter: the library is made under the lowercased name, and
    [library_exists] looks for the name as it is given. *)
Theorem library_create_then_exists_uppercase
    st library_name out_dir O es text M rest :
  cwd_ok st = true -> temp_ok st = true -> name_ok library_name = true ->
  resolve st out_dir = Some O ->
  library_exists library_name out_dir st = (Ok false, st) ->
  node_at st (O ++ [PyStr.lower library_name]) = None ->
  template_at st "make_library" = Some (es, text) ->
  staging st = Some (M, rest) ->
  ¬ template_place st "make_library" `prefix_of` M ->
  M ≠ O ++ [PyStr.lower library_name] ->
  PyStr.lower library_name ≠ library_name ->
  M ≠ O ++ [library_name] ->
  library_create library_name out_dir st =
    (Ok (os_path_join out_dir (PyStr.lower library_name)),
     library_created st library_name out_dir O es text M rest)
  /\ library_exists library_name out_dir
       (library_created st library_name out_dir O es text M rest) =
     (Ok false, library_created st library_name out_dir O es text M rest).
Proof.
  intros Hcwd Htmp Hname HO Hnolib Hfree Htpl Hst Hsrc HM Hcase HM'. split.
  - by apply library_create_ok.
  - by apply created_exists_verbatim.
Qed.

Lemma library_create_then_exists_uppercase_witness :
  (_ ← library_create "MyLib" "/ops"; library_exists "MyLib" "/ops") world_empty =
  (Ok false, world_after_MyLib).
Proof.
  refine (match library_create_then_exists_uppercase world_empty "MyLib" "/ops"
    ["ops"] make_library_entries "# library LIBRARYNAME"
    ["tmp"; "tmpk3x9q2ab"] ["w8e1r5ty"; "z0z0z0z0"]
    eq_refl eq_refl eq_refl eq_refl eq_refl eq_refl eq_refl eq_refl _ _ _ _
    with
    | conj Hcreate Hexists => eq_trans (bind_ok _ _ _ _ _ Hcreate) Hexists
    end).
  - intros [k Hk]. discriminate Hk.
  - discriminate.
  - discriminate.
  - discriminate.
Defined.

(** C2 (code defect).  With a library name that has an uppercase
    letter and no such library yet, [operation_create] makes the
    library under the lowercased name and then raises [LibraryNotFound]
    from [operation_exists]: no operation is made and no path is
    returned. *)
Theorem operation_create_uppercase_library
    st operations_dir library_name operation_name O es text M rest :
  cwd_ok st = true -> temp_ok st = true -> name_ok library_name = true ->
  resolve st operations_dir = Some O ->
  library_exists library_name operations_dir st = (Ok false, st) ->
  node_at st (O ++ [PyStr.lower library_name]) = None ->
  template_at st "make_library" = Some (es, text) ->
  staging st = Some (M, rest) ->
  ¬ template_place st "make_library" `prefix_of` M ->
  M ≠ O ++ [PyStr.lower library_name] ->
  PyStr.lower library_name ≠ library_name ->
  M ≠ O ++ [library_name] ->
  operation_create operations_dir library_name operation_name st =
  (Raise (LibraryNotFound (os_path_join operations_dir library_name)),
   library_created st library_name operations_dir O es text M rest).
Proof.
  intros Hcwd Htmp Hname HO Hnolib Hfree Htpl Hst Hsrc HM Hcase HM'.
  set (st' := library_created st library_name operations_dir O es text M rest).
  assert (Hcreate : library_create library_name operations_dir st =
            (Ok (os_path_join operations_dir (PyStr.lower library_name)), st'))
    by by apply library_create_ok.
  assert (Hexists : library_exists library_name operations_dir st' = (Ok false, st'))
    by by apply created_exists_verbatim.
  rw /operation_create (bind_ok _ _ _ _ _ Hnolib).
  rw bind_eq /when_ /discard. cbn [negb]. rw (bind_ok _ _ _ _ _ Hcreate).
  cbn [mret M_ret]. rw bind_eq operation_exists_eq.
  pose proof Hexists as H. rw library_exists_eq in H.
  destruct (isdir st' operations_dir); [|done].
  injection H as H. by rw H.
Qed.

Lemma operation_create_uppercase_library_witness :
  operation_create "/ops" "MyLib" "do_thing" world_empty =
  (Raise (LibraryNotFound "/ops/MyLib"), world_after_MyLib).
Proof.
  refine (operation_create_uppercase_library world_empty "/ops" "MyLib" "do_thing"
    ["ops"] make_library_entries "# library LIBRARYNAME"
    ["tmp"; "tmpk3x9q2ab"] ["w8e1r5ty"; "z0z0z0z0"]
    eq_refl eq_refl eq_refl eq_refl eq_refl eq_refl eq_refl eq_refl _ _ _ _).
  - intros [k Hk]. discriminate Hk.
  - discriminate.
  - discriminate.
  - discriminate.
Defined.

(** C3 (amended).  The existence check of [library_create] takes the
    library name as it is given, and the library is made under the
    lowercased name.  For every name in ASCII and every [out_dir] with
    no library of that name: when [os.makedirs] can make [out_dir]
    joined with the lowercased name (nothing is at that path yet; the
    name may have several components, and the directories that are
    missing on the way are made), the path is not in the staging
    directory that [tempfile.mkdtemp] makes, the paths of the new tree
    are accepted by the operating system, and the library template
    with its initializer file (an ASCII text) is in place, then
    [library_create]
    returns [out_dir] joined with the lowercased name, and that path is
    a directory holding the template with the placeholder replaced by
    the lowercased name.  When a library of the name as given exists,
    [library_create] raises [LibraryException] whatever is at the
    lowercased name. *)
Theorem library_create_lowercased_path
    st library_name out_dir es text M rest st_d Dst :
  let path := os_path_join out_dir (PyStr.lower library_name) in
  PyStr.is_ascii library_name = true ->
  cwd_ok st = true -> temp_ok st = true ->
  library_exists library_name out_dir st = (Ok false, st) ->
  os_makedirs path st = (Ok tt, st_d) ->
  resolve st_d path = Some Dst ->
  node_at st Dst = None ->
  node_at st_d M = None ->
  tree_fits path (library_tree library_name es text) ->
  template_at st "make_library" = Some (es, text) ->
  PyStr.is_ascii text = true ->
  staging st = Some (M, rest) ->
  ¬ template_place st "make_library" `prefix_of` M ->
  (exists st',
     library_create library_name out_dir st = (Ok path, st')
     /\ resolve st' path = Some Dst
     /\ node_at st' Dst = Some (Dir (library_tree library_name es text))
     /\ isdir st' path = true)
  /\ (forall st0,
        library_exists library_name out_dir st0 = (Ok true, st0) ->
        library_create library_name out_dir st0 =
        (Raise (LibraryException
           ("The library " +:+ library_name +:+ " already exists under " +:+ out_dir)),
         st0)).
Proof.
  intros path Hascii Hcwd Htmp Hnolib Hmake HDst Hnew HMfree Hfits Htpl Htext Hst Hsrc.
  split; [|intros st0; apply library_create_exists_raises].
  assert (Hisdir : isdir st out_dir = true).
  { pose proof Hnolib as H. rw library_exists_eq in H. by destruct (isdir st out_dir). }
  destruct (scaffold_general st "make_library" "LIBRARYNAME" (PyStr.lower library_name)
              path ("Library successfully created under: " +:+
                    os_path_join path "__init__.py")
              es text M rest st_d Dst)
    as (st' & Hrun & _ & _ & Hres & Hnode); [done..|].
  exists st'. split_and!; [|done|done|by rw /isdir Hres Hnode].
  rw /library_create (bind_ok _ _ _ _ _ Hnolib). cbn match.
  rw bind_eq /os_path_isdir Hisdir. cbn [negb]. cbn match.
  exact Hrun.
Qed.

Lemma library_create_lowercased_path_witness :
  exists st',
    library_create "Sub/Lib" "/ops" world_empty = (Ok "/ops/sub/lib", st')
    /\ node_at st' ["ops"; "sub"; "lib"]
       = Some (Dir {[ "__init__.py" := File "# library sub/lib" ]}).
Proof.
  refine (match proj1 (library_create_lowercased_path world_empty "Sub/Lib" "/ops"
    make_library_entries "# library LIBRARYNAME"
    ["tmp"; "tmpk3x9q2ab"] ["w8e1r5ty"; "z0z0z0z0"]
    (os_makedirs "/ops/sub/lib" world_empty).2 ["ops"; "sub"; "lib"]
    eq_refl eq_refl eq_refl eq_refl eq_refl eq_refl eq_refl eq_refl
    (tree_fits_substituted "/ops/sub/lib" "LIBRARYNAME" "sub/lib"
       "# library LIBRARYNAME" "# library LIBRARYNAME" eq_refl eq_refl)
    eq_refl eq_refl eq_refl _)
    with
    | ex_intro _ st' (conj Hrun (conj _ (conj Hnode _))) =>
        ex_intro _ st' (conj Hrun Hnode)
    end).
  intros [k Hk]. discriminate Hk.
Defined.

(** The claim as it stands fails where the lowercased name is taken:
    [/ops] is a directory without a library [MyLib], and
    [library_create] neither makes nor returns [/ops/mylib]. *)
Lemma library_create_lowercased_path_counterexample :
  isdir world_mylib "/ops" = true
  /\ library_exists "MyLib" "/ops" world_mylib = (Ok false, world_mylib)
  /\ (library_create "MyLib" "/ops" world_mylib).1
     = Raise (FileExistsError "/ops/mylib").
Proof. vm_compute. by split_and!. Qed.

(** C4.  When a library of the name exists under [out_dir],
    [library_create] raises [LibraryException] (the "library already
    exists" error) and the world, trace included, is as before. *)
Theorem library_create_existing st library_name out_dir :
  library_exists library_name out_dir st = (Ok true, st) ->
  library_create library_name out_dir st =
  (Raise (LibraryException
     ("The library " +:+ library_name +:+ " already exists under " +:+ out_dir)), st).
Proof. intros H. by rw /library_create (bind_ok _ _ _ _ _ H). Qed.

Lemma library_create_existing_witness :
  library_create "mylib" "/ops" world_mylib =
  (Raise (LibraryException "The library mylib already exists under /ops"), world_mylib).
Proof. exact (library_create_existing world_mylib "mylib" "/ops" eq_refl). Defined.



(** C6.  On ASCII text [to_camel_case] never raises: it splits at the
    underscores, title-cases the segments and concatenates them.  To
    title-case is to capitalize the words: the first letter of every
    run of letters is made a capital, its other letters are made small
    and the other characters are kept, the letters and their capitals
    being those of [string.ascii_lowercase] and
    [string.ascii_uppercase].  An empty segment adds nothing, so the
    result for [a_b] is the result for [a] followed by the result for
    [b]. *)
Theorem to_camel_case_spec a b :
  PyStr.is_ascii a = true -> PyStr.is_ascii b = true ->
  to_camel_case a =
    Ok (PyStr.join (map (PyStr.words_capitalized false) (PyStr.split "_" a)))
  /\ to_camel_case (a +:+ "_" +:+ b) =
     Ok (PyStr.join (map (PyStr.words_capitalized false) (PyStr.split "_" a)) +:+
         PyStr.join (map (PyStr.words_capitalized false) (PyStr.split "_" b)))
  /\ PyStr.words_capitalized false "" = ""
  /\ to_camel_case "make_http_request" = Ok "MakeHttpRequest"
  /\ to_camel_case "a" = Ok "A"
  /\ to_camel_case "" = Ok ""
  /\ to_camel_case "make_HTTP_request" = Ok "MakeHttpRequest"
  /\ to_camel_case "hELLO_wORLD" = Ok "HelloWorld"
  /\ to_camel_case "__a__b_" = Ok "AB"
  /\ to_camel_case "get_2nd_item" = Ok "Get2NdItem".
Proof.
  intros _ _.
  assert (H : forall s, to_camel_case s =
            Ok (PyStr.join (map (PyStr.words_capitalized false) (PyStr.split "_" s)))).
  { intros s. rw to_camel_case_ok /camel_case. do 2 f_equal.
    apply map_ext. intros x. apply title_from_words. }
  split_and!; try done.
  by rw H split_app_sep map_app join_app.
Qed.

Lemma to_camel_case_spec_witness :
  to_camel_case "make_HTTP" = Ok "MakeHttp"
  /\ to_camel_case "make_HTTP_request" = Ok "MakeHttpRequest".
Proof.
  refine (match to_camel_case_spec "make_HTTP" "request" eq_refl eq_refl with
          | conj H1 (conj H2 _) => conj H1 H2
          end).
Defined.

(** C7.  When the root directory is not an existing directory,
    [library_exists] and [operation_exists] raise [FileNotFoundError];
    they do not return false. *)
Theorem existence_checks_missing_root st root_dir :
  isdir st root_dir = false ->
  (forall name,
     library_exists name root_dir st =
     (Raise (FileNotFoundError (root_dir +:+ " does not exist.")), st))
  /\ (forall library_name operation_name,
        operation_exists root_dir library_name operation_name st =
        (Raise (FileNotFoundError root_dir), st)).
Proof.
  intros H. split.
  - intros name. by rw library_exists_eq H.
  - intros l o. by rw operation_exists_eq H.
Qed.

Lemma existence_checks_missing_root_witness :
  library_exists "mylib" "/nowhere" world_empty =
    (Raise (FileNotFoundError "/nowhere does not exist."), world_empty)
  /\ operation_exists "/nowhere" "mylib" "do_thing" world_empty =
    (Raise (FileNotFoundError "/nowhere"), world_empty).
Proof.
  refine (match existence_checks_missing_root world_empty "/nowhere" eq_refl with
          | conj H1 H2 => conj (H1 "mylib") (H2 "mylib" "do_thing")
          end).
Defined.



(** C9.  With the empty mapping [replace_placeholders_in_file] still
    raises [FileNotFoundError] when the path is not a regular file, and
    otherwise returns with the world untouched: no read and no write
    is traced and the text of the file is as before. *)
Theorem replace_placeholders_empty st file_path :
  replace_placeholders_in_file file_path [] st =
  if isfile st file_path then (Ok tt, st)
  else (Raise (FileNotFoundError (file_path +:+ " does not exist")), st).
Proof.
  rw /replace_placeholders_in_file bind_eq /os_path_isfile.
  by destruct (isfile st file_path).
Qed.

(** C10.  The segments are title-cased, so on ASCII text
    [to_camel_case] is the title-cased input without its underscores:
    a letter is uppercased when it does not follow a letter and
    lowercased when it does, and other characters stay.  This is not
    the capitalization of the first character of each segment:
    ["a2b"] gives ["A2B"] and ["API_key"] gives ["ApiKey"]. *)
Theorem to_camel_case_title_case s :
  PyStr.is_ascii s = true ->
  to_camel_case s = Ok (drop_underscores (PyStr.title s))
  /\ (forall i,
        String.get i (PyStr.title s) =
        match String.get i s with
        | Some c => Some (if after_letter s i then PyStr.to_lower c else PyStr.to_upper c)
        | None => None
        end)
  /\ (forall c, PyStr.is_cased c = PyStr.is_letter c
               /\ PyStr.to_upper c = PyStr.capital c
               /\ PyStr.to_lower c = PyStr.small c)
  /\ to_camel_case "a2b" = Ok "A2B"
  /\ to_camel_case "API_key" = Ok "ApiKey"
  /\ naive_camel_case "a2b" = "A2b"
  /\ naive_camel_case "API_key" = "APIKey".
Proof.
  intros _. split_and!; try done.
  - rw /PyStr.title title_segments /to_camel_case.
    pose proof (split_not_nil "_" s). by destruct (PyStr.split "_" s).
  - intros i. rw /PyStr.title title_from_get. by destruct i.
  - intros c. by rw is_letter_cased capital_to_upper small_to_lower.
Qed.

Lemma to_camel_case_title_case_witness :
  to_camel_case "API_key" = Ok (drop_underscores (PyStr.title "API_key")).
Proof. exact (proj1 (to_camel_case_title_case "API_key" eq_refl)). Defined.

(** * Further properties of the module *)

(** ** The existence checks *)



(** X2.  Whatever they return or raise, [library_exists] and
    [operation_exists] leave the world as it is: no file or directory
    is touched and nothing is printed. *)
Theorem existence_checks_leave_world st operations_dir library_name operation_name :
  (library_exists library_name operations_dir st).2 = st
  /\ (operation_exists operations_dir library_name operation_name st).2 = st.
Proof. split; [apply library_exists_state|apply operation_exists_state]. Qed.



(** ** [replace_placeholders_in_file] *)

(** X4.  When the path is not a regular file (it is missing, or it is
    a directory), [replace_placeholders_in_file] raises
    [FileNotFoundError] for every mapping, and nothing is read or
    written. *)
Theorem replace_placeholders_not_a_file st file_path placeholders :
  isfile st file_path = false ->
  replace_placeholders_in_file file_path placeholders st =
  (Raise (FileNotFoundError (file_path +:+ " does not exist")), st).
Proof.
  intros H. by rw /replace_placeholders_in_file bind_eq /os_path_isfile H.
Qed.

Lemma replace_placeholders_not_a_file_witness :
  replace_placeholders_in_file "/ops" [("NAME", "Foo")] world_greeting =
    (Raise (FileNotFoundError "/ops does not exist"), world_greeting)
  /\ replace_placeholders_in_file "/ops/missing.txt" [("NAME", "Foo")] world_greeting =
    (Raise (FileNotFoundError "/ops/missing.txt does not exist"), world_greeting).
Proof.
  exact (conj
    (replace_placeholders_not_a_file world_greeting "/ops" [("NAME", "Foo")] eq_refl)
    (replace_placeholders_not_a_file world_greeting "/ops/missing.txt"
       [("NAME", "Foo")] eq_refl)).
Defined.

(** X5.  When none of the markers occurs in the text of the file (an
    ASCII text, read with its line endings translated), every pass
    writes back the text it has read: the file is rewritten once for
    every marker, and its text is as before except that the line
    endings [\r\n] and [\r] have become [\n]. *)
Theorem replace_placeholders_absent_markers st file_path placeholders P text :
  resolve st file_path = Some P -> node_at st P = Some (File text) ->
  dict_wf placeholders = true ->
  PyStr.is_ascii text = true -> dict_ascii placeholders = true ->
  forallb (fun key => negb (PyStr.contains key (PyStr.universal_newlines text)))
    (dict_keys placeholders) = true ->
  let result := replace_placeholders_in_file file_path placeholders st in
  let read := PyStr.universal_newlines text in
  result.1 = Ok tt
  /\ node_at result.2 P =
     Some (File (match placeholders with [] => text | _ => read end))
  /\ trace result.2 =
     trace st ++ flat_map (fun _ => [EvRead P; EvWrite P read]) placeholders
  /\ (has_char "013" text = false -> node_at result.2 P = Some (File text)).
Proof.
  intros Hr Hn Hwf Htext Hdict Habs result read.
  assert (Hnode : node_at result.2 P =
            Some (File (match placeholders with [] => text | _ => read end))).
  { rw /result (replace_placeholders_run st _ _ P text) // passes_absent //.
    rw (run_passes_text _ _ _ text) //. destruct placeholders as [|kv d]; [done|].
    by rw last_const_cons. }
  split_and!; [|done| |].
  - by rw /result (replace_placeholders_run st _ _ P text).
  - rw /result (replace_placeholders_run st _ _ P text) // passes_absent //.
    by rw run_passes_trace (flat_map_const (fun t => [EvRead P; EvWrite P t])).
  - intros Hcr. rw Hnode /read universal_newlines_no_cr //. by destruct placeholders.
Qed.

Lemma replace_placeholders_absent_markers_witness :
  node_at
    (replace_placeholders_in_file "/ops/greeting.txt"
       [("TITLE", "Dr"); ("name", "Foo")] world_greeting).2
    ["ops"; "greeting.txt"]
  = Some (File "Hello NAME").
Proof.
  exact (proj1 (proj2 (replace_placeholders_absent_markers world_greeting
    "/ops/greeting.txt" [("TITLE", "Dr"); ("name", "Foo")] ["ops"; "greeting.txt"]
    "Hello NAME" eq_refl eq_refl eq_refl eq_refl eq_refl eq_refl))).
Defined.

(** X6.  A mapping that gives every marker itself as its value leaves
    the text of the file (an ASCII text) as the read takes it: as it
    is when it has no [\r], and with the line endings translated
    otherwise. *)
Theorem replace_placeholders_same_value st file_path placeholders P text :
  resolve st file_path = Some P -> node_at st P = Some (File text) ->
  dict_wf placeholders = true ->
  PyStr.is_ascii text = true -> dict_ascii placeholders = true ->
  forallb (fun kv => String.eqb kv.1 kv.2) placeholders = true ->
  let result := replace_placeholders_in_file file_path placeholders st in
  result.1 = Ok tt
  /\ node_at result.2 P =
     Some (File (match placeholders with
                 | [] => text
                 | _ => PyStr.universal_newlines text
                 end))
  /\ (has_char "013" text = false -> node_at result.2 P = Some (File text)).
Proof.
  intros Hr Hn Hwf Htext Hdict Hsame result.
  assert (Hnode : node_at result.2 P =
            Some (File (match placeholders with
                        | [] => text
                        | _ => PyStr.universal_newlines text
                        end))).
  { rw /result (replace_placeholders_run st _ _ P text) // passes_same //.
    rw (run_passes_text _ _ _ text) //. destruct placeholders as [|kv d]; [done|].
    by rw last_const_cons. }
  split_and!; [|done|].
  - by rw /result (replace_placeholders_run st _ _ P text).
  - intros Hcr. rw Hnode universal_newlines_no_cr //. by destruct placeholders.
Qed.

Lemma replace_placeholders_same_value_witness :
  node_at
    (replace_placeholders_in_file "/ops/greeting.txt"
       [("NAME", "NAME"); ("l", "l")] world_greeting).2
    ["ops"; "greeting.txt"]
  = Some (File "Hello NAME").
Proof.
  exact (proj1 (proj2 (replace_placeholders_same_value world_greeting
    "/ops/greeting.txt" [("NAME", "NAME"); ("l", "l")] ["ops"; "greeting.txt"]
    "Hello NAME" eq_refl eq_refl eq_refl eq_refl eq_refl eq_refl))).
Defined.

(** X7.  Two calls in a row on a regular file with ASCII text, with
    mappings that share no marker, do what one call with the two
    mappings put together does: same result, same file system, same
    trace. *)
Theorem replace_placeholders_sequence st file_path d1 d2 P text :
  resolve st file_path = Some P -> node_at st P = Some (File text) ->
  dict_wf (d1 ++ d2) = true ->
  PyStr.is_ascii text = true -> dict_ascii (d1 ++ d2) = true ->
  (_ ← replace_placeholders_in_file file_path d1;
   replace_placeholders_in_file file_path d2) st
  = replace_placeholders_in_file file_path (d1 ++ d2) st
  /\ (replace_placeholders_in_file file_path (d1 ++ d2) st).1 = Ok tt
  /\ node_at (replace_placeholders_in_file file_path (d1 ++ d2) st).2 P
     = Some (File (substituted (substituted text d1) d2)).
Proof.
  intros Hr Hn Hwf Htext Hdict. destruct (dict_wf_app _ _ Hwf) as [Hwf1 Hwf2].
  rw (bind_ok _ _ _ _ _ (replace_placeholders_run st _ d1 P text Hr Hn Hwf1)).
  rw (replace_placeholders_run st _ (d1 ++ d2) P text) //.
  rw (replace_placeholders_run _ _ d2 P (substituted text d1)) //.
  - by rw (resolve_run_passes _ _ _ text).
  - by rw (run_passes_text _ _ _ text) // last_passes.
  - rw passes_app run_passes_app. split_and!; [done..|].
    rw (run_passes_text _ _ _ (substituted text d1)) ?last_passes //.
    by rw (run_passes_text _ _ _ text) // last_passes.
Qed.

Lemma replace_placeholders_sequence_witness :
  node_at
    (replace_placeholders_in_file "/ops/greeting.txt"
       [("NAME", "Foo"); ("Hello", "Bye")] world_greeting).2
    ["ops"; "greeting.txt"]
  = Some (File "Bye Foo").
Proof.
  exact (proj2 (proj2 (replace_placeholders_sequence world_greeting
    "/ops/greeting.txt" [("NAME", "Foo")] [("Hello", "Bye")] ["ops"; "greeting.txt"]
    "Hello NAME" eq_refl eq_refl eq_refl eq_refl eq_refl))).
Defined.

(** ** [to_camel_case] *)

(** X8.  On ASCII text the result of [to_camel_case] has no underscore
    and, the case of the letters apart, is the input with its
    underscores removed: no character other than an underscore is
    dropped or added. *)
Theorem to_camel_case_letters s :
  PyStr.is_ascii s = true ->
  exists r, to_camel_case s = Ok r
    /\ has_char "_" r = false
    /\ PyStr.lower r = drop_underscores (PyStr.lower s).
Proof.
  intros _. exists (drop_underscores (PyStr.title s)). split_and!.
  - apply to_camel_case_drop.
  - apply has_char_drop_underscores.
  - by rw lower_drop_underscores /PyStr.title lower_title_from.
Qed.

Lemma to_camel_case_letters_witness :
  exists r, to_camel_case "make_HTTP_request" = Ok r
    /\ has_char "_" r = false
    /\ PyStr.lower r = "makehttprequest".
Proof. exact (to_camel_case_letters "make_HTTP_request" eq_refl). Defined.

(** X9.  On ASCII text [to_camel_case] does not look at the case of
    its input: two names with the same letters up to case give the
    same result. *)
Theorem to_camel_case_ignores_case s t :
  PyStr.is_ascii s = true -> PyStr.is_ascii t = true ->
  PyStr.lower s = PyStr.lower t -> to_camel_case s = to_camel_case t.
Proof.
  intros _ _ H.
  by rw !to_camel_case_drop /PyStr.title (title_from_same_letters false s t).
Qed.

Lemma to_camel_case_ignores_case_witness :
  to_camel_case "Do_THING" = to_camel_case "do_thing".
Proof.
  exact (to_camel_case_ignores_case "Do_THING" "do_thing" eq_refl eq_refl eq_refl).
Defined.

(** X10.  [to_camel_case] is not idempotent: applied to its own result
    for an ASCII text, it gives the title-cased input whose
    underscores were removed first, so the capitals inside the name
    are lost (["DoThing"] gives ["Dothing"]); that second result is a
    fixed point. *)
Theorem to_camel_case_twice s :
  PyStr.is_ascii s = true ->
  (exists r,
     to_camel_case s = Ok r
     /\ to_camel_case r = Ok (PyStr.title (drop_underscores s))
     /\ to_camel_case (PyStr.title (drop_underscores s))
        = Ok (PyStr.title (drop_underscores s)))
  /\ to_camel_case "do_thing" = Ok "DoThing"
  /\ to_camel_case "DoThing" = Ok "Dothing".
Proof.
  intros _. split; [|done].
  assert (Hplain : forall x, has_char "_" x = false ->
            to_camel_case x = Ok (PyStr.title x)).
  { intros x Hx. rw to_camel_case_drop drop_underscores_none //.
    by rw /PyStr.title has_char_title_from. }
  exists (drop_underscores (PyStr.title s)). split_and!.
  - apply to_camel_case_drop.
  - rw Hplain; [apply has_char_drop_underscores|]. f_equal.
    apply title_from_same_letters.
    by rw !lower_drop_underscores /PyStr.title lower_title_from.
  - rw Hplain.
    { by rw /PyStr.title has_char_title_from has_char_drop_underscores. }
    f_equal. apply title_from_same_letters. by rw /PyStr.title lower_title_from.
Qed.

Lemma to_camel_case_twice_witness :
  exists r,
    to_camel_case "do_thing" = Ok r
    /\ to_camel_case r = Ok "Dothing"
    /\ to_camel_case "Dothing" = Ok "Dothing".
Proof. exact (proj1 (to_camel_case_twice "do_thing" eq_refl)). Defined.

(** ** [library_create] *)

(** X11.  When [out_dir] is not an existing directory,
    [library_create] raises the [FileNotFoundError] of
    [library_exists], whose message ends with a dot, and changes
    nothing: the check of [out_dir] that follows in [library_create],
    with the message without the dot, is not the one that fails. *)
Theorem library_create_missing_out_dir st library_name out_dir :
  isdir st out_dir = false ->
  library_create library_name out_dir st =
    (Raise (FileNotFoundError (out_dir +:+ " does not exist.")), st)
  /\ (library_create library_name out_dir st).1
     ≠ Raise (FileNotFoundError (out_dir +:+ " does not exist")).
Proof.
  intros H. rw library_create_missing_dir //. split; [done|].
  simpl. intros [= Heq]. by apply app_inv_head_str in Heq.
Qed.

Lemma library_create_missing_out_dir_witness :
  library_create "mylib" "/nowhere" world_empty =
  (Raise (FileNotFoundError "/nowhere does not exist."), world_empty).
Proof.
  exact (proj1 (library_create_missing_out_dir world_empty "mylib" "/nowhere" eq_refl)).
Defined.

(** X12.  For a library name that is free, is ASCII without an
    uppercase letter and is accepted by the operating system with the
    paths made from it, [library_create] returns [out_dir] joined with
    the name, [library_exists] then returns true for the name, and a
    second [library_create] raises [LibraryException] and changes
    nothing. *)
Theorem library_create_lowercase_name st library_name out_dir O es text M rest :
  cwd_ok st = true -> temp_ok st = true -> entry_name library_name = true ->
  PyStr.lower library_name = library_name ->
  resolve st out_dir = Some O ->
  library_exists library_name out_dir st = (Ok false, st) ->
  node_at st (O ++ [library_name]) = None ->
  template_at st "make_library" = Some (es, text) ->
  PyStr.is_ascii text = true ->
  staging st = Some (M, rest) ->
  ¬ template_place st "make_library" `prefix_of` M ->
  M ≠ O ++ [library_name] ->
  tree_fits (os_path_join out_dir library_name) (library_tree library_name es text) ->
  os_accepts (os_path_join (os_path_join (abs_str (cwd st)) out_dir) library_name)
  = true ->
  let st' := library_created st library_name out_dir O es text M rest in
  library_create library_name out_dir st =
    (Ok (os_path_join out_dir library_name), st')
  /\ library_exists library_name out_dir st' = (Ok true, st')
  /\ library_create library_name out_dir st' =
     (Raise (LibraryException
        ("The library " +:+ library_name +:+ " already exists under " +:+ out_dir)), st').
Proof.
  intros Hcwd Htmp Hname%entry_name_ok Hlower HO Hnolib Hfree Htpl _ Hst Hsrc HM _ _ st'.
  assert (library_exists library_name out_dir st' = (Ok true, st')) as Hex.
  { by apply lowercase_library_exists. }
  split_and!; [|done|].
  - by apply lowercase_library_created.
  - by apply library_create_exists_raises.
Qed.

Lemma library_create_lowercase_name_witness :
  library_create "mylib" "/ops" world_empty = (Ok "/ops/mylib", world_after_mylib)
  /\ library_exists "mylib" "/ops" world_after_mylib = (Ok true, world_after_mylib)
  /\ library_create "mylib" "/ops" world_after_mylib =
     (Raise (LibraryException "The library mylib already exists under /ops"),
      world_after_mylib).
Proof.
  refine (library_create_lowercase_name world_empty "mylib" "/ops" ["ops"]
    make_library_entries "# library LIBRARYNAME"
    ["tmp"; "tmpk3x9q2ab"] ["w8e1r5ty"; "z0z0z0z0"]
    eq_refl eq_refl eq_refl eq_refl eq_refl eq_refl eq_refl eq_refl eq_refl eq_refl
    _ _
    (tree_fits_substituted "/ops/mylib" "LIBRARYNAME" "mylib"
       "# library LIBRARYNAME" "# library LIBRARYNAME" eq_refl eq_refl)
    eq_refl).
  - intros [k Hk]. discriminate Hk.
  - discriminate.
Defined.

(** X13.  A successful [library_create] (for a name that is a single
    ASCII name accepted by the operating system, and a destination
    that is free) changes the file system only at the new library and
    at the directory made by [tempfile.mkdtemp]: that directory is
    left behind, empty, only its [tmp] subdirectory being removed.
    Its effects are, in order: the temporary directory and its [tmp]
    are made, the template is copied there, the initializer file is
    read and rewritten, the destination is made and filled, [tmp] is
    removed and one message is printed. *)
Theorem library_create_leaves st library_name out_dir O es text M rest :
  temp_ok st = true -> entry_name library_name = true ->
  resolve st out_dir = Some O ->
  library_exists library_name out_dir st = (Ok false, st) ->
  node_at st (O ++ [PyStr.lower library_name]) = None ->
  template_at st "make_library" = Some (es, text) ->
  PyStr.is_ascii text = true ->
  staging st = Some (M, rest) ->
  ¬ template_place st "make_library" `prefix_of` M ->
  M ≠ O ++ [PyStr.lower library_name] ->
  tree_fits (os_path_join out_dir (PyStr.lower library_name))
    (library_tree library_name es text) ->
  let path := os_path_join out_dir (PyStr.lower library_name) in
  let Tgt := O ++ [PyStr.lower library_name] in
  let D := M ++ ["tmp"] in
  let I := D ++ ["__init__.py"] in
  exists st',
    library_create library_name out_dir st = (Ok path, st')
    /\ node_at st' M = Some (Dir ∅)
    /\ node_at st' D = None
    /\ (forall Q, apart Tgt Q -> apart M Q -> node_at st' Q = node_at st Q)
    /\ trace st' = trace st ++
         [EvMkdir M; EvMkdir D; EvCopytree (template_place st "make_library") D;
          EvRead I; EvWrite I (pass "LIBRARYNAME" (PyStr.lower library_name) text);
          EvMkdir Tgt; EvCopytree D Tgt; EvRmtree D;
          EvPrint ("Library successfully created under: " +:+
                   os_path_join path "__init__.py") "green"].
Proof.
  intros Htmp Hname%entry_name_ok HO Hnolib Hfree Htpl _ Hst Hsrc HM _ path Tgt D I.
  exists (library_created st library_name out_dir O es text M rest).
  pose proof (created_out_dir st library_name out_dir O HO Hnolib) as HOd.
  split_and!.
  - by apply library_create_ok.
  - by apply scaffolded_staging_left.
  - by apply scaffolded_staging_left.
  - intros Q H1 H2. by apply scaffolded_apart.
  - reflexivity.
Qed.

Lemma library_create_leaves_witness :
  exists st',
    library_create "MyLib" "/ops" world_empty = (Ok "/ops/mylib", st')
    /\ node_at st' ["tmp"; "tmpk3x9q2ab"] = Some (Dir ∅)
    /\ node_at st' ["tmp"; "tmpk3x9q2ab"; "tmp"] = None.
Proof.
  refine (match library_create_leaves world_empty "MyLib" "/ops" ["ops"]
    make_library_entries "# library LIBRARYNAME"
    ["tmp"; "tmpk3x9q2ab"] ["w8e1r5ty"; "z0z0z0z0"]
    eq_refl eq_refl eq_refl eq_refl eq_refl eq_refl eq_refl eq_refl _ _
    (tree_fits_substituted "/ops/mylib" "LIBRARYNAME" "mylib"
       "# library LIBRARYNAME" "# library LIBRARYNAME" eq_refl eq_refl)
    with
    | ex_intro _ st' (conj Hrun (conj HM (conj HD _))) =>
        ex_intro _ st' (conj Hrun (conj HM HD))
    end).
  - intros [k Hk]. discriminate Hk.
  - discriminate.
Defined.

(** X14.  When no library of the name exists but the lowercased name
    (a single ASCII name, whose path the operating system accepts) is
    taken in [out_dir] by a directory or a file, [library_create]
    raises [FileExistsError] for the destination at the last copy; the
    staged copy of the template is not removed from the temporary
    directory, nothing is printed, and nothing changes outside the
    directory made by [tempfile.mkdtemp]. *)
Theorem library_create_destination_taken st library_name out_dir O es text M rest x :
  temp_ok st = true -> entry_name library_name = true ->
  resolve st out_dir = Some O ->
  library_exists library_name out_dir st = (Ok false, st) ->
  node_at st (O ++ [PyStr.lower library_name]) = Some x ->
  template_at st "make_library" = Some (es, text) ->
  PyStr.is_ascii text = true ->
  staging st = Some (M, rest) ->
  ¬ template_place st "make_library" `prefix_of` M ->
  os_accepts (os_path_join out_dir (PyStr.lower library_name)) = true ->
  let D := M ++ ["tmp"] in
  let I := D ++ ["__init__.py"] in
  exists st',
    library_create library_name out_dir st =
      (Raise (FileExistsError (os_path_join out_dir (PyStr.lower library_name))), st')
    /\ node_at st' D = Some (Dir (library_tree library_name es text))
    /\ (forall Q, apart M Q -> node_at st' Q = node_at st Q)
    /\ trace st' = trace st ++
         [EvMkdir M; EvMkdir D; EvCopytree (template_place st "make_library") D;
          EvRead I;
          EvWrite I (pass "LIBRARYNAME" (PyStr.lower library_name) text)].
Proof.
  intros Htmp Hname%entry_name_ok HO Hnolib Htaken Htpl _ Hst Hsrc _ D I.
  exists (staged st "make_library" "LIBRARYNAME" (PyStr.lower library_name)
            es text M rest).
  split_and!.
  - by apply (library_create_taken st library_name out_dir O).
  - by apply staged_copy_left.
  - intros Q HQ. by apply staged_apart.
  - reflexivity.
Qed.

Lemma library_create_destination_taken_witness :
  exists st',
    library_create "MyLib" "/ops" world_mylib =
      (Raise (FileExistsError "/ops/mylib"), st')
    /\ node_at st' ["tmp"; "tmpk3x9q2ab"; "tmp"]
       = Some (Dir {[ "__init__.py" := File "# library mylib" ]}).
Proof.
  refine (match library_create_destination_taken world_mylib "MyLib" "/ops" ["ops"]
    make_library_entries "# library LIBRARYNAME"
    ["tmp"; "tmpk3x9q2ab"] ["w8e1r5ty"; "z0z0z0z0"] _
    eq_refl eq_refl eq_refl eq_refl eq_refl eq_refl eq_refl eq_refl _ eq_refl
    with
    | ex_intro _ st' (conj Hrun (conj HD _)) => ex_intro _ st' (conj Hrun HD)
    end).
  intros [k Hk]. discriminate Hk.
Defined.

(** X15.  With a library name (a single ASCII name accepted by the
    operating system) that has an uppercase letter, a second
    [library_create] with the same arguments does not raise
    [LibraryException]: the existence check still misses the library
    made under the lowercased name, the template is staged again, and
    the last copy raises [FileExistsError], leaving the second staged
    copy behind. *)
Theorem library_create_twice_uppercase
    st library_name out_dir O es text M rest es2 text2 M2 rest2 :
  cwd_ok st = true -> temp_ok st = true -> entry_name library_name = true ->
  resolve st out_dir = Some O ->
  library_exists library_name out_dir st = (Ok false, st) ->
  node_at st (O ++ [PyStr.lower library_name]) = None ->
  template_at st "make_library" = Some (es, text) ->
  PyStr.is_ascii text = true ->
  staging st = Some (M, rest) ->
  ¬ template_place st "make_library" `prefix_of` M ->
  M ≠ O ++ [PyStr.lower library_name] ->
  PyStr.lower library_name ≠ library_name ->
  M ≠ O ++ [library_name] ->
  tree_fits (os_path_join out_dir (PyStr.lower library_name))
    (library_tree library_name es text) ->
  let st1 := library_created st library_name out_dir O es text M rest in
  template_at st1 "make_library" = Some (es2, text2) ->
  PyStr.is_ascii text2 = true ->
  staging st1 = Some (M2, rest2) ->
  ¬ template_place st1 "make_library" `prefix_of` M2 ->
  let st2 := staged st1 "make_library" "LIBRARYNAME" (PyStr.lower library_name)
               es2 text2 M2 rest2 in
  (_ ← library_create library_name out_dir; library_create library_name out_dir) st =
    (Raise (FileExistsError (os_path_join out_dir (PyStr.lower library_name))), st2)
  /\ node_at st2 (M2 ++ ["tmp"]) = Some (Dir (library_tree library_name es2 text2)).
Proof.
  intros Hcwd Htmp Hname%entry_name_ok HO Hnolib Hfree Htpl _ Hst Hsrc HM Hcase HM' _ st1
    Htpl2 _ Hst2 Hsrc2 st2.
  pose proof (created_out_dir st library_name out_dir O HO Hnolib) as HOd.
  assert (Htmp1 : temp_ok st1 = true) by by apply scaffolded_temp_ok.
  split; [|by apply staged_copy_left].
  rw (bind_ok _ _ _ _ _
        (library_create_ok st library_name out_dir O es text M rest
           Htmp Hname HO Hnolib Hfree Htpl Hst Hsrc HM)).
  apply (library_create_taken st1 library_name out_dir O); try done.
  - apply (extends_resolve st); [by apply created_extends|done].
  - by apply created_exists_verbatim.
  - rw /st1 created_library //.
Qed.

Lemma library_create_twice_uppercase_witness :
  ((_ ← library_create "MyLib" "/ops"; library_create "MyLib" "/ops") world_empty).1
  = Raise (FileExistsError "/ops/mylib").
Proof.
  refine (f_equal fst (proj1 (library_create_twice_uppercase world_empty "MyLib" "/ops"
    ["ops"] make_library_entries "# library LIBRARYNAME"
    ["tmp"; "tmpk3x9q2ab"] ["w8e1r5ty"; "z0z0z0z0"]
    make_library_entries "# library LIBRARYNAME"
    ["tmp"; "tmpw8e1r5ty"] ["z0z0z0z0"]
    eq_refl eq_refl eq_refl eq_refl eq_refl eq_refl eq_refl eq_refl eq_refl _ _ _ _
    (tree_fits_substituted "/ops/mylib" "LIBRARYNAME" "mylib"
       "# library LIBRARYNAME" "# library LIBRARYNAME" eq_refl eq_refl)
    eq_refl eq_refl eq_refl _))).
  - intros [k Hk]. discriminate Hk.
  - discriminate.
  - discriminate.
  - discriminate.
  - intros [k Hk]. discriminate Hk.
Defined.

(** ** [operation_create] *)

(** X16.  When the operations directory is not an existing directory,
    [operation_create] raises the [FileNotFoundError] of
    [library_exists] and makes nothing: neither a library nor an
    operation. *)
Theorem operation_create_missing_root st operations_dir library_name operation_name :
  isdir st operations_dir = false ->
  operation_create operations_dir library_name operation_name st =
  (Raise (FileNotFoundError (operations_dir +:+ " does not exist.")), st).
Proof. apply operation_create_missing_dir. Qed.

Lemma operation_create_missing_root_witness :
  operation_create "/nowhere" "mylib" "do_thing" world_empty =
  (Raise (FileNotFoundError "/nowhere does not exist."), world_empty).
Proof.
  exact (operation_create_missing_root world_empty "/nowhere" "mylib" "do_thing" eq_refl).
Defined.

(** X17.  When the library and the operation exist,
    [operation_create] raises [OperationException] with the path of
    the operation followed by [" already exists."], and changes
    nothing. *)
Theorem operation_create_existing_operation
    st operations_dir library_name operation_name :
  library_exists library_name operations_dir st = (Ok true, st) ->
  operation_exists operations_dir library_name operation_name st = (Ok true, st) ->
  operation_create operations_dir library_name operation_name st =
  (Raise (OperationException
     (os_path_join (os_path_join operations_dir library_name) operation_name
      +:+ " already exists.")), st).
Proof. apply operation_create_exists_raises. Qed.

Lemma operation_create_existing_operation_witness :
  operation_create "/ops" "mylib" "do_thing" world_mylib =
  (Raise (OperationException "/ops/mylib/do_thing already exists."), world_mylib).
Proof.
  exact (operation_create_existing_operation world_mylib "/ops" "mylib" "do_thing"
           eq_refl eq_refl).
Defined.

(** X18.  In a library that exists, whatever the case of its name,
    [operation_create] makes an operation whose name is a single
    ASCII name accepted by the operating system, without touching the
    library otherwise: it returns the operations directory joined
    with the library name and the operation name, the initializer
    file of the operation has the text of the template, read with
    universal newlines, with the camel-cased operation name in place
    of the placeholder, [operation_exists] and [library_exists] are
    true afterwards, and nothing changes away from the new operation
    and the directory made by [tempfile.mkdtemp]. *)
Theorem operation_create_in_existing_library
    st operations_dir library_name operation_name L es text M rest :
  cwd_ok st = true -> temp_ok st = true -> entry_name operation_name = true ->
  library_exists library_name operations_dir st = (Ok true, st) ->
  resolve st (os_path_join operations_dir library_name) = Some L ->
  node_at st (L ++ [operation_name]) = None ->
  template_at st "make_operation" = Some (es, text) ->
  PyStr.is_ascii text = true ->
  staging st = Some (M, rest) ->
  ¬ template_place st "make_operation" `prefix_of` M ->
  M ≠ L ++ [operation_name] ->
  tree_fits (os_path_join (os_path_join operations_dir library_name) operation_name)
    (operation_tree operation_name es text) ->
  let path := os_path_join (os_path_join operations_dir library_name) operation_name in
  let st' := operation_created st operations_dir library_name operation_name
               L es text M rest in
  operation_create operations_dir library_name operation_name st = (Ok path, st')
  /\ node_at st' (L ++ [operation_name] ++ ["__init__.py"])
     = Some (File (pass "NEWOPERATION" (camel_case operation_name) text))
  /\ operation_exists operations_dir library_name operation_name st' = (Ok true, st')
  /\ library_exists library_name operations_dir st' = (Ok true, st')
  /\ (forall Q, apart (L ++ [operation_name]) Q -> apart M Q ->
        node_at st' Q = node_at st Q).
Proof.
  intros Hcwd Htmp Hop%entry_name_ok Hlib HL Hfree Htpl _ Hst Hsrc HM _ path st'.
  split_and!.
  - by apply in_library_create_ok.
  - by apply in_library_initializer.
  - by apply in_library_exists.
  - by apply in_library_library_exists.
  - intros Q H1 H2. by apply scaffolded_apart.
Qed.

Lemma operation_create_in_existing_library_witness :
  (operation_create "/ops" "mylib" "other_thing" world_mylib).1
  = Ok "/ops/mylib/other_thing".
Proof.
  refine (f_equal fst (proj1 (operation_create_in_existing_library world_mylib
    "/ops" "mylib" "other_thing" ["ops"; "mylib"]
    make_operation_entries "class NEWOPERATION(Operation): pass"
    ["tmp"; "tmpk3x9q2ab"] ["w8e1r5ty"; "z0z0z0z0"]
    eq_refl eq_refl eq_refl eq_refl eq_refl eq_refl eq_refl eq_refl eq_refl _ _
    (tree_fits_substituted "/ops/mylib/other_thing" "NEWOPERATION" "OtherThing"
       "class NEWOPERATION(Operation): pass" "class NEWOPERATION(Operation): pass"
       eq_refl eq_refl)))).
  - intros [k Hk]. discriminate Hk.
  - discriminate.
Defined.

(** X19.  Two calls of [operation_create] in a row with the same
    arguments, in a library that exists and for an operation whose
    name is a single ASCII name accepted by the operating system: the
    first makes the operation, the second raises [OperationException]
    and adds nothing to what the first has done. *)
Theorem operation_create_twice
    st operations_dir library_name operation_name L es text M rest :
  cwd_ok st = true -> temp_ok st = true -> entry_name operation_name = true ->
  library_exists library_name operations_dir st = (Ok true, st) ->
  resolve st (os_path_join operations_dir library_name) = Some L ->
  node_at st (L ++ [operation_name]) = None ->
  template_at st "make_operation" = Some (es, text) ->
  PyStr.is_ascii text = true ->
  staging st = Some (M, rest) ->
  ¬ template_place st "make_operation" `prefix_of` M ->
  M ≠ L ++ [operation_name] ->
  tree_fits (os_path_join (os_path_join operations_dir library_name) operation_name)
    (operation_tree operation_name es text) ->
  (_ ← operation_create operations_dir library_name operation_name;
   operation_create operations_dir library_name operation_name) st =
  (Raise (OperationException
     (os_path_join (os_path_join operations_dir library_name) operation_name
      +:+ " already exists.")),
   operation_created st operations_dir library_name operation_name L es text M rest).
Proof.
  intros Hcwd Htmp Hop%entry_name_ok Hlib HL Hfree Htpl _ Hst Hsrc HM _.
  rw (bind_ok _ _ _ _ _
        (in_library_create_ok st operations_dir library_name operation_name L es text
           M rest Hcwd Htmp Hop Hlib HL Hfree Htpl Hst Hsrc HM)).
  by apply in_library_again.
Qed.

Lemma operation_create_twice_witness :
  ((_ ← operation_create "/ops" "mylib" "other_thing";
    operation_create "/ops" "mylib" "other_thing") world_mylib).1
  = Raise (OperationException "/ops/mylib/other_thing already exists.").
Proof.
  refine (f_equal fst (operation_create_twice world_mylib
    "/ops" "mylib" "other_thing" ["ops"; "mylib"]
    make_operation_entries "class NEWOPERATION(Operation): pass"
    ["tmp"; "tmpk3x9q2ab"] ["w8e1r5ty"; "z0z0z0z0"]
    eq_refl eq_refl eq_refl eq_refl eq_refl eq_refl eq_refl eq_refl eq_refl _ _
    (tree_fits_substituted "/ops/mylib/other_thing" "NEWOPERATION" "OtherThing"
       "class NEWOPERATION(Operation): pass" "class NEWOPERATION(Operation): pass"
       eq_refl eq_refl))).
  - intros [k Hk]. discriminate Hk.
  - discriminate.
Defined.

(** X20.  With a library name without an uppercase letter and no such
    library yet (the library and operation names being single ASCII
    names, and the paths made from them accepted by the operating
    system), [operation_create] makes the library, then the operation
    in it, and returns the operations directory joined with the
    library name and the operation name; afterwards [library_exists]
    and [operation_exists] are true, and the initializer file of the
    operation has the text of the template, read with universal
    newlines, with the camel-cased operation name in place of the
    placeholder. *)
Theorem operation_create_new_lowercase_library
    st operations_dir library_name operation_name O es text M rest es2 text2 M2 rest2 :
  cwd_ok st = true -> temp_ok st = true ->
  entry_name library_name = true -> PyStr.lower library_name = library_name ->
  entry_name operation_name = true ->
  resolve st operations_dir = Some O ->
  library_exists library_name operations_dir st = (Ok false, st) ->
  node_at st (O ++ [library_name]) = None ->
  template_at st "make_library" = Some (es, text) ->
  PyStr.is_ascii text = true ->
  staging st = Some (M, rest) ->
  ¬ template_place st "make_library" `prefix_of` M ->
  M ≠ O ++ [library_name] ->
  es !! operation_name = None ->
  tree_fits (os_path_join operations_dir library_name)
    (library_tree library_name es text) ->
  os_accepts (os_path_join (os_path_join (abs_str (cwd st)) operations_dir) library_name)
  = true ->
  let st1 := library_created st library_name operations_dir O es text M rest in
  template_at st1 "make_operation" = Some (es2, text2) ->
  PyStr.is_ascii text2 = true ->
  staging st1 = Some (M2, rest2) ->
  ¬ template_place st1 "make_operation" `prefix_of` M2 ->
  tree_fits (os_path_join (os_path_join operations_dir library_name) operation_name)
    (operation_tree operation_name es2 text2) ->
  let path := os_path_join (os_path_join operations_dir library_name) operation_name in
  let st2 := operation_created st1 operations_dir library_name operation_name
               (O ++ [library_name]) es2 text2 M2 rest2 in
  operation_create operations_dir library_name operation_name st = (Ok path, st2)
  /\ library_exists library_name operations_dir st2 = (Ok true, st2)
  /\ operation_exists operations_dir library_name operation_name st2 = (Ok true, st2)
  /\ node_at st2 (O ++ [library_name; operation_name; "__init__.py"])
     = Some (File (pass "NEWOPERATION" (camel_case operation_name) text2)).
Proof.
  intros Hcwd Htmp Hname%entry_name_ok Hlower Hop%entry_name_ok HO Hnolib Hfree Htpl _
    Hst Hsrc HM Hentry _ _ st1 Htpl2 _ Hst2 Hsrc2 _ path st2.
  split_and!.
  - by apply operation_create_ok.
  - by apply (operation_created_library_exists st operations_dir library_name
                operation_name O es text M rest es2 text2 M2 rest2).
  - by apply (operation_created_exists st operations_dir library_name
                operation_name O es text M rest es2 text2 M2 rest2).
  - assert (node_at st2 ((O ++ [library_name]) ++ [operation_name])
            = Some (Dir (operation_tree operation_name es2 text2))) as Hnode.
    { apply scaffolded_target; try done;
        first [ by rw (lowercase_library_node st operations_dir library_name
                         O es text M rest)
              | by apply (operation_free st operations_dir library_name operation_name
                            O es text M rest)
              | by apply (operation_staging_apart st operations_dir library_name
                            operation_name O es text M rest es2 text2 M2 rest2) ]. }
    change (O ++ [library_name; operation_name; "__init__.py"])
      with (O ++ [library_name] ++ [operation_name] ++ ["__init__.py"]).
    rw !app_assoc node_at_below Hnode /= /operation_tree /substitute_tree.
    by rw lookup_insert_eq.
Qed.

Lemma operation_create_new_lowercase_library_witness :
  operation_create "/ops" "mylib" "do_thing" world_empty =
    (Ok "/ops/mylib/do_thing", world_after_do_thing)
  /\ library_exists "mylib" "/ops" world_after_do_thing = (Ok true, world_after_do_thing)
  /\ operation_exists "/ops" "mylib" "do_thing" world_after_do_thing
     = (Ok true, world_after_do_thing)
  /\ node_at world_after_do_thing ["ops"; "mylib"; "do_thing"; "__init__.py"]
     = Some (File "class DoThing(Operation): pass").
Proof.
  refine (operation_create_new_lowercase_library world_empty "/ops" "mylib" "do_thing"
    ["ops"] make_library_entries "# library LIBRARYNAME" ["tmp"; "tmpk3x9q2ab"]
    ["w8e1r5ty"; "z0z0z0z0"] make_operation_entries
    "class NEWOPERATION(Operation): pass" ["tmp"; "tmpw8e1r5ty"] ["z0z0z0z0"]
    eq_refl eq_refl eq_refl eq_refl eq_refl eq_refl eq_refl eq_refl eq_refl eq_refl
    eq_refl _ _ eq_refl
    (tree_fits_substituted "/ops/mylib" "LIBRARYNAME" "mylib"
       "# library LIBRARYNAME" "# library LIBRARYNAME" eq_refl eq_refl)
    eq_refl eq_refl eq_refl eq_refl _
    (tree_fits_substituted "/ops/mylib/do_thing" "NEWOPERATION" "DoThing"
       "class NEWOPERATION(Operation): pass" "class NEWOPERATION(Operation): pass"
       eq_refl eq_refl)).
  - intros [k Hk]. discriminate Hk.
  - discriminate.
  - intros [k Hk]. discriminate Hk.
Defined.

(** X21.  When the directory of the operation (a single ASCII name,
    whose path the operating system accepts) is there without an
    initializer file, or a file has the name of the operation,
    [operation_exists] is false and [operation_create] does not raise
    [OperationException]: the last copy raises [FileExistsError] for
    the path of the operation, and the staged copy of the template,
    with the placeholder replaced in its text read with universal
    newlines, is left in the temporary directory. *)
Theorem operation_create_directory_taken
    st operations_dir library_name operation_name L es text M rest x :
  cwd_ok st = true -> temp_ok st = true -> entry_name operation_name = true ->
  library_exists library_name operations_dir st = (Ok true, st) ->
  operation_exists operations_dir library_name operation_name st = (Ok false, st) ->
  resolve st (os_path_join operations_dir library_name) = Some L ->
  node_at st (L ++ [operation_name]) = Some x ->
  template_at st "make_operation" = Some (es, text) ->
  PyStr.is_ascii text = true ->
  staging st = Some (M, rest) ->
  ¬ template_place st "make_operation" `prefix_of` M ->
  os_accepts (os_path_join (os_path_join operations_dir library_name) operation_name)
  = true ->
  exists st',
    operation_create operations_dir library_name operation_name st =
      (Raise (FileExistsError
         (os_path_join (os_path_join operations_dir library_name) operation_name)), st')
    /\ node_at st' (M ++ ["tmp"]) = Some (Dir (operation_tree operation_name es text))
    /\ node_at st' (M ++ ["tmp"; "__init__.py"])
       = Some (File (pass "NEWOPERATION" (camel_case operation_name) text))
    /\ (forall Q, apart M Q -> node_at st' Q = node_at st Q).
Proof.
  intros Hcwd Htmp Hop%entry_name_ok Hlib Hnoop HL Htaken Htpl _ Hst Hsrc _.
  exists (staged st "make_operation" "NEWOPERATION" (camel_case operation_name)
            es text M rest).
  assert (node_at (staged st "make_operation" "NEWOPERATION"
                     (camel_case operation_name) es text M rest) (M ++ ["tmp"])
          = Some (Dir (operation_tree operation_name es text))) as Hnode.
  { by apply staged_copy_left. }
  split_and!.
  - by apply (operation_create_taken st operations_dir library_name operation_name L).
  - done.
  - change (M ++ ["tmp"; "__init__.py"]) with (M ++ ["tmp"] ++ ["__init__.py"]).
    rw app_assoc node_at_below Hnode /= /operation_tree /substitute_tree.
    by rw lookup_insert_eq.
  - intros Q HQ. by apply staged_apart.
Qed.

Lemma operation_create_directory_taken_witness :
  exists st',
    operation_create "/ops" "mylib" "do_thing" world_bare =
      (Raise (FileExistsError "/ops/mylib/do_thing"), st')
    /\ node_at st' ["tmp"; "tmpk3x9q2ab"; "tmp"]
       = Some (Dir {[ "__init__.py" := File "class DoThing(Operation): pass" ]}).
Proof.
  refine (match operation_create_directory_taken world_bare "/ops" "mylib" "do_thing"
    ["ops"; "mylib"] make_operation_entries "class NEWOPERATION(Operation): pass"
    ["tmp"; "tmpk3x9q2ab"] ["w8e1r5ty"; "z0z0z0z0"] _
    eq_refl eq_refl eq_refl eq_refl eq_refl eq_refl eq_refl eq_refl eq_refl eq_refl _
    eq_refl
    with
    | ex_intro _ st' (conj Hrun (conj HD _)) => ex_intro _ st' (conj Hrun HD)
    end).
  intros [k Hk]. discriminate Hk.
Defined.

(** ** The templates and the current working directory *)

(** X22.  The templates are looked up relative to the current working
    directory: when it has no entry named [operations], neither a
    directory nor a file, [library_create] (for a name that is free)
    and [operation_create] (in a library that exists, for an operation
    that does not) raise [FileNotFoundError] for the path of the
    template at the first copy, after [tempfile.mkdtemp] has made its
    directory, which stays. *)
Theorem scaffolding_without_templates st M rest :
  cwd_ok st = true -> temp_ok st = true ->
  staging st = Some (M, rest) ->
  node_at st (cwd st ++ ["operations"]) = None ->
  exists st',
    (forall library_name out_dir,
       library_exists library_name out_dir st = (Ok false, st) ->
       library_create library_name out_dir st =
       (Raise (FileNotFoundError "operations/base/utils/templates/make_library"), st'))
    /\ (forall operations_dir library_name operation_name,
          library_exists library_name operations_dir st = (Ok true, st) ->
          operation_exists operations_dir library_name operation_name st
          = (Ok false, st) ->
          operation_create operations_dir library_name operation_name st =
          (Raise (FileNotFoundError "operations/base/utils/templates/make_operation"),
           st'))
    /\ node_at st' M = Some (Dir ∅)
    /\ (forall Q, apart M Q -> node_at st' Q = node_at st Q)
    /\ trace st' = trace st ++ [EvMkdir M].
Proof.
  intros Hcwd Htmp Hst Hnone.
  exists (set_node M (fun _ => Some (Dir ∅)) (EvMkdir M) (set_temp_names rest st)).
  split_and!.
  - intros library_name out_dir Hnolib.
    assert (Hisdir : isdir st out_dir = true).
    { pose proof Hnolib as H. rw library_exists_eq in H. by destruct (isdir st out_dir). }
    rw /library_create (bind_ok _ _ _ _ _ Hnolib). cbn match.
    rw bind_eq /os_path_isdir Hisdir. cbn [negb]. cbn match.
    by apply (scaffold_no_template st M rest Hcwd Htmp Hst Hnone "make_library").
  - intros operations_dir library_name operation_name Hlib Hnoop.
    rw /operation_create (bind_ok _ _ _ _ _ Hlib).
    rw bind_eq /when_. cbn [negb mret M_ret].
    rw (bind_ok _ _ _ _ _ Hnoop). cbn match.
    rw to_camel_case_ok.
    by apply (scaffold_no_template st M rest Hcwd Htmp Hst Hnone "make_operation"
                "NEWOPERATION" (camel_case operation_name)).
  - by apply no_template_left.
  - intros Q HQ. by apply no_template_apart.
  - reflexivity.
Qed.

Lemma scaffolding_without_templates_witness :
  exists st',
    library_create "mylib" "/ops" world_elsewhere =
    (Raise (FileNotFoundError "operations/base/utils/templates/make_library"), st')
    /\ node_at st' ["tmp"; "tmpk3x9q2ab"] = Some (Dir ∅).
Proof.
  refine (match scaffolding_without_templates world_elsewhere
                  ["tmp"; "tmpk3x9q2ab"] ["w8e1r5ty"; "z0z0z0z0"]
                  eq_refl eq_refl eq_refl eq_refl with
          | ex_intro _ st' (conj Hlib (conj _ (conj HM _))) =>
              ex_intro _ st' (conj (Hlib "mylib" "/ops" eq_refl) HM)
          end).
Defined.

(** ** Two operations *)

(** X23.  Two operations with different names (single ASCII names,
    the paths made from them accepted by the operating system) made
    one after the other in a library that exists: the second call
    returns the path of the second operation, both operations exist
    afterwards, and the tree of the first is as the first call left
    it. *)
Theorem operation_create_two_operations
    st operations_dir library_name first second L es text M rest es2 text2 M2 rest2 :
  cwd_ok st = true -> temp_ok st = true ->
  entry_name first = true -> entry_name second = true -> first ≠ second ->
  library_exists library_name operations_dir st = (Ok true, st) ->
  resolve st (os_path_join operations_dir library_name) = Some L ->
  node_at st (L ++ [first]) = None ->
  node_at st (L ++ [second]) = None ->
  template_at st "make_operation" = Some (es, text) ->
  PyStr.is_ascii text = true ->
  staging st = Some (M, rest) ->
  ¬ template_place st "make_operation" `prefix_of` M ->
  M ≠ L ++ [first] -> M ≠ L ++ [second] ->
  tree_fits (os_path_join (os_path_join operations_dir library_name) first)
    (operation_tree first es text) ->
  let st1 := operation_created st operations_dir library_name first L es text M rest in
  template_at st1 "make_operation" = Some (es2, text2) ->
  PyStr.is_ascii text2 = true ->
  staging st1 = Some (M2, rest2) ->
  ¬ template_place st1 "make_operation" `prefix_of` M2 ->
  M2 ≠ L ++ [second] ->
  tree_fits (os_path_join (os_path_join operations_dir library_name) second)
    (operation_tree second es2 text2) ->
  let st2 := operation_created st1 operations_dir library_name second
               L es2 text2 M2 rest2 in
  (_ ← operation_create operations_dir library_name first;
   operation_create operations_dir library_name second) st =
    (Ok (os_path_join (os_path_join operations_dir library_name) second), st2)
  /\ operation_exists operations_dir library_name first st2 = (Ok true, st2)
  /\ operation_exists operations_dir library_name second st2 = (Ok true, st2)
  /\ (forall Q, node_at st2 ((L ++ [first]) ++ Q) = node_at st1 ((L ++ [first]) ++ Q)).
Proof.
  intros Hcwd Htmp Hfirst%entry_name_ok Hsecond%entry_name_ok Hne Hlib HL Hfree Hfree'
    Htpl _ Hst Hsrc HM HM' _ st1 Htpl2 _ Hst2 Hsrc2 HM2 _ st2.
  split_and!.
  - rw (bind_ok _ _ _ _ _
          (in_library_create_ok st operations_dir library_name first L es text
             M rest Hcwd Htmp Hfirst Hlib HL Hfree Htpl Hst Hsrc HM)).
    by apply (two_second_ok st operations_dir library_name first second L es text M rest
                es2 text2 M2 rest2).
  - by apply (two_first_exists st operations_dir library_name first second L es text
                M rest es2 text2 M2 rest2).
  - by apply (two_second_exists st operations_dir library_name first second L es text
                M rest es2 text2 M2 rest2).
  - intros Q.
    by apply (two_first_kept st operations_dir library_name first second L es text
                M rest es2 text2 M2 rest2).
Qed.

Lemma operation_create_two_operations_witness :
  ((_ ← operation_create "/ops" "mylib" "alpha";
    operation_create "/ops" "mylib" "beta") world_mylib).1
  = Ok "/ops/mylib/beta".
Proof.
  refine (f_equal fst (proj1 (operation_create_two_operations world_mylib
    "/ops" "mylib" "alpha" "beta" ["ops"; "mylib"]
    make_operation_entries "class NEWOPERATION(Operation): pass"
    ["tmp"; "tmpk3x9q2ab"] ["w8e1r5ty"; "z0z0z0z0"]
    make_operation_entries "class NEWOPERATION(Operation): pass"
    ["tmp"; "tmpw8e1r5ty"] ["z0z0z0z0"]
    eq_refl eq_refl eq_refl eq_refl _ eq_refl eq_refl eq_refl eq_refl eq_refl eq_refl
    eq_refl _ _ _
    (tree_fits_substituted "/ops/mylib/alpha" "NEWOPERATION" "Alpha"
       "class NEWOPERATION(Operation): pass" "class NEWOPERATION(Operation): pass"
       eq_refl eq_refl)
    eq_refl eq_refl eq_refl _ _
    (tree_fits_substituted "/ops/mylib/beta" "NEWOPERATION" "Beta"
       "class NEWOPERATION(Operation): pass" "class NEWOPERATION(Operation): pass"
       eq_refl eq_refl)))).
  - discriminate.
  - intros [k Hk]. discriminate Hk.
  - discriminate.
  - discriminate.
  - intros [k Hk]. discriminate Hk.
  - discriminate.
Defined.
